(** * python_bot.py: the Telegram WebApp demo bot

    A shallow embedding of [examples/bots/python_bot.py] and the properties
    of its two handlers ([start], [handle_web_app_data]) and of [main].

    Modelling conventions.
    - A Python [str] is a Rocq [string] holding the UTF-8 bytes of the text.
    - A Python [int] is a [Z]; a Python [float] is an IEEE-754 binary64 value,
      a [spec_float] of the Standard Library.
    - The values [json.loads] can return are the inductive [pyobj]; a [dict]
      is an association list in insertion order with distinct keys.
    - Handlers run in the monad [M]: a log of the outbound events
      ([reply_text], [print], [run_polling]) and either a result or a raised
      exception.  The Telegram transport is the external collaborator of
      the script: [reply_text] and [run_polling] are recorded and return
      normally.
    - What depends on the interpreter that runs the script is a parameter,
      the record [Interpreter]: the levels of nesting [json.loads] can
      enter before [RecursionError], the encoding of the standard output,
      which makes [print] raise [UnicodeEncodeError] on a text it does not
      have, and the [repr] of floats and strings.  Once a text is
      encoded, writing it does not fail.  The limit of 4300 digits on the
      conversion of a text to an [int] is the default of CPython, which
      the script keeps.  Memory is not bounded.
    - [Application.builder().token(t).build()] raises [InvalidToken] on an
      empty token, as the library does before any request is made.
    - [context.bot_data] is a [gmap string string]. *)

From Stdlib Require Import ZArith Lia Bool List Ascii String.
From Stdlib Require Import Floats.SpecFloat.
From Stdlib Require DecimalString DecimalPos DecimalFacts.
From stdpp Require Import base option list strings gmap.

Local Open Scope Z_scope.

(** ** Python floats: correctly rounded binary64 arithmetic *)

Module Float.

Definition prec : Z := 53.
Definition emax : Z := 1024.
(** exponent of the least significant bit of a subnormal *)
Definition emin : Z := 3 - emax - prec.

(** [num / den] rounded to the nearest integer, ties to even ([0 < den]). *)
Definition round_half_even (num den : Z) : Z :=
  let q := num / den in
  let r := num mod den in
  if 2 * r <? den then q
  else if den <? 2 * r then q + 1
  else if Z.even q then q else q + 1.

(** [floor (log2 (num / den))] for [0 < num] and [0 < den]. *)
Definition floor_log2_ratio (num den : Z) : Z :=
  let l := Z.log2 num - Z.log2 den in
  let reaches := if 0 <=? l then den * 2 ^ l <=? num
                 else den <=? num * 2 ^ (- l) in
  if reaches then l else l - 1.

(** [num / den / 2^e] rounded to the nearest integer, ties to even. *)
Definition scaled_round (num den e : Z) : Z :=
  if 0 <=? e then round_half_even num (den * 2 ^ e)
  else round_half_even (num * 2 ^ (- e)) den.

(** The binary64 nearest to [(-1)^s * num / den] (round to nearest, ties
    to even), for [0 <= num] and [0 < den]: gradual underflow to
    subnormals and zero, overflow to infinity. *)
Definition round_binary64 (s : bool) (num den : Z) : spec_float :=
  if num <=? 0 then S754_zero s
  else
    let e := Z.max (floor_log2_ratio num den - (prec - 1)) emin in
    let m := scaled_round num den e in
    let '(m, e) := if m =? 2 ^ prec then (2 ^ (prec - 1), e + 1) else (m, e) in
    match m with
    | Zpos p => if e <=? emax - prec then S754_finite s p e
                else S754_infinity s
    | _ => S754_zero s
    end.

(** [float(n)] for a Python int that fits (used for the literal [100]). *)
Definition of_int (n : Z) : spec_float :=
  round_binary64 (n <? 0) (Z.abs n) 1.

(** [x / y] on floats for a finite nonzero [y]: the exact quotient,
    correctly rounded. *)
Definition div (x y : spec_float) : spec_float :=
  match x, y with
  | S754_finite sx mx ex, S754_finite sy my ey =>
      let e := ex - ey in
      if 0 <=? e then round_binary64 (xorb sx sy) (Zpos mx * 2 ^ e) (Zpos my)
      else round_binary64 (xorb sx sy) (Zpos mx) (Zpos my * 2 ^ (- e))
  | _, _ => SFdiv prec emax x y
  end.

(** Python [str(int)]. *)
Definition str_int (n : Z) : string :=
  DecimalString.NilEmpty.string_of_int (Z.to_int n).

Definition digit (d : Z) : string :=
  String (ascii_of_N (Z.to_N (48 + d))) EmptyString.

(** A count of hundredths printed with two decimals: [1234] is [12.34]. *)
Definition hundredths (s : bool) (k : Z) : string :=
  (if s then "-" else "") +:+ str_int (k / 100) +:+ "."
    +:+ digit (k mod 100 / 10) +:+ digit (k mod 10).

(** Python [format(x, ".2f")]: the exact binary value of [x] rounded to
    two decimals, ties to even. *)
Definition format_2f (x : spec_float) : string :=
  match x with
  | S754_nan => "nan"
  | S754_infinity s => if s then "-inf" else "inf"
  | S754_zero s => hundredths s 0
  | S754_finite s m e => hundredths s (scaled_round (100 * Zpos m) 1 (- e))
  end.

(** The least count of cents whose quotient by 100 rounds beyond the
    largest float: [100 * (max_float + half an ulp)]. *)
Definition overflow_cents : Z := 100 * (2 ^ 1024 - 2 ^ 970).

End Float.



(** ** Python objects, exceptions and the effect monad *)

(** The values [json.loads] can produce. *)
#[warnings="-register-all"]
Inductive pyobj : Type :=
| PyNone
| PyBool (b : bool)
| PyInt (n : Z)
| PyFloat (x : spec_float)
| PyStr (s : string)
| PyList (items : list pyobj)
| PyDict (entries : list (string * pyobj)).

(** [type(o).__name__] *)
Definition type_name (o : pyobj) : string :=
  match o with
  | PyNone => "NoneType"
  | PyBool _ => "bool"
  | PyInt _ => "int"
  | PyFloat _ => "float"
  | PyStr _ => "str"
  | PyList _ => "list"
  | PyDict _ => "dict"
  end.

(** [d.get(k)] on the entries of a dict. *)
Fixpoint dict_lookup (d : list (string * pyobj)) (k : string) : option pyobj :=
  match d with
  | [] => None
  | (k', v) :: d' => if String.eqb k' k then Some v else dict_lookup d' k
  end.

(** [d[k] = v]: a present key keeps its position, a new key goes last. *)
Fixpoint dict_setitem (d : list (string * pyobj)) (k : string) (v : pyobj)
  : list (string * pyobj) :=
  match d with
  | [] => [(k, v)]
  | (k', v') :: d' =>
      if String.eqb k' k then (k', v) :: d' else (k', v') :: dict_setitem d' k v
  end.

(** [dict(pairs)] *)
Definition dict_of_pairs (pairs : list (string * pyobj)) : list (string * pyobj) :=
  fold_left (fun d kv => dict_setitem d (fst kv) (snd kv)) pairs [].

(** The exceptions the script meets.  [SystemExit] derives from
    [BaseException] only; the others derive from [Exception]
    ([JSONDecodeError] through [ValueError], [InvalidToken] through
    [TelegramError]). *)
Inductive exn : Type :=
| JSONDecodeError
| RecursionError (msg : string)
| ValueError (msg : string)
| AttributeError (msg : string)
| TypeError (msg : string)
| OverflowError (msg : string)
| UnicodeEncodeError (msg : string)
| IndexError (msg : string)
| InvalidToken
| SystemExit (code : Z).

(** [isinstance(e, json.JSONDecodeError)] *)
Definition is_JSONDecodeError (e : exn) : bool :=
  match e with JSONDecodeError => true | _ => false end.

(** [isinstance(e, Exception)] *)
Definition is_Exception (e : exn) : bool :=
  match e with SystemExit _ => false | _ => true end.

(** [str(e)] for the exceptions whose text the script reads: the ones
    its [except Exception] clause can catch.  [JSONDecodeError] is caught
    by the clause before it and [InvalidToken] is raised in [main], where
    no text is read: theirs is left empty. *)
Definition exn_str (e : exn) : string :=
  match e with
  | JSONDecodeError | InvalidToken => ""
  | RecursionError m | ValueError m | AttributeError m | TypeError m
  | OverflowError m | UnicodeEncodeError m | IndexError m => m
  | SystemExit c => Float.str_int c
  end.

Record WebAppInfo := { url : string }.
Record InlineKeyboardButton := { text : string; web_app : WebAppInfo }.
Record InlineKeyboardMarkup := { inline_keyboard : list (list InlineKeyboardButton) }.

(** The handlers registered on the application. *)
Inductive callback := cb_start | cb_handle_web_app_data.
Inductive handler :=
| CommandHandler (command : string) (cb : callback)
| MessageHandler_WEB_APP_DATA (cb : callback).

Record Application := {
  token : string;
  bot_data : gmap string string;
  handlers : list handler
}.

(** What a run leaves in the outside world, in order. *)
Inductive event : Type :=
| ReplyText (message : string) (reply_markup : option InlineKeyboardMarkup)
| Print (line : string)
| RunPolling (app : Application).

(** A computation: the events it emitted and how it ended. *)
Definition M (A : Type) : Type := list event * (exn + A).

#[global] Instance M_ret : MRet M := fun A a => ([], inr a).
#[global] Instance M_bind : MBind M := fun A B k m =>
  match m with
  | (tr, inl e) => (tr, inl e)
  | (tr, inr a) => let '(tr', r) := k a in (tr ++ tr', r)
  end.

Definition raise {A} (e : exn) : M A := ([], inl e).
Definition emit (ev : event) : M unit := ([ev], inr tt).

(** [try: body / except: handle e] *)
Definition try_except {A} (body : M A) (handle : exn -> M A) : M A :=
  match body with
  | (tr, inl e) => let '(tr', r) := handle e in (tr ++ tr', r)
  | (tr, inr a) => (tr, inr a)
  end.

Definition reply_text (message : string) (markup : option InlineKeyboardMarkup)
  : M unit := emit (ReplyText message markup).

(** ASCII line feed, the [\n] of the Python literals. *)
Definition LF : string := String (ascii_of_N 10) EmptyString.


(** ** The interpreter *)

(** A text of ASCII characters only. *)
Definition is_ascii_char (c : ascii) : bool :=
  match c with Ascii _ _ _ _ _ _ _ b7 => negb b7 end.

Fixpoint is_ascii (s : string) : bool :=
  match s with
  | EmptyString => true
  | String c rest => is_ascii_char c && is_ascii rest
  end.

(** What the script leaves to the interpreter that runs it.
    - [float_repr] and [str_repr] are [float.__repr__] and [str.__repr__],
      met only when a payload field holds a float or a container.
    - [json.loads] can enter [S nesting_spare] nested arrays and objects
      before the interpreter raises [RecursionError]: the recursion limit
      (1000 unless changed) less the frames in use where the handler calls
      it.  The script is not run at the brink of the limit: one array or
      object can always be entered.
    - [encodes text] tells whether the encoding of [sys.stdout] has every
      character of a text that is not all ASCII (an ASCII text is written
      by every encoding of a standard stream); [encode_error text] is the
      [str] of the [UnicodeEncodeError] raised when it has not, an ASCII
      text: it names the codec, escapes the character and gives its
      position. *)
Record Interpreter := {
  float_repr : spec_float -> string;
  str_repr : string -> string;
  nesting_spare : nat;
  encodes : string -> bool;
  encode_error : string -> string;
  encode_error_ascii : forall text, is_ascii (encode_error text) = true
}.

(** whether [print(text)] can encode [text] *)
Definition printable (py : Interpreter) (text : string) : bool :=
  is_ascii text || encodes py text.

(** [print(line)]: the line is encoded, then written; nothing is written
    of a line that cannot be encoded. *)
Definition print (py : Interpreter) (line : string) : M unit :=
  if printable py line then emit (Print line)
  else raise (UnicodeEncodeError (encode_error py line)).

(** [sys.get_int_max_str_digits()]: the digits an [int] can have when it is
    read from or written to a decimal text (the default, which the script
    does not change); 0 would be no limit. *)
Definition int_max_str_digits : nat := 4300.

(** ** [json.loads]: the decoder of the Python standard library *)

Module Json.

Definition code (c : ascii) : Z := Z.of_N (N_of_ascii c).
Definition chr (b : Z) : ascii := ascii_of_N (Z.to_N b).

(** the double quote *)
Definition dquote : ascii := chr 34.

(** [WHITESPACE]: space, tab, line feed, carriage return *)
Definition is_ws (c : ascii) : bool :=
  let n := code c in (n =? 32) || (n =? 9) || (n =? 10) || (n =? 13).

Fixpoint skip_ws (s : string) : string :=
  match s with
  | String c r => if is_ws c then skip_ws r else s
  | EmptyString => s
  end.

(** [s] without the leading [p], when [s] starts with [p]. *)
Fixpoint strip_prefix (p s : string) : option string :=
  match p, s with
  | EmptyString, _ => Some s
  | String a p', String b s' => if Ascii.eqb a b then strip_prefix p' s' else None
  | String _ _, EmptyString => None
  end.

(** *** Numbers ([NUMBER_RE]): an optional minus sign, then [0] or a
    nonzero digit and any digits; optionally a point and one digit or
    more; optionally [e] or [E], a sign and one digit or more. *)

Definition is_digit (c : ascii) : bool := (48 <=? code c) && (code c <=? 57).
Definition digit_val (c : ascii) : Z := code c - 48.

(** the longest run of leading digits, and what follows it *)
Fixpoint span_digits (s : string) : list Z * string :=
  match s with
  | String c r =>
      if is_digit c then let '(ds, r') := span_digits r in (digit_val c :: ds, r')
      else ([], s)
  | EmptyString => ([], s)
  end.

Definition digits_value (ds : list Z) : Z :=
  fold_left (fun acc d => 10 * acc + d) ds 0.

Definition match_integer (s : string) : option (list Z * string) :=
  match s with
  | String c r =>
      if code c =? 48 then Some ([0], r)
      else if is_digit c then
        let '(ds, r') := span_digits r in Some (digit_val c :: ds, r')
      else None
  | EmptyString => None
  end.

Definition match_frac (s : string) : option (list Z * string) :=
  match s with
  | String c r =>
      if Ascii.eqb c "." then
        match span_digits r with
        | ([], _) => None
        | (ds, r') => Some (ds, r')
        end
      else None
  | EmptyString => None
  end.

(** an optional sign: whether it is a minus, and what follows it *)
Definition match_sign (plus : bool) (s : string) : bool * string :=
  match s with
  | String c r =>
      if Ascii.eqb c "-" then (true, r)
      else if plus && Ascii.eqb c "+" then (false, r)
      else (false, s)
  | EmptyString => (false, s)
  end.

Definition match_exp (s : string) : option (Z * string) :=
  match s with
  | String c r =>
      if Ascii.eqb c "e" || Ascii.eqb c "E" then
        let '(neg, r1) := match_sign true r in
        match span_digits r1 with
        | ([], _) => None
        | (ds, r2) => Some (if neg : bool then - digits_value ds else digits_value ds, r2)
        end
      else None
  | EmptyString => None
  end.

(** [float(text)]: the decimal [(-1)^neg * digits * 10^e10], correctly
    rounded. *)
Definition float_of_decimal (neg : bool) (ds : list Z) (e10 : Z) : spec_float :=
  if 0 <=? e10 then Float.round_binary64 neg (digits_value ds * 10 ^ e10) 1
  else Float.round_binary64 neg (digits_value ds) (10 ^ (- e10)).

(** What [match_number] finds at the head of a text: a number and what
    follows it, no number, or an integer literal of more digits than
    [int] converts, on which [json.loads] raises [ValueError]. *)
Inductive number : Type :=
| Number (v : pyobj) (rest : string)
| NoNumber
| LongInteger (digits : nat).

(** [max_digits] is the limit of [int(text)]; 0 is no limit.  A literal
    with a fraction or an exponent is read by [float(text)], which has no
    limit. *)
Definition match_number (max_digits : nat) (s : string) : number :=
  let '(neg, s1) := match_sign false s in
  match match_integer s1 with
  | None => NoNumber
  | Some (ids, s2) =>
      let '(frac, s3) :=
        match match_frac s2 with
        | Some (fds, s3) => (Some fds, s3)
        | None => (None, s2)
        end in
      let '(ex, s4) :=
        match match_exp s3 with
        | Some (e, s4) => (Some e, s4)
        | None => (None, s3)
        end in
      match frac, ex with
      | None, None =>
          if (0 <? max_digits)%nat && (max_digits <? length ids)%nat
          then LongInteger (length ids)
          else Number (PyInt (if neg : bool then - digits_value ids
                              else digits_value ids)) s4
      | _, _ =>
          let fds := default [] frac in
          Number (PyFloat (float_of_decimal neg (ids ++ fds)
                             (default 0 ex - Z.of_nat (length fds)))) s4
      end
  end.

(** *** Strings *)

Definition hex_val (c : ascii) : option Z :=
  let n := code c in
  if (48 <=? n) && (n <=? 57) then Some (n - 48)
  else if (97 <=? n) && (n <=? 102) then Some (n - 87)
  else if (65 <=? n) && (n <=? 70) then Some (n - 55)
  else None.

Definition hex4 (a b c d : ascii) : option Z :=
  match hex_val a, hex_val b, hex_val c, hex_val d with
  | Some x, Some y, Some z, Some w => Some (((x * 16 + y) * 16 + z) * 16 + w)
  | _, _, _, _ => None
  end.

(** the UTF-8 bytes of the code point [u] (a lone surrogate is written
    like any other three-byte code point) *)
Definition utf8 (u : Z) : string :=
  let b x := String (chr x) EmptyString in
  if u <? 128 then b u
  else if u <? 2048 then b (192 + u / 64) +:+ b (128 + u mod 64)
  else if u <? 65536 then
    b (224 + u / 4096) +:+ b (128 + u / 64 mod 64) +:+ b (128 + u mod 64)
  else
    b (240 + u / 262144) +:+ b (128 + u / 4096 mod 64)
      +:+ b (128 + u / 64 mod 64) +:+ b (128 + u mod 64).

(** [BACKSLASH]: the one-character escapes *)
Definition backslash (c : ascii) : option ascii :=
  if Ascii.eqb c dquote then Some dquote else
  match c with
  | "\"%char => Some "\"%char
  | "/"%char => Some "/"%char
  | "b"%char => Some (chr 8)
  | "f"%char => Some (chr 12)
  | "n"%char => Some (chr 10)
  | "r"%char => Some (chr 13)
  | "t"%char => Some (chr 9)
  | _ => None
  end.

Definition is_high_surrogate (u : Z) : bool := (55296 <=? u) && (u <=? 56319).
Definition is_low_surrogate (u : Z) : bool := (56320 <=? u) && (u <=? 57343).

(** [scanstring] in strict mode, entered after the opening quote: the
    decoded text and what follows the closing quote. *)
Fixpoint scanstring (s : string) : option (string * string) :=
  let continue (chunk : string) (scanned : option (string * string)) :=
    match scanned with
    | Some (t, r') => Some (chunk +:+ t, r')
    | None => None
    end in
  match s with
  | EmptyString => None
  | String c r =>
      if Ascii.eqb c dquote then Some (EmptyString, r)
      else if Ascii.eqb c "\" then
        match r with
        | EmptyString => None
        | String esc r1 =>
            if Ascii.eqb esc "u" then
              match r1 with
              | String h1 (String h2 (String h3 (String h4 r2))) =>
                  match hex4 h1 h2 h3 h4 with
                  | None => None
                  | Some u =>
                      let single := continue (utf8 u) (scanstring r2) in
                      if is_high_surrogate u then
                        match r2 with
                        | String b (String v (String g1 (String g2
                            (String g3 (String g4 r3))))) =>
                            if Ascii.eqb b "\" && Ascii.eqb v "u" then
                              match hex4 g1 g2 g3 g4 with
                              | None => None
                              | Some u2 =>
                                  if is_low_surrogate u2 then
                                    continue
                                      (utf8 (65536 + (u - 55296) * 1024
                                               + (u2 - 56320)))
                                      (scanstring r3)
                                  else single
                              end
                            else single
                        | _ => single
                        end
                      else single
                  end
              | _ => None
              end
            else
              match backslash esc with
              | None => None
              | Some c' => continue (String c' EmptyString) (scanstring r1)
              end
        end
      else if code c <? 32 then None
      else continue (String c EmptyString) (scanstring r)
  end.

(** *** Values, arrays and objects *)

Inductive container := JArray | JObject.

(** What a scanner returns: a value and what follows it; [Malformed] is
    [JSONDecodeError]; [Nested c] is the [RecursionError] raised on
    entering an array or object [c] deeper than the interpreter allows;
    [Digits n] is the [ValueError] of an integer literal of [n] digits;
    [Exhausted] is the end of the fuel of the model, which [decode] never
    reaches. *)
Inductive scan (A : Type) : Type :=
| Scanned (a : A) (rest : string)
| Malformed
| Nested (c : container)
| Digits (n : nat)
| Exhausted.
Arguments Scanned {A} a rest.
Arguments Malformed {A}.
Arguments Nested {A} c.
Arguments Digits {A} n.
Arguments Exhausted {A}.

(** the constants and numbers [scan_once] tries after the three
    bracketed forms *)
Definition scan_atom (max_digits : nat) (s : string) : scan pyobj :=
  match strip_prefix "null" s with
  | Some r => Scanned PyNone r
  | None =>
  match strip_prefix "true" s with
  | Some r => Scanned (PyBool true) r
  | None =>
  match strip_prefix "false" s with
  | Some r => Scanned (PyBool false) r
  | None =>
  match match_number max_digits s with
  | Number v r => Scanned v r
  | LongInteger n => Digits n
  | NoNumber =>
  match strip_prefix "NaN" s with
  | Some r => Scanned (PyFloat S754_nan) r
  | None =>
  match strip_prefix "Infinity" s with
  | Some r => Scanned (PyFloat (S754_infinity false)) r
  | None =>
  match strip_prefix "-Infinity" s with
  | Some r => Scanned (PyFloat (S754_infinity true)) r
  | None => Malformed
  end end end end end end end.

(** [scan_once], [JSONArray] and [JSONObject] of the C scanner.
    [depth] is how many nested arrays and objects can still be entered:
    the scanner asks for one level at each opening bracket or brace,
    before it reads what follows.  [fuel] bounds the recursion of the
    model; [array_items] is entered at the first character of an element,
    [object_items] after the opening quote of a key, each with the
    elements read so far in reverse. *)
Fixpoint scan_once (max_digits fuel depth : nat) (s : string) : scan pyobj :=
  match fuel with
  | O => Exhausted
  | S fuel =>
      match s with
      | EmptyString => Malformed
      | String c r =>
          if Ascii.eqb c dquote then
            match scanstring r with
            | Some (t, r') => Scanned (PyStr t) r'
            | None => Malformed
            end
          else if Ascii.eqb c "{" then
            match depth with
            | O => Nested JObject
            | S depth =>
                match skip_ws r with
                | EmptyString => Malformed
                | String c' r' =>
                    if Ascii.eqb c' "}" then Scanned (PyDict []) r'
                    else if Ascii.eqb c' dquote
                    then object_items max_digits fuel depth r' []
                    else Malformed
                end
            end
          else if Ascii.eqb c "[" then
            match depth with
            | O => Nested JArray
            | S depth =>
                match skip_ws r with
                | EmptyString => Malformed
                | String c' r' =>
                    if Ascii.eqb c' "]" then Scanned (PyList []) r'
                    else array_items max_digits fuel depth (String c' r') []
                end
            end
          else scan_atom max_digits s
      end
  end
with array_items (max_digits fuel depth : nat) (s : string) (acc : list pyobj)
  : scan pyobj :=
  match fuel with
  | O => Exhausted
  | S fuel =>
      match scan_once max_digits fuel depth s with
      | Scanned v r =>
          match skip_ws r with
          | EmptyString => Malformed
          | String c r' =>
              if Ascii.eqb c "]" then Scanned (PyList (rev (v :: acc))) r'
              else if Ascii.eqb c ","
              then array_items max_digits fuel depth (skip_ws r') (v :: acc)
              else Malformed
          end
      | Malformed => Malformed
      | Nested c => Nested c
      | Digits n => Digits n
      | Exhausted => Exhausted
      end
  end
with object_items (max_digits fuel depth : nat) (s : string)
  (acc : list (string * pyobj)) : scan pyobj :=
  match fuel with
  | O => Exhausted
  | S fuel =>
      match scanstring s with
      | None => Malformed
      | Some (key, r) =>
          match skip_ws r with
          | EmptyString => Malformed
          | String c r1 =>
              if Ascii.eqb c ":" then
                match scan_once max_digits fuel depth (skip_ws r1) with
                | Scanned v r2 =>
                    match skip_ws r2 with
                    | EmptyString => Malformed
                    | String c' r3 =>
                        if Ascii.eqb c' "}" then
                          Scanned (PyDict (dict_of_pairs (rev ((key, v) :: acc)))) r3
                        else if Ascii.eqb c' "," then
                          match skip_ws r3 with
                          | EmptyString => Malformed
                          | String c'' r4 =>
                              if Ascii.eqb c'' dquote then
                                object_items max_digits fuel depth r4
                                  ((key, v) :: acc)
                              else Malformed
                          end
                        else Malformed
                    end
                | Malformed => Malformed
                | Nested c => Nested c
                | Digits n => Digits n
                | Exhausted => Exhausted
                end
              else Malformed
          end
      end
  end.

(** How [JSONDecoder.decode] ends. *)
Inductive outcome : Type :=
| Value (v : pyobj)
| NotJson
| TooNested (c : container)
| TooLong (digits : nat).

(** [JSONDecoder.decode]: one value between optional whitespace, and
    nothing after it.  The fuel is never used up ([decode_fuel] below). *)
Definition decode (max_digits depth : nat) (s : string) : outcome :=
  match scan_once max_digits (S (2 * String.length s)) depth (skip_ws s) with
  | Scanned v r =>
      match skip_ws r with
      | EmptyString => Value v
      | String _ _ => NotJson
      end
  | Malformed | Exhausted => NotJson
  | Nested c => TooNested c
  | Digits n => TooLong n
  end.

End Json.

(** [str] of the [RecursionError] raised on entering an array or object
    too many. *)
Definition recursion_message (c : Json.container) : string :=
  "maximum recursion depth exceeded while decoding a JSON "
    +:+ match c with
        | Json.JArray => "array"
        | Json.JObject => "object"
        end
    +:+ " from a unicode string".

(** [str] of the [ValueError] raised by [int(text)] on [digits] digits. *)
Definition int_digits_message (digits : nat) : string :=
  "Exceeds the limit (4300 digits) for integer string conversion: "
    +:+ "value has " +:+ Float.str_int (Z.of_nat digits)
    +:+ " digits; use sys.set_int_max_str_digits() to increase the limit".

(** [json.loads(s)]: the value, or [JSONDecodeError] on a text that is not
    JSON, [RecursionError] on a nesting deeper than the interpreter allows,
    [ValueError] on an integer of more digits than [int] converts;
    whichever the scanner meets first. *)
Definition json_loads (py : Interpreter) (s : string) : M pyobj :=
  match Json.decode int_max_str_digits (S (nesting_spare py)) s with
  | Json.Value v => mret v
  | Json.NotJson => raise JSONDecodeError
  | Json.TooNested c => raise (RecursionError (recursion_message c))
  | Json.TooLong n => raise (ValueError (int_digits_message n))
  end.
(** ** The script *)

(** The fields of [telegram.Update] the handlers read:
    [update.message.web_app_data.data] and [update.effective_user.id]. *)
Record Update := { web_app_data : string; effective_user_id : Z }.

(** [context.args] and [context.bot_data] *)
Record Context := { args : list string; context_bot_data : gmap string string }.

(** [a / b] on Python ints ([long_true_divide]): the exact quotient,
    correctly rounded, or [OverflowError] when it is out of range. *)
Definition long_true_divide (a : Z) (b : positive) : M spec_float :=
  match Float.round_binary64 (a <? 0) (Z.abs a) (Zpos b) with
  | S754_infinity _ =>
      raise (OverflowError "integer division result too large for a float")
  | q => mret q
  end.

(** [x / d] for a positive int literal [d]. *)
Definition py_truediv (x : pyobj) (d : positive) : M spec_float :=
  match x with
  | PyInt n => long_true_divide n d
  | PyBool b => long_true_divide (if b then 1 else 0) d
  | PyFloat f =>
      match Float.of_int (Zpos d) with
      | S754_infinity _ => raise (OverflowError "int too large to convert to float")
      | y => mret (Float.div f y)
      end
  | _ =>
      raise (TypeError ("unsupported operand type(s) for /: '" +:+ type_name x
                          +:+ "' and 'int'"))
  end.

(** [data.get(key, dflt)]: only a dict has the method. *)
Definition py_get (data : pyobj) (key : string) (dflt : pyobj) : M pyobj :=
  match data with
  | PyDict d => mret (default dflt (dict_lookup d key))
  | _ =>
      raise (AttributeError ("'" +:+ type_name data
                               +:+ "' object has no attribute 'get'"))
  end.

(** [l[i]] *)
Definition py_index (l : list string) (i : nat) : M string :=
  match l !! i with
  | Some x => mret x
  | None => raise (IndexError "list index out of range")
  end.

(** [sys.exit(code)] *)
Definition sys_exit {A} (code : Z) : M A := raise (SystemExit code).

Definition join (sep : string) (parts : list string) : string :=
  match parts with
  | [] => ""
  | p :: ps => fold_left (fun acc q => acc +:+ sep +:+ q) ps p
  end.

(** *** [start] *)




Section PayloadHandler.

Variable py : Interpreter.

(** [repr(o)].  On a value [json.loads] returned it does not meet the
    recursion limit: it enters one level for each level of the value, from
    a frame that is not as deep as the scanner was. *)
Fixpoint py_repr (o : pyobj) : string :=
  match o with
  | PyNone => "None"
  | PyBool b => if b then "True" else "False"
  | PyInt n => Float.str_int n
  | PyFloat x => float_repr py x
  | PyStr s => str_repr py s
  | PyList items => "[" +:+ join ", " (map py_repr items) +:+ "]"
  | PyDict entries =>
      "{" +:+ join ", "
                (map (fun kv => let '(k, v) := kv in
                                str_repr py k +:+ ": " +:+ py_repr v) entries)
          +:+ "}"
  end.

(** [str(o)], what an f-string field without a format shows *)
Definition py_str (o : pyobj) : string :=
  match o with
  | PyStr s => s
  | _ => py_repr o
  end.

(** *** [handle_web_app_data] *)

Definition order_response (item_name price item_id : string) : string :=
  "✅ Order Received!" +:+ LF +:+ LF
    +:+ "Item: " +:+ item_name +:+ LF
    +:+ "Price: $" +:+ price +:+ LF
    +:+ "Order ID: #" +:+ item_id +:+ LF +:+ LF
    +:+ "Your order is being processed...".

Definition order_log (user_id : Z) (item_name price : string) : string :=
  "[Order] User " +:+ Float.str_int user_id +:+ " ordered: " +:+ item_name
    +:+ " ($" +:+ price +:+ ")".

Definition parse_error_message : string :=
  "❌ Error: Could not parse order data.".

Definition processing_error_message (e : exn) : string :=
  "❌ Error processing order: " +:+ exn_str e.

Definition error_log (e : exn) : string := "[Error] " +:+ exn_str e.

(** the suite of the [try] *)
Definition web_app_data_try (update : Update) : M unit :=
  data ← json_loads py (web_app_data update);
  item_id ← py_get data "id" PyNone;
  item_name ← py_get data "name" (PyStr "Unknown");
  price_cents ← py_get data "price_cents" (PyInt 0);
  price_dollars ← py_truediv price_cents 100;
  let response :=
    order_response (py_str item_name) (Float.format_2f price_dollars)
      (py_str item_id) in
  reply_text response None;;
  print py (order_log (effective_user_id update) (py_str item_name)
              (Float.format_2f price_dollars)).

(** the two [except] clauses, tried in order; an exception neither
    clause matches goes on to the caller *)
Definition web_app_data_except (e : exn) : M unit :=
  if is_JSONDecodeError e then reply_text parse_error_message None
  else if is_Exception e then
    reply_text (processing_error_message e) None;;
    print py (error_log e)
  else raise e.

Definition handle_web_app_data (update : Update) (context : Context) : M unit :=
  try_except (web_app_data_try update) web_app_data_except.

End PayloadHandler.

(** *** [main] *)

Definition usage : string :=
  "Usage: python python_bot.py YOUR_BOT_TOKEN [WEBAPP_URL]".

Definition add_handler (app : Application) (h : handler) : Application :=
  {| token := token app; bot_data := bot_data app;
     handlers := handlers app ++ [h] |}.

(** [Application.builder().token(bot_token).build()]: the bot refuses an
    empty token with [InvalidToken]; the application starts with no
    handler and an empty [bot_data]. *)
Definition build (bot_token : string) : M Application :=
  if String.eqb bot_token "" then raise InvalidToken
  else mret {| token := bot_token; bot_data := ∅; handlers := [] |}.

Definition main (py : Interpreter) (argv : list string) : M unit :=
  (if bool_decide (length argv < 2)%nat
   then print py usage;; sys_exit 1
   else mret tt);;
  bot_token ← py_index argv 1;
  webapp_url ←
    (if bool_decide (2 < length argv)%nat then py_index argv 2
     else mret "https://example.com");
  print py ("Starting bot with WebApp URL: " +:+ webapp_url);;
  app ← build bot_token;
  let app := {| token := token app;
                bot_data := <["webapp_url" := webapp_url]> (bot_data app);
                handlers := handlers app |} in
  let app := add_handler app (CommandHandler "start" cb_start) in
  let app := add_handler app (MessageHandler_WEB_APP_DATA cb_handle_web_app_data) in
  print py "Bot is running... Press Ctrl+C to stop.";;
  emit (RunPolling app).

(** The status the interpreter exits with: the code of an uncaught
    [SystemExit], 1 for any other uncaught exception, 0 otherwise. *)
Definition exit_status {A} (run : M A) : Z :=
  match run.2 with
  | inl (SystemExit c) => c
  | inl _ => 1
  | inr _ => 0
  end.



(** ** Vocabulary of the properties *)

(** [needle in hay] *)
Fixpoint contains (needle hay : string) : bool :=
  String.prefix needle hay ||
  match hay with
  | String _ rest => contains needle rest
  | EmptyString => false
  end.

(** [cents / 100] written out exactly, with its two decimals. *)
Definition cents_text (cents : Z) : string :=
  Float.hundredths (cents <? 0) (Z.abs cents).

(** The three fields of an order, with the defaults of the [get] calls. *)
Definition item_id_of (d : list (string * pyobj)) : pyobj :=
  default PyNone (dict_lookup d "id").
Definition item_name_of (d : list (string * pyobj)) : pyobj :=
  default (PyStr "Unknown") (dict_lookup d "name").
Definition price_cents_of (d : list (string * pyobj)) : pyobj :=
  default (PyInt 0) (dict_lookup d "price_cents").

(** The prices [/ 100] accepts: floats, booleans, and the integers whose
    quotient is within the range of floats. *)
Definition price_divides (price_cents : pyobj) : bool :=
  match price_cents with
  | PyInt n => Z.abs n <? Float.overflow_cents
  | PyBool _ | PyFloat _ => true
  | _ => false
  end.

(** The URL [main] stores: the second argument, else the placeholder. *)
Definition webapp_url_of (argv : list string) : string :=
  default "https://example.com" (argv !! 2%nat).

(** A JSON text, written with an apostrophe for each double quote. *)
Fixpoint json_text (s : string) : string :=
  match s with
  | EmptyString => EmptyString
  | String c rest =>
      String (if Ascii.eqb c "'" then Json.dquote else c) (json_text rest)
  end.

(** Sample inputs. *)
Definition sample_update (payload : string) : Update :=
  {| web_app_data := payload; effective_user_id := 42 |}.
Definition no_context : Context := {| args := []; context_bot_data := ∅ |}.

(** The value of a JSON text, [None] for a text that is not JSON: what
    the decoder says with no limit on the digits of an integer, and with
    as many levels of nesting as the text has characters, which no text
    uses up ([decode_unlimited] below). *)
Definition json_value (s : string) : option pyobj :=
  match Json.decode 0 (String.length s) s with
  | Json.Value v => Some v
  | _ => None
  end.

Definition is_json (s : string) : bool :=
  match json_value s with
  | Some _ => true
  | None => false
  end.

(** An exception the second [except] clause reports and logs: an
    [Exception] other than [JSONDecodeError], whose text is ASCII, so
    that the log line is printed whatever the encoding of the output. *)
Definition reportable (e : exn) : bool :=
  negb (is_JSONDecodeError e) && is_Exception e && is_ascii (exn_str e).

(** The reported failure: the reply with the text of the exception, then
    the log line with it. *)
Definition failure_report (e : exn) : M unit :=
  ([ReplyText (processing_error_message e) None; Print (error_log e)], inr tt).

(** The order confirmed: the reply is sent, then the log line is
    printed.  When the output cannot encode the log line, [print] raises
    inside the [try], after the reply: the failure is reported in a second
    reply and logged. *)
Definition confirmation (py : Interpreter) (user_id : Z)
  (item_name price item_id : string) : M unit :=
  let reply := ReplyText (order_response item_name price item_id) None in
  let line := order_log user_id item_name price in
  if printable py line then ([reply; Print line], inr tt)
  else
    let e := UnicodeEncodeError (encode_error py line) in
    ([reply; ReplyText (processing_error_message e) None; Print (error_log e)],
     inr tt).

(** *** A standard output in UTF-8

    [sys.stdout] with the encoding [utf-8] and the error handler
    [strict]: every text is encoded but one with a surrogate.  In the
    bytes of the model a surrogate is the three bytes [ED], [A0..BF],
    [80..BF]; the error names the first one, or the first run of them,
    and its position, counted in characters. *)
Module Utf8.

(** a continuation byte, [10xxxxxx] *)
Definition is_continuation (c : ascii) : bool :=
  (128 <=? Json.code c) && (Json.code c <? 192).

Definition is_surrogate (a b c : ascii) : bool :=
  (Json.code a =? 237) && (160 <=? Json.code b) && (Json.code b <=? 191)
    && is_continuation c.

(** the surrogates at the head of a text: how many *)
Fixpoint run_length (s : string) : nat :=
  match s with
  | String a (String b (String c rest)) =>
      if is_surrogate a b c then S (run_length rest) else O
  | _ => O
  end.

(** the code point of the surrogate at the head of a text *)
Definition code_point (s : string) : Z :=
  match s with
  | String a (String b (String c rest)) =>
      53248 + (Json.code b - 128) * 64 + (Json.code c - 128)
  | _ => 0
  end.

(** The first surrogate of a text, [position] characters after which the
    text starts: its position, its code point, and how many follow it. *)
Fixpoint failure (s : string) (position : nat) : option (nat * Z * nat) :=
  match s with
  | EmptyString => None
  | String a rest =>
      match run_length s with
      | O => failure rest (if is_continuation a then position else S position)
      | S more => Some (position, code_point s, more)
      end
  end.

Definition hex_digit (d : Z) : string :=
  String (Json.chr (if d mod 16 <? 10 then 48 + d mod 16 else 87 + d mod 16))
    EmptyString.

(** [\uXXXX] *)
Definition escape (u : Z) : string :=
  "\u" +:+ hex_digit (u / 4096) +:+ hex_digit (u / 256) +:+ hex_digit (u / 16)
    +:+ hex_digit u.

Definition encodes (s : string) : bool :=
  match failure s 0 with
  | None => true
  | Some _ => false
  end.

(** [str] of the [UnicodeEncodeError] *)
Definition error (s : string) : string :=
  match failure s 0 with
  | None => ""
  | Some (position, u, O) =>
      "'utf-8' codec can't encode character '" +:+ escape u
        +:+ "' in position " +:+ Float.str_int (Z.of_nat position)
        +:+ ": surrogates not allowed"
  | Some (position, _, more) =>
      "'utf-8' codec can't encode characters in position "
        +:+ Float.str_int (Z.of_nat position) +:+ "-"
        +:+ Float.str_int (Z.of_nat (position + more))
        +:+ ": surrogates not allowed"
  end.

End Utf8.

Definition whopper_payload : string :=
  json_text "{'id': 1, 'name': 'Whopper', 'price_cents': 599}".

(** [1] followed by 400 zeros: an integer price beyond the float range. *)
Definition huge_price_payload : string :=
  json_text "{'price_cents': 1" +:+ string_of_list_ascii (repeat "0"%char 400) +:+ "}".


(** [depth] opening brackets before [tail]. *)
Fixpoint opening (depth : nat) (tail : string) : string :=
  match depth with
  | O => tail
  | S depth => String "[" (opening depth tail)
  end.

(** [depth] opening brackets, and as many closing ones when [closed]. *)
Definition brackets (depth : nat) (closed : bool) : string :=
  opening depth
    (if closed then string_of_list_ascii (repeat "]"%char depth) else "").


(** *** Vocabulary of the further properties *)

(** The values Python divides: [int], [bool] and [float]. *)
Definition is_number (v : pyobj) : bool :=
  match v with
  | PyInt _ | PyBool _ | PyFloat _ => true
  | _ => false
  end.

(** A text of nothing but JSON whitespace; the empty text is one. *)
Fixpoint blank (s : string) : bool :=
  match s with
  | EmptyString => true
  | String c rest => Json.is_ws c && blank rest
  end.

(** A text [scanstring] copies as it is: no double quote, no backslash,
    no control character. *)
Fixpoint plain (s : string) : bool :=
  match s with
  | EmptyString => true
  | String c rest =>
      negb (Ascii.eqb c Json.dquote) && negb (Ascii.eqb c "\")
        && negb (Json.code c <? 32) && plain rest
  end.

(** [s] between double quotes. *)
Definition quoted (s : string) : string :=
  String Json.dquote (s +:+ String Json.dquote EmptyString).

(** The payload the docstring of the handler shows, for any item: an
    object with the members [id], [name] and [price_cents] in this order,
    with [sep] after each colon and comma ([json.dumps] writes a space
    there, [JSON.stringify] nothing). *)
Definition order_payload (sep : string) (id : Z) (name : string) (price_cents : Z)
  : string :=
  "{" +:+ quoted "id" +:+ ":" +:+ sep +:+ Float.str_int id +:+ ","
    +:+ sep +:+ quoted "name" +:+ ":" +:+ sep +:+ quoted name +:+ ","
    +:+ sep +:+ quoted "price_cents" +:+ ":" +:+ sep +:+ Float.str_int price_cents
    +:+ "}".

(** What can follow the digits of an integer: the end of the text, or a
    character that continues no number. *)
Definition number_end (s : string) : bool :=
  match s with
  | EmptyString => true
  | String c _ =>
      negb (Json.is_digit c || Ascii.eqb c "." || Ascii.eqb c "e"
              || Ascii.eqb c "E")
  end.

(** The digits of a decimal numeral, the most significant first. *)
Fixpoint uint_digits (d : Decimal.uint) : list Z :=
  match d with
  | Decimal.Nil => []
  | Decimal.D0 l => 0 :: uint_digits l
  | Decimal.D1 l => 1 :: uint_digits l
  | Decimal.D2 l => 2 :: uint_digits l
  | Decimal.D3 l => 3 :: uint_digits l
  | Decimal.D4 l => 4 :: uint_digits l
  | Decimal.D5 l => 5 :: uint_digits l
  | Decimal.D6 l => 6 :: uint_digits l
  | Decimal.D7 l => 7 :: uint_digits l
  | Decimal.D8 l => 8 :: uint_digits l
  | Decimal.D9 l => 9 :: uint_digits l
  end.

(** A numeral as [str] prints it: [0] alone, or digits the first of which
    is not [0]. *)
Definition printed (d : Decimal.uint) : bool :=
  match d with
  | Decimal.Nil => false
  | Decimal.D0 Decimal.Nil => true
  | Decimal.D0 _ => false
  | _ => true
  end.


(** * Properties *)

(** ** Facts on rounding *)

Module FloatFacts.
Import Float.

Lemma round_half_even_close num den :
  0 < den -> Z.abs (2 * (round_half_even num den * den - num)) <= den.
Proof.
  intros Hden. unfold round_half_even.
  pose proof (Z.div_mod num den ltac:(lia)) as Hdm.
  pose proof (Z.mod_pos_bound num den Hden) as Hr.
  destruct (Z.ltb_spec (2 * (num mod den)) den);
    [| destruct (Z.ltb_spec den (2 * (num mod den)));
       [| destruct (Z.even (num / den))]]; nia.
Qed.

Lemma round_half_even_unique num den k :
  0 < den -> 2 * Z.abs (k * den - num) < den -> round_half_even num den = k.
Proof.
  intros Hden Hk.
  pose proof (round_half_even_close num den Hden) as Hc.
  set (r := round_half_even num den) in *.
  assert (Z.abs (r - k) * den < den) by nia.
  nia.
Qed.

Lemma floor_log2_ratio_cents a :
  0 < a < 100 * 2 ^ 46 -> floor_log2_ratio a 100 <= 45.
Proof.
  intros [Hpos Hlt]. unfold floor_log2_ratio.
  change (Z.log2 100) with 6.
  assert (Z.log2 a < 53) by (apply Z.log2_lt_pow2; lia).
  destruct (Z.leb_spec 0 (Z.log2 a - 6)) as [Hl|Hl].
  - destruct (Z.leb_spec (100 * 2 ^ (Z.log2 a - 6)) a) as [Hr|Hr]; [|lia].
    assert (Z.log2 a - 6 <= 45); [|lia].
    destruct (Z.le_gt_cases (Z.log2 a - 6) 45) as [|Hbig]; [lia|].
    assert (2 ^ 46 <= 2 ^ (Z.log2 a - 6)) by (apply Z.pow_le_mono_r; lia).
    lia.
  - destruct (100 <=? a * 2 ^ (- (Z.log2 a - 6))); lia.
Qed.

(** Below [100 * 2^46] cents the quotient by 100 is a float whose two
    decimal places give the cents back. *)
Lemma cents_round_trip s a :
  0 < a < 100 * 2 ^ 46 ->
  exists m e, round_binary64 s a 100 = S754_finite s m e
              /\ scaled_round (100 * Zpos m) 1 (- e) = a.
Proof.
  intros Ha. pose proof (floor_log2_ratio_cents a Ha) as Hflr.
  unfold round_binary64.
  destruct (Z.leb_spec a 0) as [|_]; [lia|].
  set (e := Z.max (floor_log2_ratio a 100 - (prec - 1)) emin).
  assert (He : -1074 <= e <= -7) by (unfold e, emin, emax, prec; lia).
  set (P := 2 ^ (- e)).
  assert (HP : 128 <= P).
  { change 128 with (2 ^ 7). apply Z.pow_le_mono_r; lia. }
  pose proof (round_half_even_close (a * P) 100 ltac:(lia)) as Hm.
  assert (Hsc : scaled_round a 100 e = round_half_even (a * P) 100).
  { unfold scaled_round. destruct (Z.leb_spec 0 e); [lia|reflexivity]. }
  cbv zeta. rewrite Hsc.
  set (m := round_half_even (a * P) 100) in *.
  destruct (Z.eqb_spec m (2 ^ prec)) as [Hmax|Hmax].
  - change (2 ^ (prec - 1)) with (Zpos (2 ^ 52)%positive).
    destruct (Z.leb_spec (e + 1) (emax - prec)) as [|Hov];
      [|unfold emax, prec in Hov; lia].
    eexists _, _. split; [reflexivity|].
    unfold scaled_round.
    destruct (Z.leb_spec 0 (- (e + 1))) as [_|]; [|lia].
    apply round_half_even_unique.
    + assert (0 < 2 ^ (- (e + 1))) by (apply Z.pow_pos_nonneg; lia). lia.
    + assert (HPQ : P = 2 * 2 ^ (- (e + 1))).
      { unfold P. replace (- e) with (Z.succ (- (e + 1))) by lia.
        rewrite Z.pow_succ_r by lia. reflexivity. }
      change (2 ^ prec) with 9007199254740992 in Hmax.
      change (Z.pos (2 ^ 52)) with 4503599627370496.
      lia.
  - destruct m as [|p|p] eqn:Em; [lia| |lia].
    destruct (Z.leb_spec e (emax - prec)) as [|Hov];
      [|unfold emax, prec in Hov; lia].
    eexists _, _. split; [reflexivity|].
    unfold scaled_round.
    destruct (Z.leb_spec 0 (- e)) as [_|]; [|lia].
    apply round_half_even_unique; fold P; lia.
Qed.

(** *** The range of the integer division *)

Lemma round_half_even_lt num den k :
  0 < den -> 2 * num < (2 * k - 1) * den -> round_half_even num den < k.
Proof.
  intros Hden Hk. pose proof (round_half_even_close num den Hden). nia.
Qed.

Lemma round_half_even_le num den k :
  0 < den -> num < k * den -> round_half_even num den <= k.
Proof.
  intros Hden Hk. pose proof (round_half_even_close num den Hden). nia.
Qed.

Lemma round_half_even_ge num den k :
  0 < den -> k * den <= num -> k <= round_half_even num den.
Proof.
  intros Hden Hk. pose proof (round_half_even_close num den Hden). nia.
Qed.

(** At half a unit below an even [k] the tie goes up to [k]. *)
Lemma round_half_even_tie_up num den k :
  0 < den -> Z.even k = true -> (2 * k - 1) * den <= 2 * num ->
  k <= round_half_even num den.
Proof.
  intros Hden Hev Hk. unfold round_half_even.
  pose proof (Z.div_mod num den ltac:(lia)) as Hdm.
  pose proof (Z.mod_pos_bound num den Hden) as Hr.
  destruct (Z.ltb_spec (2 * (num mod den)) den);
    [nia | destruct (Z.ltb_spec den (2 * (num mod den))); [nia|]].
  destruct (Z.even (num / den)) eqn:Hq; [|nia].
  assert (num / den <> k - 1).
  { intros Heq. rewrite Heq in Hq.
    replace k with (Z.succ (k - 1)) in Hev by lia.
    rewrite Z.even_succ, <- Z.negb_even, Hq in Hev. discriminate. }
  nia.
Qed.

Lemma floor_log2_ratio_upper a k :
  0 <= k -> 0 < a < 100 * 2 ^ k -> floor_log2_ratio a 100 < k.
Proof.
  intros Hk [Hpos Hlt]. unfold floor_log2_ratio.
  change (Z.log2 100) with 6.
  assert (0 < 2 ^ k) by (apply Z.pow_pos_nonneg; lia).
  assert (Z.log2 a < k + 7).
  { apply Z.log2_lt_pow2; [lia|]. rewrite Z.pow_add_r by lia.
    change (2 ^ 7) with 128. lia. }
  destruct (Z.leb_spec 0 (Z.log2 a - 6)) as [Hl|Hl].
  - destruct (Z.leb_spec (100 * 2 ^ (Z.log2 a - 6)) a) as [Hr|Hr]; [|lia].
    destruct (Z.lt_ge_cases (Z.log2 a - 6) k) as [|Hbig]; [lia|].
    assert (2 ^ k <= 2 ^ (Z.log2 a - 6)) by (apply Z.pow_le_mono_r; lia).
    lia.
  - destruct (100 <=? a * 2 ^ (- (Z.log2 a - 6))); lia.
Qed.

Lemma floor_log2_ratio_lower a k :
  0 <= k -> 100 * 2 ^ k <= a -> k <= floor_log2_ratio a 100.
Proof.
  intros Hk Hle. unfold floor_log2_ratio.
  change (Z.log2 100) with 6.
  assert (0 < 2 ^ k) by (apply Z.pow_pos_nonneg; lia).
  assert (k + 6 <= Z.log2 a).
  { apply Z.log2_le_pow2; [lia|]. rewrite Z.pow_add_r by lia.
    change (2 ^ 6) with 64. lia. }
  destruct (Z.leb_spec 0 (Z.log2 a - 6)) as [Hl|Hl]; [|lia].
  destruct (Z.leb_spec (100 * 2 ^ (Z.log2 a - 6)) a) as [Hr|Hr]; [lia|].
  destruct (Z.le_gt_cases (Z.log2 a - 6) k) as [Hsmall|]; [|lia].
  assert (2 ^ (Z.log2 a - 6) <= 2 ^ k) by (apply Z.pow_le_mono_r; lia).
  lia.
Qed.

Lemma floor_log2_ratio_reached a :
  0 < a -> 0 <= floor_log2_ratio a 100 ->
  100 * 2 ^ floor_log2_ratio a 100 <= a.
Proof.
  intros Hpos. unfold floor_log2_ratio.
  change (Z.log2 100) with 6.
  destruct (Z.leb_spec 0 (Z.log2 a - 6)) as [Hl|Hl].
  - destruct (Z.leb_spec (100 * 2 ^ (Z.log2 a - 6)) a) as [Hr|Hr]; [lia|].
    intros Hf. pose proof (Z.log2_spec a Hpos) as [Hlow _].
    replace (Z.log2 a) with ((Z.log2 a - 6 - 1) + 7) in Hlow at 1 by lia.
    rewrite Z.pow_add_r in Hlow by lia. change (2 ^ 7) with 128 in Hlow.
    assert (0 < 2 ^ (Z.log2 a - 6 - 1)) by (apply Z.pow_pos_nonneg; lia).
    lia.
  - destruct (100 <=? a * 2 ^ (- (Z.log2 a - 6))); lia.
Qed.

Lemma int_divide_in_range s a :
  0 < a < overflow_cents ->
  forall s', round_binary64 s a 100 <> S754_infinity s'.
Proof.
  intros [Hpos Hlt] s'. unfold overflow_cents in Hlt.
  assert (Hflr : floor_log2_ratio a 100 < 1024)
    by (apply floor_log2_ratio_upper; lia).
  unfold round_binary64.
  destruct (Z.leb_spec a 0) as [|_]; [lia|].
  set (e := Z.max (floor_log2_ratio a 100 - (prec - 1)) emin).
  assert (He : e <= 971) by (unfold e, emin, emax, prec; lia).
  cbv zeta. set (m := scaled_round a 100 e).
  destruct (Z.eqb_spec m (2 ^ prec)) as [Hmax|Hmax].
  - assert (e <> 971).
    { intros He971. unfold m, scaled_round in Hmax. rewrite He971 in Hmax.
      change (0 <=? 971) with true in Hmax. cbv iota in Hmax.
      pose proof (round_half_even_lt a (100 * 2 ^ 971) (2 ^ 53)
                    ltac:(lia) ltac:(lia)) as Hlt53.
      unfold prec in Hmax. lia. }
    change (2 ^ (prec - 1)) with (Zpos (2 ^ 52)%positive).
    destruct (Z.leb_spec (e + 1) (emax - prec)) as [|Hov];
      [discriminate|unfold emax, prec in Hov; lia].
  - destruct m; try discriminate.
    destruct (Z.leb_spec e (emax - prec)) as [|Hov];
      [discriminate|unfold emax, prec in Hov; lia].
Qed.

Lemma int_divide_overflow s a :
  overflow_cents <= a -> round_binary64 s a 100 = S754_infinity s.
Proof.
  unfold overflow_cents. intros Hle.
  assert (Hflr : 1023 <= floor_log2_ratio a 100)
    by (apply floor_log2_ratio_lower; lia).
  pose proof (floor_log2_ratio_reached a ltac:(lia) ltac:(lia)) as Hreach.
  unfold round_binary64.
  destruct (Z.leb_spec a 0) as [|_]; [lia|].
  set (flr := floor_log2_ratio a 100) in *.
  replace (Z.max (flr - (prec - 1)) emin) with (flr - 52)
    by (unfold emin, emax, prec; lia).
  set (e := flr - 52). assert (He : 971 <= e) by (unfold e; lia).
  cbv zeta.
  assert (Hsc : scaled_round a 100 e = round_half_even a (100 * 2 ^ e)).
  { unfold scaled_round. destruct (Z.leb_spec 0 e); [reflexivity|lia]. }
  rewrite Hsc. set (P := 2 ^ e).
  assert (HP : 0 < P) by (apply Z.pow_pos_nonneg; lia).
  assert (Hm52 : 2 ^ 52 <= round_half_even a (100 * P)).
  { apply round_half_even_ge; [lia|].
    replace (2 ^ flr) with (P * 2 ^ 52) in Hreach; [lia|].
    unfold P. rewrite <- Z.pow_add_r by lia. f_equal. unfold e. lia. }
  set (m := round_half_even a (100 * P)) in *.
  destruct (Z.eqb_spec m (2 ^ prec)) as [Hmax|Hmax].
  - change (2 ^ (prec - 1)) with (Zpos (2 ^ 52)%positive).
    destruct (Z.leb_spec (e + 1) (emax - prec)) as [Hfit|];
      [unfold emax, prec in Hfit; lia|reflexivity].
  - destruct (Z.eq_dec e 971) as [He971|].
    + exfalso. apply Hmax. unfold prec.
      assert (Hup : a < 100 * 2 ^ 1024).
      { destruct (Z.lt_ge_cases a (100 * 2 ^ 1024)) as [|Hbig]; [assumption|].
        pose proof (floor_log2_ratio_lower a 1024 ltac:(lia) Hbig).
        unfold e in He971. fold flr in H. lia. }
      assert (HP971 : P = 2 ^ 971) by (unfold P; rewrite He971; reflexivity).
      pose proof (round_half_even_le a (100 * P) (2 ^ 53) ltac:(lia)
                    ltac:(rewrite HP971; lia)).
      pose proof (round_half_even_tie_up a (100 * P) (2 ^ 53) ltac:(lia)
                    eq_refl ltac:(rewrite HP971; lia)).
      fold m in H, H0. lia.
    + destruct m as [|p|p]; try lia.
      destruct (Z.leb_spec e (emax - prec)) as [Hfit|];
        [unfold emax, prec in Hfit; lia|reflexivity].
Qed.

(** The rounding above against the IEEE-754 operations of the Standard
    Library, on samples: exact, inexact, tie, subnormal and overflowing
    quotients, and conversions of integers beyond 53 bits. *)
Example div_agrees_with_SFdiv :
  let samples :=
    [ (of_int 599, of_int 100); (of_int 1, of_int 3); (of_int (-5), of_int 100);
      (of_int (2 ^ 1000), of_int 7); (of_int 1, of_int (10 ^ 300));
      (S754_finite false 3 (-1074), of_int 7);
      (S754_finite true 4503599627370497 (-1074), of_int 2);
      (S754_finite false 9007199254740991 971, S754_finite false 4503599627370496 (-53));
      (of_int 7036874417766401, of_int 100) ] in
  map (fun xy => div xy.1 xy.2) samples
  = map (fun xy => SFdiv prec emax xy.1 xy.2) samples.
Proof. vm_compute. reflexivity. Qed.

Example of_int_agrees_with_binary_normalize :
  let samples := [0; 1; -1; 100; 2 ^ 53 + 1; 2 ^ 53 + 3; - (10 ^ 30); 2 ^ 1024 - 1;
                  2 ^ 1024 - 2 ^ 970; 2 ^ 1024 - 2 ^ 970 - 1; 10 ^ 400] in
  map of_int samples
  = map (fun n => binary_normalize prec emax n 0 false) samples.
Proof. vm_compute. reflexivity. Qed.

(** [599 / 100] is the float [0x1.7f5c28f5c28f6p+2], shown as [5.99]. *)
Example whopper_price :
  round_binary64 false 599 100 = S754_finite false 6744140441987318 (-50)
  /\ format_2f (S754_finite false 6744140441987318 (-50)) = "5.99".
Proof. split; vm_compute; reflexivity. Qed.

End FloatFacts.

(** ** Facts on the decoder: every scanner consumes input, and the fuel
    [decode] gives is never used up *)

Module JsonFacts.
Import Json.

#[local] Arguments scan_atom : simpl never.
#[local] Arguments match_number : simpl never.
#[local] Arguments utf8 : simpl never.
#[local] Arguments hex4 : simpl never.
#[local] Arguments backslash : simpl never.

#[local] Abbreviation len := String.length.

Lemma skip_ws_length s : (len (skip_ws s) <= len s)%nat.
Proof. induction s as [|c s IH]; simpl; [lia|]. destruct (is_ws c); simpl; lia. Qed.

Lemma strip_prefix_length p : forall s r,
  strip_prefix p s = Some r -> len s = (len p + len r)%nat.
Proof.
  induction p as [|a p IH]; intros s r H; simpl in H.
  - injection H as <-. reflexivity.
  - destruct s as [|b s]; [discriminate|].
    destruct (Ascii.eqb a b); [|discriminate].
    simpl. rewrite (IH _ _ H). reflexivity.
Qed.

Lemma span_digits_length s : (len (span_digits s).2 <= len s)%nat.
Proof.
  induction s as [|c s IH]; simpl; [lia|].
  destruct (is_digit c); [|simpl; lia].
  destruct (span_digits s); simpl in *; lia.
Qed.

Lemma match_sign_length plus s : (len (match_sign plus s).2 <= len s)%nat.
Proof.
  destruct s as [|c s]; simpl; [lia|].
  destruct (Ascii.eqb c "-"); [simpl; lia|].
  destruct (plus && Ascii.eqb c "+"); simpl; lia.
Qed.

Lemma match_integer_length s ds r :
  match_integer s = Some (ds, r) -> (len r < len s)%nat.
Proof.
  destruct s as [|c s]; simpl; [discriminate|].
  destruct (code c =? 48); [intros [= _ <-]; lia|].
  destruct (is_digit c); [|discriminate].
  pose proof (span_digits_length s). destruct (span_digits s).
  intros [= _ <-]. simpl in *. lia.
Qed.

Lemma match_frac_length s ds r :
  match_frac s = Some (ds, r) -> (len r < len s)%nat.
Proof.
  destruct s as [|c s]; simpl; [discriminate|].
  destruct (Ascii.eqb c "."); [|discriminate].
  pose proof (span_digits_length s). destruct (span_digits s) as [[|d ds'] r'];
    [discriminate|]. intros [= _ <-]. simpl in *. lia.
Qed.

Lemma match_exp_length s e r :
  match_exp s = Some (e, r) -> (len r < len s)%nat.
Proof.
  destruct s as [|c s]; simpl; [discriminate|].
  destruct (Ascii.eqb c "e" || Ascii.eqb c "E"); [|discriminate].
  pose proof (match_sign_length true s). destruct (match_sign true s) as [neg r1].
  pose proof (span_digits_length r1). destruct (span_digits r1) as [[|d ds'] r'];
    [discriminate|]. intros [= _ <-]. simpl in *. lia.
Qed.

Lemma match_number_length max_digits s v r :
  match_number max_digits s = Number v r -> (len r < len s)%nat.
Proof.
  unfold match_number.
  pose proof (match_sign_length false s). destruct (match_sign false s) as [neg s1].
  destruct (match_integer s1) as [[ids s2]|] eqn:Ei; [|discriminate].
  apply match_integer_length in Ei.
  assert (exists frac s3, (len s3 <= len s2)%nat /\
            match match_frac s2 with
            | Some (fds, s3) => (Some fds, s3)
            | None => (None, s2)
            end = (frac, s3)) as (frac & s3 & H3 & ->).
  { destruct (match_frac s2) as [[fds s3]|] eqn:Ef; eexists _, _;
      (split; [|reflexivity]); try apply match_frac_length in Ef; lia. }
  assert (exists ex s4, (len s4 <= len s3)%nat /\
            match match_exp s3 with
            | Some (e, s4) => (Some e, s4)
            | None => (None, s3)
            end = (ex, s4)) as (ex & s4 & H4 & ->).
  { destruct (match_exp s3) as [[e s4]|] eqn:Ee; eexists _, _;
      (split; [|reflexivity]); try apply match_exp_length in Ee; lia. }
  simpl in *.
  destruct frac, ex;
    try destruct ((0 <? max_digits)%nat && (max_digits <? length ids)%nat);
    try discriminate; intros [= _ <-]; lia.
Qed.

Lemma scan_atom_length max_digits s v r :
  scan_atom max_digits s = Scanned v r -> (len r < len s)%nat.
Proof.
  unfold scan_atom.
  repeat match goal with
  | |- context [strip_prefix ?p s] =>
      let E := fresh "E" in
      destruct (strip_prefix p s) eqn:E;
      [apply strip_prefix_length in E; simpl in E; intros [= _ <-]; lia|]
  | |- context [match_number max_digits s] =>
      let E := fresh "E" in
      destruct (match_number max_digits s) as [? ?| |?] eqn:E;
      [apply match_number_length in E; intros [= _ <-]; lia| |discriminate]
  end.
  discriminate.
Qed.

Lemma scan_atom_not_exhausted max_digits s : scan_atom max_digits s <> Exhausted.
Proof.
  unfold scan_atom.
  repeat match goal with
  | |- context [match ?x with _ => _ end] => destruct x
  end; discriminate.
Qed.


(** case analysis on every test of a scanner that returned [H] *)
Ltac split_scan H :=
  repeat match type of H with
  | context [match ?x with _ => _ end] =>
      let E := fresh "E" in destruct x eqn:E; try discriminate H
  end.

Lemma scanstring_length n : forall s t r,
  (len s <= n)%nat -> scanstring s = Some (t, r) -> (len r < len s)%nat.
Proof.
  induction n as [|n IH]; intros s t r Hn H.
  - destruct s; [discriminate|simpl in Hn; lia].
  - destruct s as [|c s]; [discriminate|]. simpl in H, Hn.
    split_scan H;
      repeat match goal with
      | E : scanstring ?x = Some _ |- _ =>
          apply IH in E; [|subst; simpl in *; lia]
      | p : (_ * _)%type |- _ => destruct p
      end;
      injection H as _ <-; subst; simpl in *; lia.
Qed.

Ltac use_lengths :=
  repeat match goal with
  | E : skip_ws ?x = _ |- _ =>
      let L := fresh "L" in
      pose proof (skip_ws_length x) as L; rewrite E in L; clear E
  | E : scanstring ?x = Some _ |- _ =>
      apply (scanstring_length _ _ _ _ (Nat.le_refl _)) in E
  | E : scan_atom _ _ = Scanned _ _ |- _ => apply scan_atom_length in E
  | p : (_ * _)%type |- _ => destruct p
  | H : context [len (skip_ws ?x)] |- _ =>
      lazymatch goal with
      | _ : (len (skip_ws x) <= len x)%nat |- _ => fail
      | _ => pose proof (skip_ws_length x)
      end
  | |- context [len (skip_ws ?x)] =>
      lazymatch goal with
      | _ : (len (skip_ws x) <= len x)%nat |- _ => fail
      | _ => pose proof (skip_ws_length x)
      end
  end.

(** A scanner that succeeds has consumed at least one character. *)
Lemma scan_progress max_digits fuel :
  (forall depth s v r,
     scan_once max_digits fuel depth s = Scanned v r -> (len r < len s)%nat)
  /\ (forall depth s acc v r,
        array_items max_digits fuel depth s acc = Scanned v r ->
        (len r < len s)%nat)
  /\ (forall depth s acc v r,
        object_items max_digits fuel depth s acc = Scanned v r ->
        (len r < len s)%nat).
Proof.
  induction fuel as [|fuel (IH1 & IH2 & IH3)];
    [repeat split; intros; discriminate|].
  repeat split.
  - intros depth s v r H. simpl in H. destruct s as [|c s]; [discriminate|].
    split_scan H;
      try (injection H as _ <-); try apply IH2 in H; try apply IH3 in H;
      use_lengths; subst; simpl in *; lia.
  - intros depth s acc v r H. simpl in H.
    destruct (scan_once max_digits fuel depth s) as [v' r'| | | |] eqn:Es;
      try discriminate.
    apply IH1 in Es.
    split_scan H;
      try (injection H as _ <-); try apply IH2 in H;
      use_lengths; subst; simpl in *; lia.
  - intros depth s acc v r H. simpl in H.
    destruct (scanstring s) as [[key r0]|] eqn:Ek; [|discriminate].
    destruct (skip_ws r0) as [|c r1] eqn:E0; [discriminate|].
    destruct (Ascii.eqb c ":"); [|discriminate].
    destruct (scan_once max_digits fuel depth (skip_ws r1)) as [v' r2| | | |] eqn:Es;
      try discriminate.
    apply IH1 in Es. pose proof (skip_ws_length r1).
    split_scan H;
      try (injection H as _ <-); try apply IH3 in H;
      use_lengths; subst; simpl in *; lia.
Qed.

(** With twice the length of the input as fuel, no scanner runs out. *)
Lemma scan_fuel max_digits fuel :
  (forall depth s, (2 * len s + 1 <= fuel)%nat ->
     scan_once max_digits fuel depth s <> Exhausted)
  /\ (forall depth s acc, (2 * len s + 2 <= fuel)%nat ->
        array_items max_digits fuel depth s acc <> Exhausted)
  /\ (forall depth s acc, (2 * len s + 2 <= fuel)%nat ->
        object_items max_digits fuel depth s acc <> Exhausted).
Proof.
  induction fuel as [|fuel (IH1 & IH2 & IH3)];
    [repeat split; intros; lia|].
  repeat split.
  - intros depth s Hf H. simpl in H. destruct s as [|c s]; [discriminate|].
    simpl in Hf.
    split_scan H;
      try (apply IH2 in H; [assumption|]);
      try (apply IH3 in H; [assumption|]);
      try (apply scan_atom_not_exhausted in H; assumption);
      use_lengths; subst; simpl in *; lia.
  - intros depth s acc Hf H. simpl in H.
    destruct (scan_once max_digits fuel depth s) as [v' r'| | | |] eqn:Es;
      try discriminate.
    + apply (proj1 (scan_progress max_digits fuel)) in Es.
      split_scan H.
      apply IH2 in H; [assumption|].
      use_lengths; subst; simpl in *; lia.
    + apply IH1 in Es; [assumption|lia].
  - intros depth s acc Hf H. simpl in H.
    destruct (scanstring s) as [[key r0]|] eqn:Ek; [|discriminate].
    destruct (skip_ws r0) as [|c r1] eqn:E0; [discriminate|].
    destruct (Ascii.eqb c ":"); [|discriminate].
    pose proof (skip_ws_length r1).
    destruct (scan_once max_digits fuel depth (skip_ws r1)) as [v' r2| | | |] eqn:Es;
      try discriminate.
    + apply (proj1 (scan_progress max_digits fuel)) in Es.
      split_scan H.
      apply IH3 in H; [assumption|].
      use_lengths; subst; simpl in *; lia.
    + apply IH1 in Es; [assumption|].
      use_lengths; subst; simpl in *; lia.
Qed.

(** [decode] never stops for lack of fuel. *)
Lemma decode_fuel max_digits depth s :
  scan_once max_digits (S (2 * len s)) depth (skip_ws s) <> Exhausted.
Proof.
  apply (proj1 (scan_fuel _ _)). pose proof (skip_ws_length s). lia.
Qed.

End JsonFacts.


(** ** Facts on the monad and on substrings *)

Lemma bind_ret {A B} (a : A) (k : A -> M B) : (mret a ≫= k) = k a.
Proof. unfold mbind, M_bind, mret, M_ret. destruct (k a). reflexivity. Qed.

Lemma bind_raise {A B} (e : exn) (k : A -> M B) : (raise e ≫= k) = raise e.
Proof. reflexivity. Qed.

Lemma prefix_append needle rest : String.prefix needle (needle +:+ rest) = true.
Proof.
  induction needle as [|c needle IH]; simpl; [destruct rest; reflexivity|].
  destruct (ascii_dec c c); [exact IH|congruence].
Qed.

Lemma contains_append_r needle before hay :
  contains needle hay = true -> contains needle (before +:+ hay) = true.
Proof.
  intros H. induction before as [|c before IH]; [exact H|].
  simpl. rewrite IH. apply orb_true_r.
Qed.

Lemma contains_here needle rest : contains needle (needle +:+ rest) = true.
Proof.
  pose proof (prefix_append needle rest) as H.
  destruct (needle +:+ rest); cbn [contains]; rewrite H; reflexivity.
Qed.

Lemma prefix_weaken needle more : forall hay,
  String.prefix (needle +:+ more) hay = true -> String.prefix needle hay = true.
Proof.
  induction needle as [|c needle IH]; intros hay H.
  - destruct hay; reflexivity.
  - destruct hay as [|c' hay]; [discriminate H|].
    change (String c needle +:+ more) with (String c (needle +:+ more)) in H.
    simpl in H |- *. destruct (ascii_dec c c'); [apply IH, H|discriminate H].
Qed.

Lemma contains_weaken needle more hay :
  contains (needle +:+ more) hay = true -> contains needle hay = true.
Proof.
  induction hay as [|c hay IH]; cbn [contains]; intros H.
  - apply orb_true_iff in H as [H|H]; [|discriminate H].
    rewrite (prefix_weaken _ _ _ H). reflexivity.
  - apply orb_true_iff in H as [H|H].
    + rewrite (prefix_weaken _ _ _ H). reflexivity.
    + rewrite (IH H). apply orb_true_r.
Qed.

(** ** ASCII texts and what [print] does with them *)

Lemma is_ascii_append a b : is_ascii (a +:+ b) = is_ascii a && is_ascii b.
Proof.
  induction a as [|c a IH]; [reflexivity|].
  change (String c a +:+ b) with (String c (a +:+ b)).
  cbn [is_ascii]. rewrite IH. apply andb_assoc.
Qed.

Lemma is_ascii_string_of_uint d :
  is_ascii (DecimalString.NilEmpty.string_of_uint d) = true.
Proof. induction d; simpl; assumption || reflexivity. Qed.

Lemma is_ascii_str_int n : is_ascii (Float.str_int n) = true.
Proof.
  unfold Float.str_int. destruct (Z.to_int n); simpl;
    apply is_ascii_string_of_uint.
Qed.

Lemma is_ascii_digit d : 0 <= d <= 9 -> is_ascii (Float.digit d) = true.
Proof.
  intros Hd.
  assert (Hcases : d = 0 \/ d = 1 \/ d = 2 \/ d = 3 \/ d = 4 \/ d = 5
                   \/ d = 6 \/ d = 7 \/ d = 8 \/ d = 9) by lia.
  repeat destruct Hcases as [->|Hcases]; try subst d; reflexivity.
Qed.

Lemma is_ascii_hundredths s k : is_ascii (Float.hundredths s k) = true.
Proof.
  unfold Float.hundredths.
  pose proof (Z.mod_pos_bound k 100 ltac:(lia)) as H100.
  pose proof (Z.mod_pos_bound k 10 ltac:(lia)) as H10.
  assert (0 <= k mod 100 / 10 <= 9) as Htens.
  { split; [apply Z.div_pos; lia|].
    apply Z.lt_succ_r, Z.div_lt_upper_bound; lia. }
  rewrite !is_ascii_append, is_ascii_str_int,
    (is_ascii_digit _ Htens), (is_ascii_digit (k mod 10)) by lia.
  destruct s; reflexivity.
Qed.

Lemma is_ascii_format_2f x : is_ascii (Float.format_2f x) = true.
Proof.
  destruct x as [[]|[]| |]; try reflexivity; apply is_ascii_hundredths.
Qed.

Lemma is_ascii_type_name v : is_ascii (type_name v) = true.
Proof. destruct v; reflexivity. Qed.

(** an ASCII text made of literals, numbers and prices *)
Ltac ascii :=
  unfold error_log, processing_error_message, order_log, exn_str,
    recursion_message, int_digits_message;
  rewrite ?is_ascii_append, ?is_ascii_str_int, ?is_ascii_format_2f,
    ?is_ascii_type_name;
  reflexivity.

Lemma print_printable py line :
  printable py line = true -> print py line = emit (Print line).
Proof. intros H. unfold print. rewrite H. reflexivity. Qed.

Lemma print_ascii py line :
  is_ascii line = true -> print py line = emit (Print line).
Proof. intros H. apply print_printable. unfold printable. rewrite H. reflexivity. Qed.

Lemma print_refused py line :
  printable py line = false ->
  print py line = raise (UnicodeEncodeError (encode_error py line)).
Proof. intros H. unfold print. rewrite H. reflexivity. Qed.

(** The log line of an exception with an ASCII text is printed. *)
Lemma error_log_printed py e :
  is_ascii (exn_str e) = true -> print py (error_log e) = emit (Print (error_log e)).
Proof.
  intros H. apply print_ascii. unfold error_log.
  rewrite is_ascii_append, H. reflexivity.
Qed.

Lemma reportable_print_failure py line :
  reportable (UnicodeEncodeError (encode_error py line)) = true.
Proof. unfold reportable. simpl. apply encode_error_ascii. Qed.

(** ** The division by 100, range by range *)

(** Up to [100 * 2^46] cents the division succeeds and the two decimals
    shown are the exact ones. *)
Lemma cents_divide n :
  Z.abs n <= 100 * 2 ^ 46 ->
  exists q, long_true_divide n 100 = mret q
            /\ Float.format_2f q = cents_text n.
Proof.
  intros Hn. unfold long_true_divide, cents_text.
  destruct (Z.eq_dec n 0) as [->|Hnz]; [eexists; split; reflexivity|].
  destruct (Z.eq_dec (Z.abs n) (100 * 2 ^ 46)) as [Hmax|Hmax].
  - assert (Hcases : n = 100 * 2 ^ 46 \/ n = - (100 * 2 ^ 46)) by lia.
    destruct Hcases as [-> | ->]; eexists; split; vm_compute; reflexivity.
  - destruct (FloatFacts.cents_round_trip (n <? 0) (Z.abs n) ltac:(lia))
      as (m & e & Hr & Hk).
    rewrite Hr. eexists. split; [reflexivity|].
    unfold Float.format_2f. rewrite Hk. reflexivity.
Qed.

(** The integer division succeeds exactly below [overflow_cents]. *)
Lemma long_true_divide_in_range n :
  Z.abs n < Float.overflow_cents ->
  long_true_divide n 100
  = mret (Float.round_binary64 (n <? 0) (Z.abs n) 100).
Proof.
  intros Hn. unfold long_true_divide.
  destruct (Z.eq_dec n 0) as [->|Hnz]; [reflexivity|].
  pose proof (FloatFacts.int_divide_in_range (n <? 0) (Z.abs n) ltac:(lia)) as Hfin.
  destruct (Float.round_binary64 (n <? 0) (Z.abs n) 100) as [| s' | |];
    try reflexivity.
  destruct (Hfin s' eq_refl).
Qed.

Lemma long_true_divide_overflow n :
  Float.overflow_cents <= Z.abs n ->
  long_true_divide n 100
  = raise (OverflowError "integer division result too large for a float").
Proof.
  intros Hn. unfold long_true_divide.
  rewrite (FloatFacts.int_divide_overflow (n <? 0) (Z.abs n) Hn). reflexivity.
Qed.

Lemma py_truediv_divides x :
  price_divides x = true -> exists q, py_truediv x 100 = mret q.
Proof.
  destruct x as [|b|n|f| | |]; simpl; intros Hx; try discriminate.
  - destruct b; eexists; vm_compute; reflexivity.
  - eexists. apply long_true_divide_in_range. lia.
  - eexists. reflexivity.
Qed.

Lemma py_truediv_refuses x :
  price_divides x = false ->
  exists e, py_truediv x 100 = raise e /\ reportable e = true.
Proof.
  destruct x as [|b|n|f| | |]; simpl; intros Hx; try discriminate;
    try (eexists; split; reflexivity).
  eexists. split; [apply long_true_divide_overflow; lia|reflexivity].
Qed.

Lemma py_truediv_accepts x q :
  py_truediv x 100 = mret q -> price_divides x = true.
Proof.
  intros Hq. destruct (price_divides x) eqn:Hdiv; [reflexivity|].
  destruct (py_truediv_refuses x Hdiv) as (e & He & _).
  rewrite He in Hq. discriminate Hq.
Qed.
(** ** The payload handler, path by path *)

Section PayloadHandlerFacts.

Variable py : Interpreter.

#[local] Abbreviation handle := (handle_web_app_data py).
#[local] Abbreviation str := (py_str py).

(** How [json.loads] ends: with a value or with one of three exceptions,
    each with an ASCII text. *)
Lemma json_loads_cases s :
  (exists v, json_loads py s = mret v)
  \/ json_loads py s = raise JSONDecodeError
  \/ (exists c, json_loads py s = raise (RecursionError (recursion_message c)))
  \/ (exists n, json_loads py s = raise (ValueError (int_digits_message n))).
Proof.
  unfold json_loads.
  destruct (Json.decode int_max_str_digits (S (nesting_spare py)) s) as [v| |c|n].
  - left. exists v. reflexivity.
  - right. left. reflexivity.
  - right. right. left. exists c. reflexivity.
  - right. right. right. exists n. reflexivity.
Qed.

Lemma reportable_recursion c : reportable (RecursionError (recursion_message c)) = true.
Proof. unfold reportable. cbn [is_JSONDecodeError is_Exception negb andb]. destruct c; ascii. Qed.

Lemma reportable_digits n : reportable (ValueError (int_digits_message n)) = true.
Proof. unfold reportable. cbn [is_JSONDecodeError is_Exception negb andb]. ascii. Qed.

Lemma reportable_no_get v :
  reportable (AttributeError ("'" +:+ type_name v
                                +:+ "' object has no attribute 'get'")) = true.
Proof. unfold reportable. cbn [is_JSONDecodeError is_Exception negb andb]. ascii. Qed.

Lemma reportable_not_number v :
  reportable (TypeError ("unsupported operand type(s) for /: '" +:+ type_name v
                           +:+ "' and 'int'")) = true.
Proof. unfold reportable. cbn [is_JSONDecodeError is_Exception negb andb]. ascii. Qed.

(** The second [except] clause on an exception it reports. *)
Lemma except_reportable e :
  reportable e = true -> web_app_data_except py e = failure_report e.
Proof.
  unfold reportable. intros H.
  apply andb_true_iff in H as [H Hascii]. apply andb_true_iff in H as [Hj He].
  apply negb_true_iff in Hj.
  unfold web_app_data_except. rewrite Hj, He.
  rewrite (error_log_printed py e Hascii). reflexivity.
Qed.

(** The suite that raised before it sent anything. *)
Lemma handle_raised update context e :
  web_app_data_try py update = raise e ->
  handle update context = web_app_data_except py e.
Proof.
  intros Htry. unfold handle_web_app_data. rewrite Htry.
  unfold try_except, raise. destruct (web_app_data_except py e). reflexivity.
Qed.

Lemma try_on_loads_raise update e :
  json_loads py (web_app_data update) = raise e ->
  web_app_data_try py update = raise e.
Proof. intros H. unfold web_app_data_try. rewrite H. apply bind_raise. Qed.

Lemma try_on_dict update d :
  json_loads py (web_app_data update) = mret (PyDict d) ->
  web_app_data_try py update =
    (price_dollars ← py_truediv (price_cents_of d) 100;
     reply_text
       (order_response (str (item_name_of d)) (Float.format_2f price_dollars)
          (str (item_id_of d))) None;;
     print py (order_log (effective_user_id update) (str (item_name_of d))
                 (Float.format_2f price_dollars))).
Proof.
  intros Hd. unfold web_app_data_try. rewrite Hd.
  rewrite bind_ret. unfold py_get. rewrite !bind_ret. reflexivity.
Qed.

(** The suite on a dict whose price divides: the reply is sent, then the
    log line is printed or [print] raises. *)
Lemma try_on_order update d q :
  json_loads py (web_app_data update) = mret (PyDict d) ->
  py_truediv (price_cents_of d) 100 = mret q ->
  let reply :=
    ReplyText (order_response (str (item_name_of d)) (Float.format_2f q)
                 (str (item_id_of d))) None in
  let line := order_log (effective_user_id update) (str (item_name_of d))
                (Float.format_2f q) in
  web_app_data_try py update =
    if printable py line then ([reply; Print line], inr tt)
    else ([reply], inl (UnicodeEncodeError (encode_error py line))).
Proof.
  intros Hd Hq reply line. rewrite (try_on_dict _ _ Hd), Hq, bind_ret.
  fold line. unfold print. destruct (printable py line); reflexivity.
Qed.

(** A dict whose price divides: the order is confirmed. *)
Lemma order_confirmed update context d q :
  json_loads py (web_app_data update) = mret (PyDict d) ->
  py_truediv (price_cents_of d) 100 = mret q ->
  handle update context =
    confirmation py (effective_user_id update) (str (item_name_of d))
      (Float.format_2f q) (str (item_id_of d)).
Proof.
  intros Hd Hq. unfold handle_web_app_data, confirmation.
  rewrite (try_on_order _ _ _ Hd Hq).
  destruct (printable py _) eqn:Hp; [reflexivity|].
  unfold try_except.
  rewrite (except_reportable _ (reportable_print_failure py _)). reflexivity.
Qed.

(** The confirmation when the log line can be printed, and when not. *)
Lemma confirmation_printed user_id name price id :
  printable py (order_log user_id name price) = true ->
  confirmation py user_id name price id =
    ([ReplyText (order_response name price id) None;
      Print (order_log user_id name price)],
     inr tt).
Proof. intros H. unfold confirmation. rewrite H. reflexivity. Qed.

Lemma confirmation_not_printed user_id name price id :
  printable py (order_log user_id name price) = false ->
  let e := UnicodeEncodeError (encode_error py (order_log user_id name price)) in
  confirmation py user_id name price id =
    ([ReplyText (order_response name price id) None;
      ReplyText (processing_error_message e) None;
      Print (error_log e)],
     inr tt).
Proof. intros H. unfold confirmation. rewrite H. reflexivity. Qed.

Lemma confirmation_reply user_id name price id :
  exists more,
    confirmation py user_id name price id =
      (ReplyText (order_response name price id) None :: more, inr tt).
Proof.
  unfold confirmation. destruct (printable py _); eexists; reflexivity.
Qed.

(** The log line of an order with an ASCII name is printed. *)
Lemma order_log_ascii user_id name q :
  is_ascii name = true ->
  printable py (order_log user_id name (Float.format_2f q)) = true.
Proof.
  intros Hname. unfold printable, order_log.
  rewrite !is_ascii_append, Hname, is_ascii_str_int, is_ascii_format_2f.
  reflexivity.
Qed.

(** A dict whose price does not divide: the error is reported. *)
Lemma order_refused update context d e :
  json_loads py (web_app_data update) = mret (PyDict d) ->
  py_truediv (price_cents_of d) 100 = raise e ->
  reportable e = true ->
  handle update context = failure_report e.
Proof.
  intros Hd Hq He.
  rewrite (handle_raised update context e); [apply except_reportable, He|].
  rewrite (try_on_dict _ _ Hd), Hq. apply bind_raise.
Qed.

(** Anything but a dict has no [get]. *)
Lemma try_on_non_dict update v :
  json_loads py (web_app_data update) = mret v ->
  (forall d, v <> PyDict d) ->
  web_app_data_try py update =
    raise (AttributeError ("'" +:+ type_name v
                             +:+ "' object has no attribute 'get'")).
Proof.
  intros Hv Hnd. unfold web_app_data_try. rewrite Hv, bind_ret.
  destruct v; try reflexivity. destruct (Hnd entries eq_refl).
Qed.

Lemma dict_or_not (v : pyobj) : (exists d, v = PyDict d) \/ (forall d, v <> PyDict d).
Proof. destruct v; try (right; discriminate). left. eexists. reflexivity. Qed.

(** The five ways a run of the handler can go:
    - [json.loads] raises [JSONDecodeError];
    - [json.loads] raises [RecursionError] or [ValueError];
    - the payload is not an object;
    - it is an object whose price does not divide;
    - it is an object whose price divides. *)
Lemma handler_cases update context :
  (json_loads py (web_app_data update) = raise JSONDecodeError
   /\ handle update context = ([ReplyText parse_error_message None], inr tt))
  \/ (exists e,
        json_loads py (web_app_data update) = raise e
        /\ ((exists c, e = RecursionError (recursion_message c))
            \/ (exists n, e = ValueError (int_digits_message n)))
        /\ web_app_data_try py update = raise e
        /\ reportable e = true
        /\ handle update context = failure_report e)
  \/ (exists v,
        json_loads py (web_app_data update) = mret v
        /\ (forall d, v <> PyDict d)
        /\ let e := AttributeError ("'" +:+ type_name v
                                      +:+ "' object has no attribute 'get'") in
           web_app_data_try py update = raise e
           /\ reportable e = true
           /\ handle update context = failure_report e)
  \/ (exists d e,
        json_loads py (web_app_data update) = mret (PyDict d)
        /\ price_divides (price_cents_of d) = false
        /\ py_truediv (price_cents_of d) 100 = raise e
        /\ web_app_data_try py update = raise e
        /\ reportable e = true
        /\ handle update context = failure_report e)
  \/ (exists d q,
        json_loads py (web_app_data update) = mret (PyDict d)
        /\ price_divides (price_cents_of d) = true
        /\ py_truediv (price_cents_of d) 100 = mret q
        /\ handle update context
           = confirmation py (effective_user_id update) (str (item_name_of d))
               (Float.format_2f q) (str (item_id_of d))).
Proof.
  destruct (json_loads_cases (web_app_data update))
    as [[v Hv]|[Hj|[[c Hc]|[n Hn]]]].
  - right. right. destruct (dict_or_not v) as [[d ->]|Hnd].
    + right. destruct (price_divides (price_cents_of d)) eqn:Hdiv.
      * right. destruct (py_truediv_divides _ Hdiv) as [q Hq].
        exists d, q. split; [exact Hv|]. split; [exact Hdiv|].
        split; [exact Hq|]. apply (order_confirmed update context d q Hv Hq).
      * left. destruct (py_truediv_refuses _ Hdiv) as (e & He & Hr).
        exists d, e. split; [exact Hv|]. split; [exact Hdiv|].
        split; [exact He|]. split; [|split; [exact Hr|]].
        -- rewrite (try_on_dict _ _ Hv), He. apply bind_raise.
        -- apply (order_refused update context d e Hv He Hr).
    + left. exists v. split; [exact Hv|]. split; [exact Hnd|].
      pose proof (try_on_non_dict update v Hv Hnd) as Htry.
      split; [exact Htry|]. split; [apply reportable_no_get|].
      rewrite (handle_raised _ context _ Htry).
      apply except_reportable, reportable_no_get.
  - left. split; [exact Hj|].
    rewrite (handle_raised _ context _ (try_on_loads_raise _ _ Hj)).
    reflexivity.
  - right. left. eexists. split; [exact Hc|].
    split; [left; eexists; reflexivity|].
    split; [apply try_on_loads_raise, Hc|].
    split; [apply reportable_recursion|].
    rewrite (handle_raised _ context _ (try_on_loads_raise _ _ Hc)).
    apply except_reportable, reportable_recursion.
  - right. left. eexists. split; [exact Hn|].
    split; [right; eexists; reflexivity|].
    split; [apply try_on_loads_raise, Hn|].
    split; [apply reportable_digits|].
    rewrite (handle_raised _ context _ (try_on_loads_raise _ _ Hn)).
    apply except_reportable, reportable_digits.
Qed.

(** What the suite of the [try] can raise: an [Exception] with an ASCII
    text; and what it has sent by then: nothing, or the confirmation when
    it is [print] that raised. *)
Lemma try_raises update tr e :
  web_app_data_try py update = (tr, inl e) ->
  is_Exception e = true /\ is_ascii (exn_str e) = true
  /\ (tr = [] \/ exists reply, tr = [ReplyText reply None]).
Proof.
  intros Htry.
  assert (Hrep : forall e', reportable e' = true ->
                            is_Exception e' = true /\ is_ascii (exn_str e') = true).
  { intros e' H. unfold reportable in H.
    apply andb_true_iff in H as [H Hascii]. apply andb_true_iff in H as [_ He].
    split; assumption. }
  destruct (handler_cases update no_context)
    as [[Hj _]|[(e' & _ & _ & Hraise & Hr & _)|[(v & _ & _ & Hraise & Hr & _)
       |[(d & e' & _ & _ & _ & Hraise & Hr & _)|(d & q & Hd & _ & Hq & _)]]]].
  - rewrite (try_on_loads_raise _ _ Hj) in Htry. injection Htry as <- <-.
    split; [reflexivity|]. split; [reflexivity|]. left. reflexivity.
  - rewrite Hraise in Htry. injection Htry as <- <-.
    destruct (Hrep _ Hr). auto.
  - rewrite Hraise in Htry. injection Htry as <- <-.
    destruct (Hrep _ Hr). auto.
  - rewrite Hraise in Htry. injection Htry as <- <-.
    destruct (Hrep _ Hr). auto.
  - rewrite (try_on_order _ _ _ Hd Hq) in Htry.
    match type of Htry with
    | context [printable py ?line] =>
        destruct (printable py line); [discriminate Htry|];
        injection Htry as <- <-;
        destruct (Hrep _ (reportable_print_failure py line)) as [He Ha]
    end.
    split; [exact He|]. split; [exact Ha|]. right. eexists. reflexivity.
Qed.

(** Whatever the payload, the handler returns normally. *)
Lemma handler_returns update context :
  (handle update context).2 = inr tt.
Proof.
  destruct (handler_cases update context)
    as [[_ ->]|[(e & _ & _ & _ & _ & ->)|[(v & _ & _ & _ & _ & ->)
       |[(d & e & _ & _ & _ & _ & _ & ->)|(d & q & _ & _ & _ & ->)]]]];
    try reflexivity.
  destruct (confirmation_reply (effective_user_id update) (str (item_name_of d))
              (Float.format_2f q) (str (item_id_of d))) as [more ->].
  reflexivity.
Qed.

(** A dict whose price does not divide gets the error reply. *)
Lemma order_refused_reply update context d :
  json_loads py (web_app_data update) = mret (PyDict d) ->
  price_divides (price_cents_of d) = false ->
  exists e, reportable e = true /\ handle update context = failure_report e.
Proof.
  intros Hd Hdiv.
  destruct (py_truediv_refuses _ Hdiv) as (e & He & Hr).
  exists e. split; [exact Hr|]. exact (order_refused update context d e Hd He Hr).
Qed.

End PayloadHandlerFacts.

(** ** The responses, line by line *)

Lemma append_assoc (a b c : string) : (a +:+ b) +:+ c = a +:+ (b +:+ c).
Proof.
  induction a as [|x a IH]; [reflexivity|].
  change (String x ((a +:+ b) +:+ c) = String x (a +:+ (b +:+ c))).
  rewrite IH. reflexivity.
Qed.

Lemma response_item_line name price id :
  contains ("Item: " +:+ name +:+ LF) (order_response name price id) = true.
Proof.
  unfold order_response. do 3 apply contains_append_r.
  rewrite <- (append_assoc name LF), <- (append_assoc "Item: " (name +:+ LF)).
  apply contains_here.
Qed.

Lemma response_item_name name price id :
  contains name (order_response name price id) = true.
Proof.
  unfold order_response. do 4 apply contains_append_r. apply contains_here.
Qed.

Lemma response_price_line name price id :
  contains ("Price: $" +:+ price +:+ LF) (order_response name price id) = true.
Proof.
  unfold order_response. do 6 apply contains_append_r.
  rewrite <- (append_assoc price LF), <- (append_assoc "Price: $" (price +:+ LF)).
  apply contains_here.
Qed.

Lemma response_order_id_line name price id :
  contains ("Order ID: #" +:+ id +:+ LF) (order_response name price id) = true.
Proof.
  unfold order_response. do 9 apply contains_append_r.
  rewrite <- (append_assoc id LF), <- (append_assoc "Order ID: #" (id +:+ LF)).
  apply contains_here.
Qed.


(** ** [start] and [main], step by step *)


(** With two arguments or more [main] goes on to the first [print]. *)
Lemma main_from_token py program bot_token rest :
  main py (program :: bot_token :: rest) =
    (let webapp_url := webapp_url_of (program :: bot_token :: rest) in
     print py ("Starting bot with WebApp URL: " +:+ webapp_url);;
     app ← build bot_token;
     let app := {| token := token app;
                   bot_data := <["webapp_url" := webapp_url]> (bot_data app);
                   handlers := handlers app |} in
     let app := add_handler app (CommandHandler "start" cb_start) in
     let app := add_handler app
                  (MessageHandler_WEB_APP_DATA cb_handle_web_app_data) in
     print py "Bot is running... Press Ctrl+C to stop.";;
     emit (RunPolling app)).
Proof.
  unfold main, webapp_url_of. simpl length.
  rewrite (bool_decide_false (S (S (length rest)) < 2)%nat) by lia.
  rewrite bind_ret.
  change (py_index (program :: bot_token :: rest) 1)
    with (mret bot_token : M string).
  rewrite bind_ret.
  destruct rest as [|webapp_url rest]; simpl length.
  - rewrite bool_decide_false by lia. rewrite bind_ret. reflexivity.
  - rewrite bool_decide_true by lia.
    change (py_index (program :: bot_token :: webapp_url :: rest) 2)
      with (mret webapp_url : M string).
    rewrite bind_ret. reflexivity.
Qed.

(** The three ways [main] can go from there: the first line cannot be
    printed; the token is empty; the bot is run. *)
Lemma main_print_refused py program bot_token rest :
  let line := "Starting bot with WebApp URL: "
                +:+ webapp_url_of (program :: bot_token :: rest) in
  printable py line = false ->
  main py (program :: bot_token :: rest)
  = ([], inl (UnicodeEncodeError (encode_error py line))).
Proof.
  intros line Hp. rewrite main_from_token. cbv zeta. fold line.
  rewrite (print_refused py line Hp). reflexivity.
Qed.

Lemma main_invalid_token py program rest :
  let line := "Starting bot with WebApp URL: "
                +:+ webapp_url_of (program :: "" :: rest) in
  printable py line = true ->
  main py (program :: "" :: rest) = ([Print line], inl InvalidToken).
Proof.
  intros line Hp. rewrite main_from_token. cbv zeta.
  fold line. rewrite (print_printable py line Hp). reflexivity.
Qed.

Lemma main_runs py program bot_token rest :
  let webapp_url := webapp_url_of (program :: bot_token :: rest) in
  bot_token <> "" ->
  printable py ("Starting bot with WebApp URL: " +:+ webapp_url) = true ->
  main py (program :: bot_token :: rest) =
    ([Print ("Starting bot with WebApp URL: " +:+ webapp_url);
      Print "Bot is running... Press Ctrl+C to stop.";
      RunPolling
        {| token := bot_token;
           bot_data := <["webapp_url" := webapp_url]> ∅;
           handlers := [CommandHandler "start" cb_start;
                        MessageHandler_WEB_APP_DATA cb_handle_web_app_data] |}],
     inr tt).
Proof.
  intros webapp_url Htoken Hp. rewrite main_from_token. cbv zeta.
  fold webapp_url. rewrite (print_printable py _ Hp).
  rewrite (print_ascii py "Bot is running... Press Ctrl+C to stop." eq_refl).
  unfold build. apply String.eqb_neq in Htoken. rewrite Htoken. reflexivity.
Qed.

(** With fewer than two arguments [main] prints the usage and exits. *)
Lemma main_usage py argv :
  (length argv < 2)%nat ->
  main py argv = ([Print usage], inl (SystemExit 1)).
Proof.
  intros Hlen. unfold main.
  rewrite (bool_decide_true (length argv < 2)%nat) by exact Hlen.
  rewrite (print_ascii py usage eq_refl). reflexivity.
Qed.

(** The four ways a run of [main] can go. *)
Lemma main_cases py argv :
  let line := "Starting bot with WebApp URL: " +:+ webapp_url_of argv in
  ((length argv < 2)%nat
   /\ main py argv = ([Print usage], inl (SystemExit 1)))
  \/ ((2 <= length argv)%nat /\ printable py line = false
      /\ main py argv = ([], inl (UnicodeEncodeError (encode_error py line))))
  \/ ((2 <= length argv)%nat /\ printable py line = true
      /\ argv !! 1%nat = Some ""
      /\ main py argv = ([Print line], inl InvalidToken))
  \/ (exists bot_token,
        (2 <= length argv)%nat /\ printable py line = true
        /\ argv !! 1%nat = Some bot_token /\ bot_token <> ""
        /\ main py argv =
             ([Print line;
               Print "Bot is running... Press Ctrl+C to stop.";
               RunPolling
                 {| token := bot_token;
                    bot_data := <["webapp_url" := webapp_url_of argv]> ∅;
                    handlers := [CommandHandler "start" cb_start;
                                 MessageHandler_WEB_APP_DATA
                                   cb_handle_web_app_data] |}],
              inr tt)).
Proof.
  intros line. destruct argv as [|program [|bot_token rest]].
  - left. split; [simpl; lia|]. apply main_usage. simpl; lia.
  - left. split; [simpl; lia|]. apply main_usage. simpl; lia.
  - right. assert (Hlen : (2 <= length (program :: bot_token :: rest))%nat)
      by (simpl; lia).
    destruct (printable py line) eqn:Hp.
    + right. destruct (String.eqb_spec bot_token "") as [->|Htoken].
      * left. split; [exact Hlen|]. split; [reflexivity|].
        split; [reflexivity|]. apply main_invalid_token, Hp.
      * right. exists bot_token. split; [exact Hlen|]. split; [reflexivity|].
        split; [reflexivity|]. split; [exact Htoken|].
        apply main_runs; assumption.
    + left. split; [exact Hlen|]. split; [reflexivity|].
      apply main_print_refused, Hp.
Qed.

(** ** The limits of the interpreter, and the decoder without them *)

Lemma skip_ws_blank s : blank s = true -> Json.skip_ws s = EmptyString.
Proof.
  induction s as [|c s IH]; [reflexivity|]. simpl.
  destruct (Json.is_ws c); [exact IH|discriminate].
Qed.

Lemma skip_ws_blank_append pad s :
  blank pad = true -> Json.skip_ws (pad +:+ s) = Json.skip_ws s.
Proof.
  induction pad as [|c pad IH]; [reflexivity|]. simpl.
  destruct (Json.is_ws c); [exact IH|discriminate].
Qed.

Lemma length_append (a b : string) :
  String.length (a +:+ b) = (String.length a + String.length b)%nat.
Proof.
  induction a as [|c a IH]; [reflexivity|].
  change (S (String.length (a +:+ b)) = S (String.length a + String.length b)).
  rewrite IH. reflexivity.
Qed.

Module Limits.
Import Json JsonFacts.

#[local] Arguments scan_atom : simpl never.
#[local] Arguments match_number : simpl never.

#[local] Abbreviation len := String.length.

(** A scanner that did not run out of fuel gives the same result with
    more fuel. *)
Lemma scan_fuel_more md fuel : forall fuel', (fuel <= fuel')%nat ->
  (forall d s, scan_once md fuel d s <> Exhausted ->
     scan_once md fuel' d s = scan_once md fuel d s)
  /\ (forall d s acc, array_items md fuel d s acc <> Exhausted ->
        array_items md fuel' d s acc = array_items md fuel d s acc)
  /\ (forall d s acc, object_items md fuel d s acc <> Exhausted ->
        object_items md fuel' d s acc = object_items md fuel d s acc).
Proof.
  induction fuel as [|fuel IH]; intros fuel' Hle.
  - repeat split; intros; exfalso; auto.
  - destruct fuel' as [|fuel']; [lia|].
    destruct (IH fuel' ltac:(lia)) as (IH1 & IH2 & IH3).
    split; [|split].
    + intros d s H. cbn [scan_once] in *. destruct s as [|c s]; [reflexivity|].
      destruct (Ascii.eqb c dquote); [reflexivity|].
      destruct (Ascii.eqb c "{").
      * destruct d as [|d]; [reflexivity|].
        destruct (skip_ws s) as [|c' r']; [reflexivity|].
        destruct (Ascii.eqb c' "}"); [reflexivity|].
        destruct (Ascii.eqb c' dquote); [|reflexivity].
        apply IH3, H.
      * destruct (Ascii.eqb c "["); [|reflexivity].
        destruct d as [|d]; [reflexivity|].
        destruct (skip_ws s) as [|c' r']; [reflexivity|].
        destruct (Ascii.eqb c' "]"); [reflexivity|].
        apply IH2, H.
    + intros d s acc H. cbn [array_items] in *.
      destruct (scan_once md fuel d s) as [v r| | | |] eqn:E;
        try (rewrite (IH1 d s) by (rewrite E; discriminate); rewrite E;
             reflexivity);
        [|destruct (H eq_refl)].
      rewrite (IH1 d s) by (rewrite E; discriminate). rewrite E.
      destruct (skip_ws r) as [|c r']; [reflexivity|].
      destruct (Ascii.eqb c "]"); [reflexivity|].
      destruct (Ascii.eqb c ","); [|reflexivity].
      apply IH2, H.
    + intros d s acc H. cbn [object_items] in *.
      destruct (scanstring s) as [[key r]|]; [|reflexivity].
      destruct (skip_ws r) as [|c r1]; [reflexivity|].
      destruct (Ascii.eqb c ":"); [|reflexivity].
      destruct (scan_once md fuel d (skip_ws r1)) as [v r2| | | |] eqn:E;
        try (rewrite (IH1 d (skip_ws r1)) by (rewrite E; discriminate);
             rewrite E; reflexivity);
        [|destruct (H eq_refl)].
      rewrite (IH1 d (skip_ws r1)) by (rewrite E; discriminate). rewrite E.
      destruct (skip_ws r2) as [|c' r3]; [reflexivity|].
      destruct (Ascii.eqb c' "}"); [reflexivity|].
      destruct (Ascii.eqb c' ","); [|reflexivity].
      destruct (skip_ws r3) as [|c'' r4]; [reflexivity|].
      destruct (Ascii.eqb c'' dquote); [|reflexivity].
      apply IH3, H.
Qed.

(** A scanner that did not meet the limit of nesting gives the same
    result with more levels. *)
Lemma scan_depth_more md fuel :
  (forall d d' s, (d <= d')%nat ->
     (forall c, scan_once md fuel d s <> Nested c) ->
     scan_once md fuel d' s = scan_once md fuel d s)
  /\ (forall d d' s acc, (d <= d')%nat ->
        (forall c, array_items md fuel d s acc <> Nested c) ->
        array_items md fuel d' s acc = array_items md fuel d s acc)
  /\ (forall d d' s acc, (d <= d')%nat ->
        (forall c, object_items md fuel d s acc <> Nested c) ->
        object_items md fuel d' s acc = object_items md fuel d s acc).
Proof.
  induction fuel as [|fuel (IH1 & IH2 & IH3)]; [repeat split; reflexivity|].
  split; [|split].
  - intros d d' s Hle H. cbn [scan_once] in *. destruct s as [|c s]; [reflexivity|].
    destruct (Ascii.eqb c dquote); [reflexivity|].
    destruct (Ascii.eqb c "{").
    + destruct d as [|d]; [destruct (H JObject eq_refl)|].
      destruct d' as [|d']; [lia|].
      destruct (skip_ws s) as [|c' r']; [reflexivity|].
      destruct (Ascii.eqb c' "}"); [reflexivity|].
      destruct (Ascii.eqb c' dquote); [|reflexivity].
      apply IH3; [lia|exact H].
    + destruct (Ascii.eqb c "["); [|reflexivity].
      destruct d as [|d]; [destruct (H JArray eq_refl)|].
      destruct d' as [|d']; [lia|].
      destruct (skip_ws s) as [|c' r']; [reflexivity|].
      destruct (Ascii.eqb c' "]"); [reflexivity|].
      apply IH2; [lia|exact H].
  - intros d d' s acc Hle H. cbn [array_items] in *.
    destruct (scan_once md fuel d s) as [v r| |c| |] eqn:E;
      try (rewrite (IH1 d d' s Hle) by (rewrite E; discriminate); rewrite E;
           reflexivity);
      [|destruct (H c eq_refl)].
    rewrite (IH1 d d' s Hle) by (rewrite E; discriminate). rewrite E.
    destruct (skip_ws r) as [|c r']; [reflexivity|].
    destruct (Ascii.eqb c "]"); [reflexivity|].
    destruct (Ascii.eqb c ","); [|reflexivity].
    apply IH2; [lia|exact H].
  - intros d d' s acc Hle H. cbn [object_items] in *.
    destruct (scanstring s) as [[key r]|]; [|reflexivity].
    destruct (skip_ws r) as [|c r1]; [reflexivity|].
    destruct (Ascii.eqb c ":"); [|reflexivity].
    destruct (scan_once md fuel d (skip_ws r1)) as [v r2| |c0| |] eqn:E;
      try (rewrite (IH1 d d' (skip_ws r1) Hle) by (rewrite E; discriminate);
           rewrite E; reflexivity);
      [|destruct (H c0 eq_refl)].
    rewrite (IH1 d d' (skip_ws r1) Hle) by (rewrite E; discriminate). rewrite E.
    destruct (skip_ws r2) as [|c' r3]; [reflexivity|].
    destruct (Ascii.eqb c' "}"); [reflexivity|].
    destruct (Ascii.eqb c' ","); [|reflexivity].
    destruct (skip_ws r3) as [|c'' r4]; [reflexivity|].
    destruct (Ascii.eqb c'' dquote); [|reflexivity].
    apply IH3; [lia|exact H].
Qed.

(** A number within the limit of digits is read the same without it. *)
Lemma match_number_unlimited md s :
  (forall n, match_number md s <> LongInteger n) ->
  match_number 0 s = match_number md s.
Proof.
  unfold match_number. destruct (match_sign false s) as [neg s1].
  destruct (match_integer s1) as [[ids s2]|]; [|reflexivity].
  destruct (match_frac s2) as [[fds s3]|];
    destruct (match_exp _) as [[e s4]|]; try reflexivity.
  intros H.
  destruct ((0 <? md)%nat && (md <? length ids)%nat);
    [destruct (H _ eq_refl)|reflexivity].
Qed.

Lemma scan_atom_unlimited md s :
  (forall n, scan_atom md s <> Digits n) -> scan_atom 0 s = scan_atom md s.
Proof.
  unfold scan_atom. intros H.
  destruct (strip_prefix "null" s); [reflexivity|].
  destruct (strip_prefix "true" s); [reflexivity|].
  destruct (strip_prefix "false" s); [reflexivity|].
  destruct (match_number md s) as [v r| |n] eqn:E.
  - rewrite (match_number_unlimited md s) by (rewrite E; discriminate).
    rewrite E. reflexivity.
  - rewrite (match_number_unlimited md s) by (rewrite E; discriminate).
    rewrite E. reflexivity.
  - destruct (H n eq_refl).
Qed.

Lemma scan_atom_not_nested md s c : scan_atom md s <> Nested c.
Proof.
  unfold scan_atom.
  repeat match goal with
  | |- context [match ?x with _ => _ end] => destruct x
  end; discriminate.
Qed.

(** A scanner that did not meet the limit of digits gives the same result
    without the limit. *)
Lemma scan_digits_more md fuel :
  (forall d s, (forall n, scan_once md fuel d s <> Digits n) ->
     scan_once 0 fuel d s = scan_once md fuel d s)
  /\ (forall d s acc, (forall n, array_items md fuel d s acc <> Digits n) ->
        array_items 0 fuel d s acc = array_items md fuel d s acc)
  /\ (forall d s acc, (forall n, object_items md fuel d s acc <> Digits n) ->
        object_items 0 fuel d s acc = object_items md fuel d s acc).
Proof.
  induction fuel as [|fuel (IH1 & IH2 & IH3)]; [repeat split; reflexivity|].
  split; [|split].
  - intros d s H. cbn [scan_once] in *. destruct s as [|c s]; [reflexivity|].
    destruct (Ascii.eqb c dquote); [reflexivity|].
    destruct (Ascii.eqb c "{").
    + destruct d as [|d]; [reflexivity|].
      destruct (skip_ws s) as [|c' r']; [reflexivity|].
      destruct (Ascii.eqb c' "}"); [reflexivity|].
      destruct (Ascii.eqb c' dquote); [|reflexivity].
      apply IH3, H.
    + destruct (Ascii.eqb c "[").
      * destruct d as [|d]; [reflexivity|].
        destruct (skip_ws s) as [|c' r']; [reflexivity|].
        destruct (Ascii.eqb c' "]"); [reflexivity|].
        apply IH2, H.
      * apply scan_atom_unlimited, H.
  - intros d s acc H. cbn [array_items] in *.
    destruct (scan_once md fuel d s) as [v r| | |n|] eqn:E;
      try (rewrite (IH1 d s) by (rewrite E; discriminate); rewrite E;
           reflexivity);
      [|destruct (H n eq_refl)].
    rewrite (IH1 d s) by (rewrite E; discriminate). rewrite E.
    destruct (skip_ws r) as [|c r']; [reflexivity|].
    destruct (Ascii.eqb c "]"); [reflexivity|].
    destruct (Ascii.eqb c ","); [|reflexivity].
    apply IH2, H.
  - intros d s acc H. cbn [object_items] in *.
    destruct (scanstring s) as [[key r]|]; [|reflexivity].
    destruct (skip_ws r) as [|c r1]; [reflexivity|].
    destruct (Ascii.eqb c ":"); [|reflexivity].
    destruct (scan_once md fuel d (skip_ws r1)) as [v r2| | |n|] eqn:E;
      try (rewrite (IH1 d (skip_ws r1)) by (rewrite E; discriminate);
           rewrite E; reflexivity);
      [|destruct (H n eq_refl)].
    rewrite (IH1 d (skip_ws r1)) by (rewrite E; discriminate). rewrite E.
    destruct (skip_ws r2) as [|c' r3]; [reflexivity|].
    destruct (Ascii.eqb c' "}"); [reflexivity|].
    destruct (Ascii.eqb c' ","); [|reflexivity].
    destruct (skip_ws r3) as [|c'' r4]; [reflexivity|].
    destruct (Ascii.eqb c'' dquote); [|reflexivity].
    apply IH3, H.
Qed.

(** As many levels as the text has characters are never used up: each
    level entered has consumed a bracket. *)
Lemma scan_depth_enough md fuel :
  (forall d s c, (len s <= d)%nat -> scan_once md fuel d s <> Nested c)
  /\ (forall d s acc c, (len s <= d)%nat ->
        array_items md fuel d s acc <> Nested c)
  /\ (forall d s acc c, (len s <= d)%nat ->
        object_items md fuel d s acc <> Nested c).
Proof.
  induction fuel as [|fuel (IH1 & IH2 & IH3)];
    [repeat split; intros; discriminate|].
  split; [|split].
  - intros d s c Hd H. simpl in H. destruct s as [|c0 s]; [discriminate|].
    simpl in Hd.
    split_scan H;
      try (apply IH2 in H; [assumption|]);
      try (apply IH3 in H; [assumption|]);
      try (apply scan_atom_not_nested in H; assumption);
      use_lengths; subst; simpl in *; lia.
  - intros d s acc c Hd H. simpl in H.
    destruct (scan_once md fuel d s) as [v' r'| |c'| |] eqn:Es;
      try discriminate.
    + apply (proj1 (scan_progress md fuel)) in Es.
      split_scan H.
      apply IH2 in H; [assumption|].
      use_lengths; subst; simpl in *; lia.
    + apply IH1 in Es; [assumption|lia].
  - intros d s acc c Hd H. simpl in H.
    destruct (scanstring s) as [[key r0]|] eqn:Ek; [|discriminate].
    destruct (skip_ws r0) as [|c0 r1] eqn:E0; [discriminate|].
    destruct (Ascii.eqb c0 ":"); [|discriminate].
    pose proof (skip_ws_length r1).
    destruct (scan_once md fuel d (skip_ws r1)) as [v' r2| |c'| |] eqn:Es;
      try discriminate.
    + apply (proj1 (scan_progress md fuel)) in Es.
      split_scan H.
      apply IH3 in H; [assumption|].
      use_lengths; subst; simpl in *; lia.
    + apply IH1 in Es; [assumption|].
      use_lengths; subst; simpl in *; lia.
Qed.

(** More opening brackets than levels left: the scanner stops at the
    bracket one too many, whatever follows. *)
Lemma scan_opening md depth : forall fuel n tail,
  (depth < n)%nat -> (2 * depth < fuel)%nat ->
  scan_once md fuel depth (opening n tail) = Nested JArray.
Proof.
  induction depth as [|depth IH]; intros fuel n tail Hn Hfuel.
  - destruct n as [|n]; [lia|]. destruct fuel as [|fuel]; [lia|]. reflexivity.
  - destruct n as [|[|n]]; try lia.
    destruct fuel as [|[|fuel]]; try lia.
    cbn [opening scan_once array_items skip_ws].
    change (Ascii.eqb "[" dquote) with false.
    change (Ascii.eqb "[" "{") with false.
    change (Ascii.eqb "[" "[") with true.
    change (is_ws "[") with false.
    change (Ascii.eqb "[" "]") with false. cbv iota.
    change (String "[" (opening n tail)) with (opening (S n) tail).
    rewrite (IH fuel (S n) tail) by lia. reflexivity.
Qed.

Lemma length_opening n tail : len (opening n tail) = (n + len tail)%nat.
Proof. induction n as [|n IH]; simpl; [|rewrite IH]; reflexivity. Qed.

Lemma decode_opening md depth n tail :
  (depth < n)%nat -> decode md depth (opening n tail) = TooNested JArray.
Proof.
  intros Hn. unfold decode.
  assert (Hskip : skip_ws (opening n tail) = opening n tail)
    by (destruct n; [lia|reflexivity]).
  rewrite Hskip, scan_opening; [reflexivity|exact Hn|].
  rewrite length_opening. lia.
Qed.

(** *** The same on [decode] *)

Lemma decode_more_depth md d d' s :
  (d <= d')%nat -> (forall c, decode md d s <> TooNested c) ->
  decode md d' s = decode md d s.
Proof.
  intros Hle H. unfold decode in *.
  rewrite (proj1 (scan_depth_more md _) d d' _ Hle); [reflexivity|].
  intros c E. rewrite E in H. destruct (H c eq_refl).
Qed.

Lemma decode_no_digit_limit md d s :
  (forall n, decode md d s <> TooLong n) -> decode 0 d s = decode md d s.
Proof.
  intros H. unfold decode in *.
  rewrite (proj1 (scan_digits_more md _) d _); [reflexivity|].
  intros n E. rewrite E in H. destruct (H n eq_refl).
Qed.

Lemma decode_depth_enough md d s c :
  (len s <= d)%nat -> decode md d s <> TooNested c.
Proof.
  intros Hd. unfold decode.
  pose proof (proj1 (scan_depth_enough md (S (2 * len s))) d (skip_ws s)) as H.
  pose proof (skip_ws_length s).
  destruct (scan_once md (S (2 * len s)) d (skip_ws s)) as [v r| |c'| |] eqn:E;
    try discriminate.
  - destruct (skip_ws r); discriminate.
  - destruct (H c' ltac:(lia) eq_refl).
Qed.

(** What the decoder says within the limits, it says without them. *)
Lemma decode_unlimited md d s :
  (forall c, decode md d s <> TooNested c) ->
  (forall n, decode md d s <> TooLong n) ->
  decode 0 (len s) s = decode md d s.
Proof.
  intros Hnest Hdigits.
  rewrite <- (decode_no_digit_limit md d s Hdigits).
  rewrite <- (decode_no_digit_limit md d s Hdigits) in Hnest.
  destruct (Nat.le_gt_cases (len s) d) as [Hle|Hgt].
  - symmetry. apply decode_more_depth; [exact Hle|].
    intros c. apply decode_depth_enough. lia.
  - apply decode_more_depth; [lia|exact Hnest].
Qed.

(** Whitespace before the text changes nothing. *)
Lemma decode_after_blank md d pad s :
  blank pad = true -> decode md d (pad +:+ s) = decode md d s.
Proof.
  intros Hpad. unfold decode.
  rewrite (skip_ws_blank_append pad s Hpad).
  rewrite (proj1 (scan_fuel_more md (S (2 * len s)) (S (2 * len (pad +:+ s)))
                    ltac:(rewrite length_append; lia))
             d (skip_ws s) (decode_fuel md d s)).
  reflexivity.
Qed.

End Limits.

(** [json.loads] against the value of the text: unless a limit of the
    interpreter is met, a JSON text gets its value and any other text
    [JSONDecodeError]. *)
Lemma json_loads_unlimited py s :
  (exists c, json_loads py s = raise (RecursionError (recursion_message c)))
  \/ (exists n, json_loads py s = raise (ValueError (int_digits_message n)))
  \/ json_loads py s = match json_value s with
                       | Some v => mret v
                       | None => raise JSONDecodeError
                       end.
Proof.
  unfold json_loads, json_value.
  destruct (Json.decode int_max_str_digits (S (nesting_spare py)) s)
    as [v| |c|n] eqn:E.
  - right. right.
    rewrite (Limits.decode_unlimited int_max_str_digits (S (nesting_spare py)) s),
      E by (rewrite E; discriminate).
    reflexivity.
  - right. right.
    rewrite (Limits.decode_unlimited int_max_str_digits (S (nesting_spare py)) s),
      E by (rewrite E; discriminate).
    reflexivity.
  - left. exists c. reflexivity.
  - right. left. exists n. reflexivity.
Qed.

Lemma json_loads_value py s v :
  json_loads py s = mret v -> json_value s = Some v.
Proof.
  intros H. destruct (json_loads_unlimited py s) as [[c Hc]|[[n Hn]|Hu]];
    [rewrite H in Hc; discriminate Hc|rewrite H in Hn; discriminate Hn|].
  rewrite H in Hu. destruct (json_value s); [|discriminate Hu].
  injection Hu as ->. reflexivity.
Qed.

Lemma json_loads_not_json py s :
  json_loads py s = raise JSONDecodeError -> json_value s = None.
Proof.
  intros H. destruct (json_loads_unlimited py s) as [[c Hc]|[[n Hn]|Hu]];
    [rewrite H in Hc; discriminate Hc|rewrite H in Hn; discriminate Hn|].
  rewrite H in Hu. destruct (json_value s); [discriminate Hu|reflexivity].
Qed.

(** ** How far the price shown can be from the price sent *)

(** The sign of a rounded quotient is the sign given; nothing else of the
    result depends on it. *)
Lemma round_binary64_sign num den :
  Float.format_2f (Float.round_binary64 true num den)
  = "-" +:+ Float.format_2f (Float.round_binary64 false num den).
Proof.
  unfold Float.round_binary64.
  destruct (num <=? 0); [reflexivity|]. cbv zeta.
  destruct (if Float.scaled_round num den _ =? 2 ^ Float.prec
            then _ else _) as [m e].
  destruct m; try reflexivity.
  destruct (e <=? Float.emax - Float.prec); reflexivity.
Qed.

Module PriceAccuracy.
Import Float.

Lemma round_half_even_unit num : round_half_even num 1 = num.
Proof.
  unfold round_half_even. rewrite Z.div_1_r, Z.mod_1_r. reflexivity.
Qed.

(** A count of cents is at least [1/128] of a hundred: the logarithm of
    the quotient is at least [-7], and it is reached. *)
Lemma floor_log2_ratio_floor a :
  0 < a ->
  -7 <= floor_log2_ratio a 100
  /\ (floor_log2_ratio a 100 < 0 ->
      100 <= a * 2 ^ (- floor_log2_ratio a 100)).
Proof.
  intros Hpos. unfold floor_log2_ratio. change (Z.log2 100) with 6.
  pose proof (Z.log2_nonneg a) as Hl0.
  pose proof (Z.log2_spec a Hpos) as [Hlow _].
  set (l := Z.log2 a) in *.
  destruct (Z.leb_spec 0 (l - 6)) as [Hl|Hl].
  - destruct (Z.leb_spec (100 * 2 ^ (l - 6)) a) as [Hr|Hr]; [lia|].
    split; [lia|]. intros Hneg. assert (El : l = 6) by lia.
    rewrite El in *. change (2 ^ (- (6 - 6 - 1))) with 2.
    change (2 ^ 6) with 64 in Hlow. lia.
  - assert (Hscale : 64 <= a * 2 ^ (- (l - 6))).
    { assert (E : 2 ^ l * 2 ^ (- (l - 6)) = 64).
      { rewrite <- Z.pow_add_r by lia. replace (l + - (l - 6)) with 6 by lia.
        reflexivity. }
      assert (0 < 2 ^ (- (l - 6))) by (apply Z.pow_pos_nonneg; lia).
      nia. }
    destruct (Z.leb_spec 100 (a * 2 ^ (- (l - 6)))) as [Hr|Hr].
    + split; [lia|]. intros _. exact Hr.
    + split; [lia|]. intros _.
      replace (- (l - 6 - 1)) with (Z.succ (- (l - 6))) by lia.
      rewrite Z.pow_succ_r by lia. lia.
Qed.

(** from a bound on the scaled difference to the bound on the difference *)
Lemma accuracy_step Q c d a :
  0 < Q -> 2 * Z.abs (d * Q) <= Q + c -> c * 2 ^ 52 <= a * Q ->
  2 ^ 53 * Z.abs d <= 2 ^ 52 + a.
Proof.
  intros HQ Hd Hc.
  apply (Z.mul_le_mono_pos_r _ _ Q HQ).
  rewrite Z.abs_mul, (Z.abs_eq Q) in Hd by lia.
  change (2 ^ 53) with (2 ^ 52 * 2). change (2 ^ 52) with 4503599627370496 in *.
  nia.
Qed.

(** Below the overflow the quotient by 100 is a finite float, and the
    hundredths shown for it are within half a cent, plus one part in
    [2^53] of the count, from the count of cents. *)
Lemma cents_accuracy s a :
  0 < a < overflow_cents ->
  exists m e,
    round_binary64 s a 100 = S754_finite s m e
    /\ 2 ^ 53 * Z.abs (scaled_round (100 * Zpos m) 1 (- e) - a) <= 2 ^ 52 + a.
Proof.
  intros [Hpos Hlt]. unfold overflow_cents in Hlt.
  pose proof (floor_log2_ratio_floor a Hpos) as [Hflr7 Hneg].
  assert (Hflr : floor_log2_ratio a 100 < 1024)
    by (apply FloatFacts.floor_log2_ratio_upper; lia).
  pose proof (FloatFacts.floor_log2_ratio_reached a Hpos) as Hreach.
  unfold round_binary64.
  destruct (Z.leb_spec a 0) as [|_]; [lia|].
  set (flr := floor_log2_ratio a 100) in *.
  replace (Z.max (flr - (prec - 1)) emin) with (flr - 52)
    by (unfold emin, emax, prec; lia).
  set (e := flr - 52). cbv zeta.
  destruct (Z.lt_ge_cases e 0) as [He|He].
  - (* the quotient has binary digits after the point *)
    set (P := 2 ^ (- e)).
    assert (HP : 0 < P) by (apply Z.pow_pos_nonneg; lia).
    assert (Hsc : scaled_round a 100 e = round_half_even (a * P) 100).
    { unfold scaled_round. destruct (Z.leb_spec 0 e); [lia|reflexivity]. }
    rewrite Hsc.
    assert (H100 : 100 * 2 ^ 52 <= a * P).
    { destruct (Z.lt_ge_cases flr 0) as [Hf|Hf].
      - specialize (Hneg Hf).
        assert (E : P = 2 ^ 52 * 2 ^ (- flr)).
        { unfold P, e. rewrite <- Z.pow_add_r by lia. f_equal. lia. }
        rewrite E. change (2 ^ 52) with 4503599627370496. nia.
      - specialize (Hreach Hf).
        assert (E : 2 ^ flr * P = 2 ^ 52).
        { unfold P, e. rewrite <- Z.pow_add_r by lia. f_equal. lia. }
        change (2 ^ 52) with 4503599627370496 in *. nia. }
    pose proof (FloatFacts.round_half_even_close (a * P) 100 ltac:(lia)) as Hm.
    pose proof (FloatFacts.round_half_even_ge (a * P) 100 (2 ^ 52) ltac:(lia)
                  ltac:(lia)) as Hm52.
    set (m := round_half_even (a * P) 100) in *.
    destruct (Z.eqb_spec m (2 ^ prec)) as [Hmax|Hmax].
    + change (2 ^ (prec - 1)) with (Zpos (2 ^ 52)%positive).
      destruct (Z.leb_spec (e + 1) (emax - prec)) as [|Hov];
        [|unfold emax, prec in Hov; lia].
      eexists _, _. split; [reflexivity|].
      unfold scaled_round.
      destruct (Z.leb_spec 0 (- (e + 1))) as [_|]; [|lia].
      set (Q := 2 ^ (- (e + 1))).
      assert (HQ : 0 < Q) by (apply Z.pow_pos_nonneg; lia).
      assert (HPQ : P = 2 * Q).
      { unfold P, Q. replace (- e) with (Z.succ (- (e + 1))) by lia.
        rewrite Z.pow_succ_r by lia. reflexivity. }
      pose proof (FloatFacts.round_half_even_close (100 * Z.pos (2 ^ 52)) (1 * Q)
                    ltac:(lia)) as Hk.
      set (k := round_half_even (100 * Z.pos (2 ^ 52)) (1 * Q)) in *.
      change (2 ^ prec) with 9007199254740992 in Hmax.
      change (Z.pos (2 ^ 52)) with 4503599627370496 in Hk.
      change (2 ^ 52) with 4503599627370496 in H100.
      apply (accuracy_step Q 50); [exact HQ| |];
        change (2 ^ 52) with 4503599627370496; lia.
    + destruct m as [|p|p] eqn:Em; [lia| |lia].
      destruct (Z.leb_spec e (emax - prec)) as [|Hov];
        [|unfold emax, prec in Hov; lia].
      eexists _, _. split; [reflexivity|].
      unfold scaled_round.
      destruct (Z.leb_spec 0 (- e)) as [_|]; [|lia]. fold P.
      pose proof (FloatFacts.round_half_even_close (100 * Z.pos p) (1 * P)
                    ltac:(lia)) as Hk.
      set (k := round_half_even (100 * Z.pos p) (1 * P)) in *.
      apply (accuracy_step P 100); [exact HP| |exact H100]. lia.
  - (* the quotient is a multiple of a power of two *)
    set (U := 2 ^ e).
    assert (HU : 0 < U) by (apply Z.pow_pos_nonneg; lia).
    assert (Hsc : scaled_round a 100 e = round_half_even a (100 * U)).
    { unfold scaled_round. destruct (Z.leb_spec 0 e); [reflexivity|lia]. }
    rewrite Hsc.
    assert (H100 : 100 * 2 ^ 52 * U <= a).
    { specialize (Hreach ltac:(lia)).
      assert (E : 2 ^ flr = 2 ^ 52 * U).
      { unfold U, e. rewrite <- Z.pow_add_r by lia. f_equal. lia. }
      rewrite E in Hreach. lia. }
    pose proof (FloatFacts.round_half_even_close a (100 * U) ltac:(lia)) as Hm.
    pose proof (FloatFacts.round_half_even_ge a (100 * U) (2 ^ 52) ltac:(lia)
                  ltac:(lia)) as Hm52.
    assert (Hshown : forall m' e',
              0 <= e' -> m' * 2 ^ e' = round_half_even a (100 * U) * U ->
              scaled_round (100 * m') 1 (- e')
              = 100 * round_half_even a (100 * U) * U).
    { intros m' e' He' Hval. unfold scaled_round.
      destruct (Z.leb_spec 0 (- e')) as [Hz|Hz].
      - assert (e' = 0) as -> by lia. change (1 * 2 ^ (- 0)) with 1.
        change (2 ^ 0) with 1 in Hval. rewrite round_half_even_unit. lia.
      - rewrite round_half_even_unit, Z.opp_involutive. lia. }
    set (m := round_half_even a (100 * U)) in *.
    assert (Hbound : 2 ^ 53 * Z.abs (100 * m * U - a) <= 2 ^ 52 + a).
    { change (2 ^ 53) with (2 ^ 52 * 2). change (2 ^ 52) with 4503599627370496 in *.
      lia. }
    destruct (Z.eqb_spec m (2 ^ prec)) as [Hmax|Hmax].
    + assert (e <> 971).
      { intros He971.
        pose proof (FloatFacts.round_half_even_lt a (100 * 2 ^ 971) (2 ^ 53)
                      ltac:(lia) ltac:(lia)) as Hlt53.
        unfold m, U in Hmax. rewrite He971 in Hmax. unfold prec in Hmax. lia. }
      change (2 ^ (prec - 1)) with (Zpos (2 ^ 52)%positive).
      destruct (Z.leb_spec (e + 1) (emax - prec)) as [|Hov];
        [|unfold emax, prec in Hov; lia].
      eexists _, _. split; [reflexivity|].
      rewrite (Hshown (Z.pos (2 ^ 52)) (e + 1)); [exact Hbound|lia|].
      rewrite Z.pow_add_r by lia. change (2 ^ 1) with 2. fold U.
      rewrite Hmax. unfold prec.
      change (Z.pos (2 ^ 52)) with 4503599627370496.
      change (2 ^ 53) with 9007199254740992. lia.
    + destruct m as [|p|p] eqn:Em; [lia| |lia].
      destruct (Z.leb_spec e (emax - prec)) as [|Hov];
        [|unfold emax, prec in Hov; lia].
      eexists _, _. split; [reflexivity|].
      rewrite (Hshown (Z.pos p) e); [exact Hbound|lia|reflexivity].
Qed.

End PriceAccuracy.


(** ** The payload of the demo page, for any item *)

Module OrderPayload.
Import Json.

Lemma append_cons c (a b : string) : String c a +:+ b = String c (a +:+ b).
Proof. reflexivity. Qed.

Lemma scanstring_plain s : forall rest,
  plain s = true -> scanstring (s +:+ String dquote rest) = Some (s, rest).
Proof.
  induction s as [|c s IH]; intros rest Hs; [reflexivity|].
  simpl in Hs.
  destruct (Ascii.eqb c dquote) eqn:Eq; [discriminate|].
  destruct (Ascii.eqb c "\") eqn:Eb; [discriminate|].
  destruct (code c <? 32) eqn:Ec; [discriminate|].
  rewrite append_cons. simpl scanstring. rewrite Eq, Eb, Ec, (IH rest Hs).
  reflexivity.
Qed.

(** *** Reading back a printed integer *)

Lemma span_digits_uint d : forall rest,
  number_end rest = true ->
  span_digits (DecimalString.NilEmpty.string_of_uint d +:+ rest)
  = (uint_digits d, rest).
Proof.
  induction d; intros rest Hrest;
    try (simpl; rewrite (IHd rest Hrest); reflexivity).
  destruct rest as [|c rest]; [reflexivity|]. simpl in *.
  destruct (is_digit c); [discriminate|reflexivity].
Qed.

Lemma digits_value_acc d : forall acc,
  fold_left (fun acc d => 10 * acc + d) (uint_digits d) (Zpos acc)
  = Zpos (Pos.of_uint_acc d acc).
Proof.
  induction d; intros acc; [reflexivity|..];
    cbn [uint_digits fold_left Pos.of_uint_acc]; rewrite <- IHd;
    f_equal; lia.
Qed.

Lemma digits_value_uint d :
  digits_value (uint_digits d) = Z.of_N (Pos.of_uint d).
Proof.
  unfold digits_value.
  induction d; [reflexivity|exact IHd|..];
    cbn [uint_digits fold_left Pos.of_uint Z.of_N]; rewrite <- digits_value_acc;
    reflexivity.
Qed.

Lemma match_tail rest :
  number_end rest = true -> match_frac rest = None /\ match_exp rest = None.
Proof.
  destruct rest as [|c rest]; [split; reflexivity|]. simpl.
  destruct (is_digit c); [discriminate|].
  destruct (Ascii.eqb c "."); [discriminate|].
  destruct (Ascii.eqb c "e"); [discriminate|].
  destruct (Ascii.eqb c "E"); [discriminate|]. split; reflexivity.
Qed.

Lemma to_uint_printed p : printed (Pos.to_uint p) = true.
Proof.
  pose proof (DecimalPos.Unsigned.to_of (Pos.to_uint p)) as Hnorm.
  rewrite DecimalPos.Unsigned.of_to in Hnorm. simpl in Hnorm.
  pose proof (DecimalPos.Unsigned.to_uint_nonnil p) as Hnil.
  destruct (Pos.to_uint p) as [|l| | | | | | | | |] eqn:E; try reflexivity.
  - contradiction.
  - rewrite DecimalFacts.unorm_D0 in Hnorm. unfold Decimal.unorm in Hnorm.
    destruct (Decimal.nzhead l) eqn:Eh; try discriminate Hnorm.
    + injection Hnorm as Hl. subst l. reflexivity.
    + destruct (DecimalFacts.nzhead_nonzero l _ Eh).
Qed.

Lemma match_integer_printed d rest :
  printed d = true -> number_end rest = true ->
  match_integer (DecimalString.NilEmpty.string_of_uint d +:+ rest)
  = Some (uint_digits d, rest).
Proof.
  intros Hd Hrest.
  destruct d as [|l| | | | | | | | |]; try discriminate Hd;
    [destruct l; try discriminate Hd; reflexivity|..];
    simpl; rewrite (span_digits_uint _ rest Hrest); reflexivity.
Qed.

(** The digits of a printed numeral are no more than its value needs. *)
Lemma digits_bound d : forall acc,
  Zpos acc * 10 ^ Z.of_nat (length (uint_digits d))
  <= Zpos (Pos.of_uint_acc d acc).
Proof.
  induction d; intros acc; [simpl; lia|..];
    cbn [uint_digits length Pos.of_uint_acc];
    rewrite Nat2Z.inj_succ, Z.pow_succ_r by lia;
    (etransitivity; [|apply IHd]);
    assert (0 < 10 ^ Z.of_nat (length (uint_digits d)))
      by (apply Z.pow_pos_nonneg; lia);
    nia.
Qed.

Lemma printed_fits md d :
  printed d = true -> Z.of_N (Pos.of_uint d) < 10 ^ Z.of_nat md ->
  (0 <? md)%nat && (md <? length (uint_digits d))%nat = false.
Proof.
  intros Hd Hvalue. destruct md as [|md]; [reflexivity|].
  apply andb_false_iff. right. apply Nat.ltb_ge.
  assert (Hfirst : forall k l,
            Z.of_N (N.pos (Pos.of_uint_acc l k)) < 10 ^ Z.of_nat (S md) ->
            (S (length (uint_digits l)) <= S md)%nat).
  { intros k l Hv. pose proof (digits_bound l k) as Hb.
    assert (10 ^ Z.of_nat (length (uint_digits l)) < 10 ^ Z.of_nat (S md)) as Hlt.
    { eapply Z.le_lt_trans; [|exact Hv].
      etransitivity; [|exact Hb].
      assert (0 < 10 ^ Z.of_nat (length (uint_digits l)))
        by (apply Z.pow_pos_nonneg; lia).
      nia. }
    apply Z.pow_lt_mono_r_iff in Hlt; lia. }
  destruct d as [|l| | | | | | | | |]; try discriminate Hd;
    try (cbn [uint_digits length]; apply (Hfirst _ _ Hvalue)).
  destruct l; try discriminate Hd. simpl. lia.
Qed.

Lemma match_number_printed md d rest :
  printed d = true -> number_end rest = true ->
  (0 <? md)%nat && (md <? length (uint_digits d))%nat = false ->
  match_number md (DecimalString.NilEmpty.string_of_uint d +:+ rest)
  = Number (PyInt (Z.of_N (Pos.of_uint d))) rest
  /\ match_number md
       (String "-" (DecimalString.NilEmpty.string_of_uint d +:+ rest))
     = Number (PyInt (- Z.of_N (Pos.of_uint d))) rest.
Proof.
  intros Hd Hrest Hfit.
  pose proof (match_integer_printed d rest Hd Hrest) as Hint.
  destruct (match_tail rest Hrest) as [Hfrac Hexp].
  rewrite <- digits_value_uint.
  split.
  - unfold match_number.
    assert (Hsign : match_sign false (DecimalString.NilEmpty.string_of_uint d +:+ rest)
                    = (false, DecimalString.NilEmpty.string_of_uint d +:+ rest)).
    { destruct d; try discriminate Hd; reflexivity. }
    rewrite Hsign, Hint, Hfrac, Hexp, Hfit. reflexivity.
  - unfold match_number. cbn [match_sign Ascii.eqb Bool.eqb].
    rewrite Hint, Hfrac, Hexp, Hfit. reflexivity.
Qed.

(** a printed integer opens with a digit or with the minus sign *)
Lemma str_int_printed n :
  (exists d, printed d = true /\ Float.str_int n = DecimalString.NilEmpty.string_of_uint d
             /\ n = Z.of_N (Pos.of_uint d))
  \/ (exists d, printed d = true
                /\ Float.str_int n
                   = String "-" (DecimalString.NilEmpty.string_of_uint d)
                /\ n = - Z.of_N (Pos.of_uint d)).
Proof.
  destruct n as [|p|p].
  - left. exists (Decimal.D0 Decimal.Nil). repeat split; reflexivity.
  - left. exists (Pos.to_uint p). split; [apply to_uint_printed|].
    split; [reflexivity|]. rewrite DecimalPos.Unsigned.of_to. reflexivity.
  - right. exists (Pos.to_uint p). split; [apply to_uint_printed|].
    split; [reflexivity|]. rewrite DecimalPos.Unsigned.of_to. reflexivity.
Qed.

(** [json.loads] reads back the integer [str] printed. *)
Lemma scan_once_int md fuel depth n rest :
  Z.abs n < 10 ^ Z.of_nat md ->
  number_end rest = true ->
  scan_once md (S fuel) depth (Float.str_int n +:+ rest) = Scanned (PyInt n) rest
  /\ skip_ws (Float.str_int n +:+ rest) = Float.str_int n +:+ rest.
Proof.
  intros Hn Hrest.
  destruct (str_int_printed n) as [(d & Hd & -> & ->)|(d & Hd & -> & ->)];
    destruct (match_number_printed md d rest Hd Hrest
                (printed_fits md d Hd ltac:(lia))) as [Hpos Hneg].
  - destruct d; try discriminate Hd;
      (split; [|reflexivity]);
      match goal with
      | |- scan_once _ _ _ ?s = _ =>
          change (scan_once md (S fuel) depth s) with (scan_atom md s)
      end;
      unfold scan_atom; rewrite Hpos; reflexivity.
  - split; [|reflexivity].
    rewrite append_cons.
    match goal with
    | |- scan_once _ _ _ ?s = _ =>
        change (scan_once md (S fuel) depth s) with (scan_atom md s)
    end.
    unfold scan_atom. rewrite Hneg. reflexivity.
Qed.


(** *** The members of an object, one by one *)

Lemma quoted_append s rest :
  quoted s +:+ rest = String dquote (s +:+ String dquote rest).
Proof. unfold quoted. rewrite append_cons, append_assoc. reflexivity. Qed.

Lemma scan_once_object md fuel depth r r' :
  skip_ws r = String dquote r' ->
  scan_once md (S fuel) (S depth) (String "{" r)
  = object_items md fuel depth r' [].
Proof. intros Hr. simpl. rewrite Hr. reflexivity. Qed.

Lemma scan_once_string md fuel depth s rest :
  plain s = true ->
  scan_once md (S fuel) depth (String dquote (s +:+ String dquote rest))
  = Scanned (PyStr s) rest.
Proof. intros Hs. simpl. rewrite (scanstring_plain s rest Hs). reflexivity. Qed.

(** a member that is not the last: the key, the colon, the value, the
    comma and the quote that opens the next key *)
Lemma object_items_member md fuel depth key sep value v next acc :
  plain key = true -> blank sep = true ->
  (forall rest, number_end rest = true ->
     scan_once md fuel depth (value +:+ rest) = Scanned v rest
     /\ skip_ws (value +:+ rest) = value +:+ rest) ->
  object_items md (S fuel) depth
    (key +:+ String dquote
       (String ":" (sep +:+ value +:+ String "," (sep +:+ String dquote next))))
    acc
  = object_items md fuel depth next ((key, v) :: acc).
Proof.
  intros Hkey Hsep Hvalue.
  destruct (Hvalue (String "," (sep +:+ String dquote next)) eq_refl)
    as [Hscan Hskip].
  cbn [object_items]. rewrite (scanstring_plain key _ Hkey).
  change (skip_ws (String ":" ?x)) with (String ":" x). cbv beta iota.
  change (Ascii.eqb ":" ":") with true. cbv iota.
  rewrite (skip_ws_blank_append sep _ Hsep), Hskip, Hscan.
  change (skip_ws (String "," ?x)) with (String "," x). cbv beta iota.
  change (Ascii.eqb "," "}") with false. change (Ascii.eqb "," ",") with true.
  cbv iota.
  rewrite (skip_ws_blank_append sep _ Hsep). reflexivity.
Qed.

(** the last member: the key, the colon, the value and the closing brace *)
Lemma object_items_last md fuel depth key sep value v acc :
  plain key = true -> blank sep = true ->
  (forall rest, number_end rest = true ->
     scan_once md fuel depth (value +:+ rest) = Scanned v rest
     /\ skip_ws (value +:+ rest) = value +:+ rest) ->
  object_items md (S fuel) depth
    (key +:+ String dquote (String ":" (sep +:+ value +:+ "}"))) acc
  = Scanned (PyDict (dict_of_pairs (rev ((key, v) :: acc)))) EmptyString.
Proof.
  intros Hkey Hsep Hvalue.
  destruct (Hvalue "}" eq_refl) as [Hscan Hskip].
  cbn [object_items]. rewrite (scanstring_plain key _ Hkey).
  change (skip_ws (String ":" ?x)) with (String ":" x). cbv beta iota.
  change (Ascii.eqb ":" ":") with true. cbv iota.
  rewrite (skip_ws_blank_append sep _ Hsep), Hskip, Hscan. reflexivity.
Qed.

(** a string value in the place of [value] above *)
Lemma string_value md fuel depth s :
  plain s = true ->
  forall rest, number_end rest = true ->
    scan_once md (S fuel) depth (quoted s +:+ rest) = Scanned (PyStr s) rest
    /\ skip_ws (quoted s +:+ rest) = quoted s +:+ rest.
Proof.
  intros Hs rest _. rewrite quoted_append. split; [|reflexivity].
  apply scan_once_string, Hs.
Qed.

Lemma order_payload_members sep id name price_cents :
  order_payload sep id name price_cents
  = String "{" (String dquote ("id" +:+ String dquote (String ":"
      (sep +:+ Float.str_int id +:+ String "," (sep +:+ String dquote
         ("name" +:+ String dquote (String ":"
            (sep +:+ quoted name +:+ String "," (sep +:+ String dquote
               ("price_cents" +:+ String dquote (String ":"
                  (sep +:+ Float.str_int price_cents +:+ "}")))))))))))).
Proof.
  unfold order_payload.
  rewrite (quoted_append "id"), (quoted_append "name"),
    (quoted_append "price_cents").
  reflexivity.
Qed.

Lemma scan_order_payload md fuel depth sep id name price_cents :
  blank sep = true -> plain name = true ->
  Z.abs id < 10 ^ Z.of_nat md -> Z.abs price_cents < 10 ^ Z.of_nat md ->
  scan_once md (S (S (S (S (S fuel))))) (S depth)
    (order_payload sep id name price_cents)
  = Scanned (PyDict [("id", PyInt id); ("name", PyStr name);
                     ("price_cents", PyInt price_cents)]) EmptyString.
Proof.
  intros Hsep Hname Hid Hprice. rewrite order_payload_members.
  erewrite scan_once_object; [|reflexivity].
  rewrite (object_items_member md (S (S (S fuel))) depth "id" sep
             (Float.str_int id) (PyInt id) _ [] eq_refl Hsep
             (fun rest => scan_once_int md _ depth id rest Hid)).
  rewrite (object_items_member md (S (S fuel)) depth "name" sep (quoted name)
             (PyStr name) _ _ eq_refl Hsep (string_value md _ depth name Hname)).
  rewrite (object_items_last md (S fuel) depth "price_cents" sep
             (Float.str_int price_cents) (PyInt price_cents) _
             eq_refl Hsep
             (fun rest => scan_once_int md _ depth price_cents rest Hprice)).
  reflexivity.
Qed.

(** The payload is read back member by member. *)
Lemma decode_order_payload md depth sep id name price_cents :
  blank sep = true -> plain name = true ->
  Z.abs id < 10 ^ Z.of_nat md -> Z.abs price_cents < 10 ^ Z.of_nat md ->
  decode md (S depth) (order_payload sep id name price_cents)
  = Value (PyDict [("id", PyInt id); ("name", PyStr name);
                   ("price_cents", PyInt price_cents)]).
Proof.
  intros Hsep Hname Hid Hprice. unfold decode.
  assert (Hfuel : exists fuel,
            (2 * String.length (order_payload sep id name price_cents)
             = S (S (S (S fuel))))%nat).
  { rewrite order_payload_members.
    match goal with
    | |- context [String.length (String _ (String _ ?r))] =>
        exists (2 * String.length r)%nat
    end.
    cbn [String.length]. lia. }
  destruct Hfuel as [fuel ->].
  assert (Hskip : skip_ws (order_payload sep id name price_cents)
                  = order_payload sep id name price_cents)
    by reflexivity.
  rewrite Hskip,
    (scan_order_payload md fuel depth sep id name price_cents Hsep Hname
       Hid Hprice).
  reflexivity.
Qed.

End OrderPayload.

(** ** The sample output: the text of its error is ASCII *)

Module Utf8Facts.
Import Utf8.

Lemma is_ascii_hex_digit d : is_ascii (hex_digit d) = true.
Proof.
  unfold hex_digit. pose proof (Z.mod_pos_bound d 16 ltac:(lia)) as H.
  assert (Hcases : d mod 16 = 0 \/ d mod 16 = 1 \/ d mod 16 = 2 \/ d mod 16 = 3
                   \/ d mod 16 = 4 \/ d mod 16 = 5 \/ d mod 16 = 6
                   \/ d mod 16 = 7 \/ d mod 16 = 8 \/ d mod 16 = 9
                   \/ d mod 16 = 10 \/ d mod 16 = 11 \/ d mod 16 = 12
                   \/ d mod 16 = 13 \/ d mod 16 = 14 \/ d mod 16 = 15) by lia.
  repeat destruct Hcases as [->|Hcases]; try rewrite Hcases; reflexivity.
Qed.

Lemma is_ascii_escape u : is_ascii (escape u) = true.
Proof.
  unfold escape. rewrite !is_ascii_append, !is_ascii_hex_digit. reflexivity.
Qed.

Lemma is_ascii_error s : is_ascii (error s) = true.
Proof.
  unfold error. destruct (failure s 0) as [[[position u] [|more]]|];
    rewrite ?is_ascii_append, ?is_ascii_escape, ?is_ascii_str_int;
    reflexivity.
Qed.

End Utf8Facts.

(** The interpreter of the sample runs: CPython 3.11 as it starts a
    script, with the 994 levels of nesting [json.loads] has there, and a
    standard output in UTF-8.  The samples have no float and no container
    to show, so that [float_repr] and [str_repr] are not met: they stand
    as empty texts. *)
Definition sample_interpreter : Interpreter :=
  {| float_repr := fun _ => "";
     str_repr := fun _ => "";
     nesting_spare := 993;
     encodes := Utf8.encodes;
     encode_error := Utf8.error;
     encode_error_ascii := Utf8Facts.is_ascii_error |}.

(** * The claims *)

Section PayloadClaims.

Variable py : Interpreter.

#[local] Abbreviation handle := (handle_web_app_data py).
#[local] Abbreviation str := (py_str py).

(** C1 (amended): when [json.loads] returns a JSON object whose
    [price_cents] is an integer [n] (or is absent, and [n = 0]):
    - if [|n| <= 100 * 2^46], the order is confirmed and the price of the
      reply is [n / 100] exactly, with two decimals;
    - if [|n| < 100 * (2^1024 - 2^970)], the order is confirmed and the
      price is the float nearest to [n / 100], shown with two decimals;
    - otherwise the division overflows and the reply is the error message
      of [OverflowError], with no price;
    the confirmation shows the price in its line [Price: $...], and an
    absent [price_cents] as [$0.00].  A confirmed order is the reply, sent
    first, then the log line; when the output cannot encode the log line,
    the failure of [print] is reported in a second reply. *)
Theorem price_display update context d n :
  json_loads py (web_app_data update) = mret (PyDict d) ->
  dict_lookup d "price_cents" = Some (PyInt n)
    \/ (dict_lookup d "price_cents" = None /\ n = 0) ->
  let name := str (item_name_of d) in
  let id := str (item_id_of d) in
  let user := effective_user_id update in
  (Z.abs n <= 100 * 2 ^ 46 ->
   handle update context = confirmation py user name (cents_text n) id)
  /\ (Z.abs n < Float.overflow_cents ->
      handle update context
      = confirmation py user name
          (Float.format_2f (Float.round_binary64 (n <? 0) (Z.abs n) 100)) id)
  /\ (Float.overflow_cents <= Z.abs n ->
      handle update context
      = ([ReplyText
            "❌ Error processing order: integer division result too large for a float"
            None;
          Print "[Error] integer division result too large for a float"],
         inr tt))
  /\ (forall price,
        contains ("Price: $" +:+ price +:+ LF) (order_response name price id)
        = true)
  /\ (dict_lookup d "price_cents" = None ->
      handle update context = confirmation py user name "0.00" id)
  /\ (forall price,
        exists more,
          confirmation py user name price id
          = (ReplyText (order_response name price id) None :: more, inr tt))
  /\ (forall price,
        printable py (order_log user name price) = true ->
        confirmation py user name price id
        = ([ReplyText (order_response name price id) None;
            Print (order_log user name price)],
           inr tt)).
Proof.
  intros Hd Hprice name id user.
  assert (Hp : price_cents_of d = PyInt n).
  { unfold price_cents_of. destruct Hprice as [->|[-> ->]]; reflexivity. }
  assert (Hexact : Z.abs n <= 100 * 2 ^ 46 ->
                   handle update context
                   = confirmation py user name (cents_text n) id).
  { intros Hn. destruct (cents_divide n Hn) as (q & Hq & Hfmt).
    rewrite (order_confirmed py update context d q Hd).
    - rewrite Hfmt. reflexivity.
    - rewrite Hp. exact Hq. }
  split; [exact Hexact|]. split; [|split; [|split; [|split; [|split]]]].
  - intros Hn. apply (order_confirmed py update context d _ Hd).
    rewrite Hp. apply long_true_divide_in_range, Hn.
  - intros Hn.
    apply (order_refused py update context d
             (OverflowError "integer division result too large for a float") Hd);
      [|reflexivity].
    rewrite Hp. apply long_true_divide_overflow, Hn.
  - intros price. apply response_price_line.
  - intros Habsent. destruct Hprice as [Hsome|[_ ->]]; [congruence|].
    apply Hexact. vm_compute. discriminate.
  - intros price. apply confirmation_reply.
  - intros price. apply confirmation_printed.
Qed.

(** C2 (amended): a payload that is not JSON gets the fixed parse-error
    message, and nothing else, exactly when [json.loads] raises
    [JSONDecodeError] on it.  That is what [json.loads] does on such a
    payload unless it meets a limit of the interpreter before the place
    where the text goes wrong: a nesting too deep ([RecursionError]) or an
    integer of too many digits ([ValueError]); then the handler reports
    the exception and prints a log line. *)
Theorem parse_failure_reply update context :
  is_json (web_app_data update) = false ->
  let fixed : M unit :=
    ([ReplyText "❌ Error: Could not parse order data." None], inr tt) in
  (json_loads py (web_app_data update) = raise JSONDecodeError ->
   handle update context = fixed)
  /\ (handle update context = fixed ->
      json_loads py (web_app_data update) = raise JSONDecodeError)
  /\ ((json_loads py (web_app_data update) = raise JSONDecodeError
       /\ handle update context = fixed)
      \/ (exists c,
            json_loads py (web_app_data update)
            = raise (RecursionError (recursion_message c))
            /\ handle update context
               = failure_report (RecursionError (recursion_message c)))
      \/ (exists n,
            json_loads py (web_app_data update)
            = raise (ValueError (int_digits_message n))
            /\ handle update context
               = failure_report (ValueError (int_digits_message n)))).
Proof.
  intros Hnot fixed.
  assert (Hcases :
    (json_loads py (web_app_data update) = raise JSONDecodeError
     /\ handle update context = fixed)
    \/ (exists c,
          json_loads py (web_app_data update)
          = raise (RecursionError (recursion_message c))
          /\ handle update context
             = failure_report (RecursionError (recursion_message c)))
    \/ (exists n,
          json_loads py (web_app_data update)
          = raise (ValueError (int_digits_message n))
          /\ handle update context
             = failure_report (ValueError (int_digits_message n)))).
  { destruct (handler_cases py update context)
      as [[Hj Hrun]|[(e & He & Hkind & _ & _ & Hrun)|[(v & Hv & _)
         |[(d & e & Hv & _)|(d & q & Hv & _)]]]].
    - left. split; assumption.
    - right. destruct Hkind as [[c ->]|[n ->]]; [left|right];
        eexists; split; eassumption.
    - apply json_loads_value in Hv. unfold is_json in Hnot.
      rewrite Hv in Hnot. discriminate Hnot.
    - apply json_loads_value in Hv. unfold is_json in Hnot.
      rewrite Hv in Hnot. discriminate Hnot.
    - apply json_loads_value in Hv. unfold is_json in Hnot.
      rewrite Hv in Hnot. discriminate Hnot. }
  split; [|split; [|exact Hcases]].
  - intros Hj.
    destruct Hcases as [[_ Hrun]|[(c & Hc & _)|(n & Hn & _)]];
      [exact Hrun|rewrite Hj in Hc; discriminate Hc
      |rewrite Hj in Hn; discriminate Hn].
  - intros Hrun.
    destruct Hcases as [[Hj _]|[(c & _ & Hc)|(n & _ & Hn)]];
      [exact Hj|rewrite Hrun in Hc; discriminate Hc
      |rewrite Hrun in Hn; discriminate Hn].
Qed.

(** C3: whatever exception other than a JSON parse failure the suite of
    the [try] raises, the handler sends a reply embedding its text, prints
    a log line with it, and returns normally: nothing is raised to the
    caller. *)
Theorem other_exception_reported update context tr e :
  web_app_data_try py update = (tr, inl e) ->
  is_JSONDecodeError e = false ->
  handle update context =
    (tr ++ [ReplyText ("❌ Error processing order: " +:+ exn_str e) None;
            Print ("[Error] " +:+ exn_str e)],
     inr tt).
Proof.
  intros Htry Hj. destruct (try_raises py _ _ _ Htry) as (He & Hascii & _).
  unfold handle_web_app_data. rewrite Htry.
  unfold try_except.
  rewrite (except_reportable py e); [reflexivity|].
  unfold reportable. rewrite Hj, He, Hascii. reflexivity.
Qed.

(** C5: for the payload of the demo page, the reply contains
    ["Whopper"], ["$5.99"] and ["#1"]. *)
Theorem whopper_reply user_id context :
  let update := {| web_app_data := whopper_payload;
                   effective_user_id := user_id |} in
  let reply := order_response "Whopper" "5.99" "1" in
  handle update context =
    ([ReplyText reply None; Print (order_log user_id "Whopper" "5.99")],
     inr tt)
  /\ contains "Whopper" reply = true
  /\ contains "$5.99" reply = true
  /\ contains "#1" reply = true.
Proof.
  intros update reply. split; [|repeat split; vm_compute; reflexivity].
  rewrite (order_confirmed py update context
             [("id", PyInt 1); ("name", PyStr "Whopper"); ("price_cents", PyInt 599)]
             (S754_finite false 6744140441987318 (-50)));
    [|vm_compute; reflexivity..].
  apply (confirmation_printed py user_id "Whopper" "5.99" "1").
  apply (order_log_ascii py user_id "Whopper"
           (S754_finite false 6744140441987318 (-50)) eq_refl).
Qed.

(** C6 (amended): when the payload parses as a JSON object without
    [name] and its [price_cents] (0 when absent) divides by 100, that is,
    is a float, a boolean or an integer of magnitude below
    [100 * (2^1024 - 2^970)], the reply is the order confirmation with the
    item line ["Item: Unknown"]. *)
Theorem unknown_name_shown update context d :
  json_loads py (web_app_data update) = mret (PyDict d) ->
  dict_lookup d "name" = None ->
  price_divides (price_cents_of d) = true ->
  exists price,
    let reply := order_response "Unknown" price (str (item_id_of d)) in
    handle update context =
      ([ReplyText reply None;
        Print (order_log (effective_user_id update) "Unknown" price)],
       inr tt)
    /\ contains ("Item: Unknown" +:+ LF) reply = true
    /\ contains "Unknown" reply = true.
Proof.
  intros Hd Hname Hdiv.
  destruct (py_truediv_divides _ Hdiv) as [q Hq].
  exists (Float.format_2f q).
  split; [|split; [apply (response_item_line "Unknown")
                  |apply (response_item_name "Unknown")]].
  rewrite (order_confirmed py update context d q Hd Hq).
  unfold item_name_of. rewrite Hname.
  apply confirmation_printed, order_log_ascii. reflexivity.
Qed.

(** C8 (amended): when the payload is valid JSON but not an object, the
    handler does not send the parse-error message; it reports an
    exception and prints a log line with its text.  When [json.loads]
    returns the value of the payload, the exception is the
    [AttributeError] of the lookup of [get]; but on a payload nested
    deeper than the interpreter allows, or with an integer of too many
    digits, [json.loads] itself raises [RecursionError] or [ValueError],
    before any lookup. *)
Theorem non_object_payload_reported update context v :
  json_value (web_app_data update) = Some v ->
  (forall d, v <> PyDict d) ->
  let no_get :=
    AttributeError ("'" +:+ type_name v +:+ "' object has no attribute 'get'") in
  (json_loads py (web_app_data update) = mret v ->
   web_app_data_try py update = raise no_get
   /\ handle update context
      = ([ReplyText ("❌ Error processing order: " +:+ exn_str no_get) None;
          Print ("[Error] " +:+ exn_str no_get)],
         inr tt))
  /\ exists e,
       handle update context = failure_report e
       /\ processing_error_message e <> parse_error_message
       /\ ((e = no_get /\ json_loads py (web_app_data update) = mret v)
           \/ (exists c, e = RecursionError (recursion_message c)
                         /\ json_loads py (web_app_data update) = raise e)
           \/ (exists n, e = ValueError (int_digits_message n)
                         /\ json_loads py (web_app_data update) = raise e)).
Proof.
  intros Hvalue Hnd no_get.
  assert (Hdiffer : forall e, processing_error_message e <> parse_error_message).
  { intros e. unfold processing_error_message, parse_error_message. intros Heq.
    change (("❌ Error" +:+ " processing order: " +:+ exn_str e)
            = "❌ Error" +:+ ": Could not parse order data.") in Heq.
    apply String.app_inj in Heq. discriminate Heq. }
  split.
  - intros Hv. pose proof (try_on_non_dict py update v Hv Hnd) as Htry.
    split; [exact Htry|].
    rewrite (handle_raised py update context _ Htry).
    apply except_reportable, reportable_no_get.
  - destruct (handler_cases py update context)
      as [[Hj _]|[(e & He & Hkind & _ & _ & Hrun)|[(v' & Hv & _ & _ & _ & Hrun)
         |[(d & e & Hv & _)|(d & q & Hv & _)]]]].
    + apply json_loads_not_json in Hj. congruence.
    + exists e. split; [exact Hrun|]. split; [apply Hdiffer|].
      right. destruct Hkind as [[c ->]|[n ->]]; [left|right];
        eexists; (split; [reflexivity|exact He]).
    + assert (v' = v) as ->
        by (apply json_loads_value in Hv; congruence).
      exists no_get. split; [exact Hrun|]. split; [apply Hdiffer|].
      left. split; [reflexivity|exact Hv].
    + apply json_loads_value in Hv. rewrite Hv in Hvalue.
      injection Hvalue as <-. destruct (Hnd d eq_refl).
    + apply json_loads_value in Hv. rewrite Hv in Hvalue.
      injection Hvalue as <-. destruct (Hnd d eq_refl).
Qed.

(** C10 (amended): when the payload parses as a JSON object without [id]
    and its [price_cents] (0 when absent) divides by 100, that is, is a
    float, a boolean or an integer of magnitude below
    [100 * (2^1024 - 2^970)], the identifier is [None] and the order is
    confirmed with the line ["Order ID: #None"] in the reply.  The reply
    comes first; the log line follows, or the report of the failure of
    [print] when the output cannot encode the name, which does not happen
    to an ASCII name. *)
Theorem missing_id_shown update context d :
  json_loads py (web_app_data update) = mret (PyDict d) ->
  dict_lookup d "id" = None ->
  price_divides (price_cents_of d) = true ->
  item_id_of d = PyNone
  /\ exists price,
       let name := str (item_name_of d) in
       let user := effective_user_id update in
       let reply := order_response name price "None" in
       handle update context = confirmation py user name price "None"
       /\ (exists more,
             handle update context = (ReplyText reply None :: more, inr tt))
       /\ (printable py (order_log user name price) = true ->
           handle update context =
             ([ReplyText reply None; Print (order_log user name price)],
              inr tt))
       /\ (is_ascii name = true ->
           printable py (order_log user name price) = true)
       /\ contains ("Order ID: #None" +:+ LF) reply = true
       /\ contains "Order ID: #None" reply = true.
Proof.
  intros Hd Hid Hdiv.
  assert (Hnone : item_id_of d = PyNone)
    by (unfold item_id_of; rewrite Hid; reflexivity).
  split; [exact Hnone|].
  destruct (py_truediv_divides _ Hdiv) as [q Hq].
  exists (Float.format_2f q).
  pose proof (response_order_id_line (str (item_name_of d))
                (Float.format_2f q) "None") as Hline.
  pose proof (order_confirmed py update context d q Hd Hq) as Hrun.
  rewrite Hnone in Hrun. change (str PyNone) with "None" in Hrun.
  cbv zeta. rewrite Hrun.
  split; [reflexivity|]. split; [apply confirmation_reply|].
  split; [apply confirmation_printed|].
  split; [apply order_log_ascii|].
  split; [exact Hline|exact (contains_weaken "Order ID: #None" LF _ Hline)].
Qed.

End PayloadClaims.


(** C7: started with fewer than two command-line arguments, [main] prints
    the usage message and exits with status 1; no bot is built or run. *)
Theorem main_usage_exit py argv :
  (length argv < 2)%nat ->
  main py argv =
    ([Print "Usage: python python_bot.py YOUR_BOT_TOKEN [WEBAPP_URL]"],
     inl (SystemExit 1))
  /\ exit_status (main py argv) = 1.
Proof.
  intros Hlen. rewrite (main_usage py argv Hlen). split; reflexivity.
Qed.


(** ** Runs on sample inputs *)

(** The demo payload is within the exact range of the division. *)
Lemma price_display_witness :
  json_loads sample_interpreter whopper_payload
    = mret (PyDict [("id", PyInt 1); ("name", PyStr "Whopper");
                    ("price_cents", PyInt 599)])
  /\ Z.abs 599 <= 100 * 2 ^ 46
  /\ handle_web_app_data sample_interpreter (sample_update whopper_payload)
       no_context
     = ([ReplyText (order_response "Whopper" "5.99" "1") None;
         Print (order_log 42 "Whopper" "5.99")],
        inr tt)
  /\ contains ("Price: $5.99" +:+ LF) (order_response "Whopper" "5.99" "1") = true.
Proof.
  split; [vm_compute; reflexivity|].
  split; [vm_compute; discriminate|].
  destruct (price_display sample_interpreter
              (sample_update whopper_payload) no_context
              [("id", PyInt 1); ("name", PyStr "Whopper"); ("price_cents", PyInt 599)]
              599)
    as (Hexact & _ & _ & Hline & _).
  - vm_compute; reflexivity.
  - left. reflexivity.
  - split; [|apply (Hline "5.99")].
    rewrite Hexact by (vm_compute; discriminate). vm_compute. reflexivity.
Defined.

(** C1 as stated fails on both sides of the float range: one cent above
    [100 * 2^46] the price shown is a cent off, and an integer whose
    quotient is beyond the largest float gets the error reply, with no
    price at all. *)
Lemma price_display_counterexample :
  (json_loads sample_interpreter (json_text "{'price_cents': 7036874417766401}")
     = mret (PyDict [("price_cents", PyInt 7036874417766401)])
   /\ handle_web_app_data sample_interpreter
        (sample_update (json_text "{'price_cents': 7036874417766401}")) no_context
      = ([ReplyText (order_response "Unknown" "70368744177664.02" "None") None;
          Print (order_log 42 "Unknown" "70368744177664.02")],
         inr tt)
   /\ cents_text 7036874417766401 = "70368744177664.01"
   /\ contains ("Price: $" +:+ cents_text 7036874417766401)
        (order_response "Unknown" "70368744177664.02" "None") = false)
  /\ (json_loads sample_interpreter huge_price_payload
        = mret (PyDict [("price_cents", PyInt (10 ^ 400))])
      /\ handle_web_app_data sample_interpreter
           (sample_update huge_price_payload) no_context
         = ([ReplyText
               "❌ Error processing order: integer division result too large for a float"
               None;
             Print "[Error] integer division result too large for a float"],
            inr tt)
      /\ contains "Price: $"
           "❌ Error processing order: integer division result too large for a float"
         = false).
Proof. repeat split; vm_compute; reflexivity. Qed.

Lemma parse_failure_reply_witness :
  is_json "Whopper, please" = false
  /\ json_loads sample_interpreter "Whopper, please" = raise JSONDecodeError
  /\ handle_web_app_data sample_interpreter (sample_update "Whopper, please")
       no_context
     = ([ReplyText "❌ Error: Could not parse order data." None], inr tt).
Proof.
  split; [vm_compute; reflexivity|].
  split; [vm_compute; reflexivity|].
  apply (parse_failure_reply sample_interpreter
           (sample_update "Whopper, please") no_context);
    vm_compute; reflexivity.
Defined.

(** C2 as stated fails on a payload that is not JSON and is nested deeper
    than the interpreter allows: a thousand opening brackets and nothing
    else.  [json.loads] raises [RecursionError] before it reaches the end
    of the text; the handler sends the generic error message and prints a
    log line. *)
Lemma parse_failure_reply_counterexample :
  String.length (brackets 1000 false) = 1000%nat
  /\ is_json (brackets 1000 false) = false
  /\ json_loads sample_interpreter (brackets 1000 false)
     = raise (RecursionError
                "maximum recursion depth exceeded while decoding a JSON array from a unicode string")
  /\ handle_web_app_data sample_interpreter
       (sample_update (brackets 1000 false)) no_context
     = ([ReplyText
           "❌ Error processing order: maximum recursion depth exceeded while decoding a JSON array from a unicode string"
           None;
         Print
           "[Error] maximum recursion depth exceeded while decoding a JSON array from a unicode string"],
        inr tt).
Proof. repeat split; vm_compute; reflexivity. Qed.

Lemma other_exception_reported_witness :
  web_app_data_try sample_interpreter
    (sample_update (json_text "{'price_cents': 'cheap'}"))
    = ([], inl (TypeError "unsupported operand type(s) for /: 'str' and 'int'"))
  /\ handle_web_app_data sample_interpreter
       (sample_update (json_text "{'price_cents': 'cheap'}")) no_context
     = ([ReplyText
           "❌ Error processing order: unsupported operand type(s) for /: 'str' and 'int'"
           None;
         Print "[Error] unsupported operand type(s) for /: 'str' and 'int'"],
        inr tt).
Proof.
  split; [vm_compute; reflexivity|].
  apply (other_exception_reported sample_interpreter
           (sample_update (json_text "{'price_cents': 'cheap'}")) no_context []
           (TypeError "unsupported operand type(s) for /: 'str' and 'int'")).
  - vm_compute; reflexivity.
  - reflexivity.
Defined.

Lemma unknown_name_shown_witness :
  json_loads sample_interpreter (json_text "{'id': 7}")
    = mret (PyDict [("id", PyInt 7)])
  /\ price_divides (price_cents_of [("id", PyInt 7)]) = true
  /\ exists price,
       handle_web_app_data sample_interpreter
         (sample_update (json_text "{'id': 7}")) no_context
       = ([ReplyText (order_response "Unknown" price "7") None;
           Print (order_log 42 "Unknown" price)],
          inr tt)
       /\ contains ("Item: Unknown" +:+ LF) (order_response "Unknown" price "7")
          = true
       /\ contains "Unknown" (order_response "Unknown" price "7") = true.
Proof.
  split; [vm_compute; reflexivity|].
  split; [vm_compute; reflexivity|].
  apply (unknown_name_shown sample_interpreter
           (sample_update (json_text "{'id': 7}")) no_context [("id", PyInt 7)]).
  - vm_compute; reflexivity.
  - reflexivity.
  - vm_compute; reflexivity.
Defined.

(** C6 as stated fails when the price does not divide: a text for a price,
    or an integer beyond the float range, gets the error reply, in which
    ["Unknown"] does not occur. *)
Lemma unknown_name_counterexample :
  (json_loads sample_interpreter (json_text "{'price_cents': 'cheap'}")
     = mret (PyDict [("price_cents", PyStr "cheap")])
   /\ dict_lookup [("price_cents", PyStr "cheap")] "name" = None
   /\ price_divides (PyStr "cheap") = false
   /\ handle_web_app_data sample_interpreter
        (sample_update (json_text "{'price_cents': 'cheap'}")) no_context
      = ([ReplyText
            "❌ Error processing order: unsupported operand type(s) for /: 'str' and 'int'"
            None;
          Print "[Error] unsupported operand type(s) for /: 'str' and 'int'"],
         inr tt)
   /\ contains "Unknown"
        "❌ Error processing order: unsupported operand type(s) for /: 'str' and 'int'"
      = false)
  /\ (json_loads sample_interpreter huge_price_payload
        = mret (PyDict [("price_cents", PyInt (10 ^ 400))])
      /\ dict_lookup [("price_cents", PyInt (10 ^ 400))] "name" = None
      /\ price_divides (PyInt (10 ^ 400)) = false
      /\ handle_web_app_data sample_interpreter
           (sample_update huge_price_payload) no_context
         = ([ReplyText
               "❌ Error processing order: integer division result too large for a float"
               None;
             Print "[Error] integer division result too large for a float"],
            inr tt)
      /\ contains "Unknown"
           "❌ Error processing order: integer division result too large for a float"
         = false).
Proof. repeat split; vm_compute; reflexivity. Qed.

Lemma main_usage_exit_witness :
  (length ["python_bot.py"] < 2)%nat
  /\ main sample_interpreter ["python_bot.py"]
     = ([Print "Usage: python python_bot.py YOUR_BOT_TOKEN [WEBAPP_URL]"],
        inl (SystemExit 1))
  /\ exit_status (main sample_interpreter ["python_bot.py"]) = 1.
Proof.
  split; [simpl; lia|].
  apply (main_usage_exit sample_interpreter ["python_bot.py"]). simpl; lia.
Defined.

Lemma non_object_payload_reported_witness :
  json_value "[599]" = Some (PyList [PyInt 599])
  /\ json_loads sample_interpreter "[599]" = mret (PyList [PyInt 599])
  /\ web_app_data_try sample_interpreter (sample_update "[599]")
     = raise (AttributeError "'list' object has no attribute 'get'")
  /\ handle_web_app_data sample_interpreter (sample_update "[599]") no_context
     = ([ReplyText
           "❌ Error processing order: 'list' object has no attribute 'get'" None;
         Print "[Error] 'list' object has no attribute 'get'"],
        inr tt).
Proof.
  split; [vm_compute; reflexivity|].
  split; [vm_compute; reflexivity|].
  apply (non_object_payload_reported sample_interpreter
           (sample_update "[599]") no_context (PyList [PyInt 599])).
  - vm_compute; reflexivity.
  - intros d. discriminate.
  - vm_compute; reflexivity.
Defined.

(** C8 as stated fails on a payload that is valid JSON, is not an object
    and is nested deeper than the interpreter allows: a thousand arrays
    one inside the other, 2000 characters.  No lookup takes place:
    [json.loads] raises [RecursionError], and that is the exception the
    handler reports. *)
Lemma non_object_payload_counterexample :
  String.length (brackets 1000 true) = 2000%nat
  /\ match json_value (brackets 1000 true) with
     | Some (PyList _) => true
     | _ => false
     end = true
  /\ json_loads sample_interpreter (brackets 1000 true)
     = raise (RecursionError
                "maximum recursion depth exceeded while decoding a JSON array from a unicode string")
  /\ handle_web_app_data sample_interpreter
       (sample_update (brackets 1000 true)) no_context
     = ([ReplyText
           "❌ Error processing order: maximum recursion depth exceeded while decoding a JSON array from a unicode string"
           None;
         Print
           "[Error] maximum recursion depth exceeded while decoding a JSON array from a unicode string"],
        inr tt)
  /\ contains "has no attribute 'get'"
       "❌ Error processing order: maximum recursion depth exceeded while decoding a JSON array from a unicode string"
     = false.
Proof. repeat split; vm_compute; reflexivity. Qed.


Lemma missing_id_shown_witness :
  json_loads sample_interpreter (json_text "{'name': 'Fries', 'price_cents': 250}")
    = mret (PyDict [("name", PyStr "Fries"); ("price_cents", PyInt 250)])
  /\ price_divides
       (price_cents_of [("name", PyStr "Fries"); ("price_cents", PyInt 250)])
     = true
  /\ item_id_of [("name", PyStr "Fries"); ("price_cents", PyInt 250)] = PyNone
  /\ exists price,
       handle_web_app_data sample_interpreter
         (sample_update (json_text "{'name': 'Fries', 'price_cents': 250}"))
         no_context
       = ([ReplyText (order_response "Fries" price "None") None;
           Print (order_log 42 "Fries" price)],
          inr tt)
       /\ contains ("Order ID: #None" +:+ LF)
            (order_response "Fries" price "None") = true
       /\ contains "Order ID: #None" (order_response "Fries" price "None") = true.
Proof.
  split; [vm_compute; reflexivity|].
  split; [vm_compute; reflexivity|].
  destruct (missing_id_shown sample_interpreter
              (sample_update (json_text "{'name': 'Fries', 'price_cents': 250}"))
              no_context
              [("name", PyStr "Fries"); ("price_cents", PyInt 250)])
    as (Hnone & price & _ & _ & Hrun & Hascii & Hline & Hid).
  - vm_compute; reflexivity.
  - reflexivity.
  - vm_compute; reflexivity.
  - split; [exact Hnone|]. exists price.
    split; [|split; [exact Hline|exact Hid]].
    apply Hrun, Hascii. reflexivity.
Defined.

(** C10 as stated fails when the price does not divide: a [null] price, or
    an integer beyond the float range, gets the error reply, which has no
    order-ID line. *)
Lemma missing_id_counterexample :
  (json_loads sample_interpreter (json_text "{'price_cents': null}")
     = mret (PyDict [("price_cents", PyNone)])
   /\ dict_lookup [("price_cents", PyNone)] "id" = None
   /\ price_divides PyNone = false
   /\ handle_web_app_data sample_interpreter
        (sample_update (json_text "{'price_cents': null}")) no_context
      = ([ReplyText
            "❌ Error processing order: unsupported operand type(s) for /: 'NoneType' and 'int'"
            None;
          Print "[Error] unsupported operand type(s) for /: 'NoneType' and 'int'"],
         inr tt)
   /\ contains "Order ID: #None"
        "❌ Error processing order: unsupported operand type(s) for /: 'NoneType' and 'int'"
      = false)
  /\ (json_loads sample_interpreter huge_price_payload
        = mret (PyDict [("price_cents", PyInt (10 ^ 400))])
      /\ dict_lookup [("price_cents", PyInt (10 ^ 400))] "id" = None
      /\ price_divides (PyInt (10 ^ 400)) = false
      /\ handle_web_app_data sample_interpreter
           (sample_update huge_price_payload) no_context
         = ([ReplyText
               "❌ Error processing order: integer division result too large for a float"
               None;
             Print "[Error] integer division result too large for a float"],
            inr tt)
      /\ contains "Order ID: #None"
           "❌ Error processing order: integer division result too large for a float"
         = false).
Proof. repeat split; vm_compute; reflexivity. Qed.

(** * Further properties of the script *)

(** ** The payload handler as a whole *)

Section PayloadHandlerRuns.

Variable py : Interpreter.

#[local] Abbreviation handle := (handle_web_app_data py).
#[local] Abbreviation str := (py_str py).

(** whether the first event of a run is a reply that opens with [mark] *)
#[local] Abbreviation starts_with mark :=
  (fun events : list event =>
     match events with
     | ReplyText reply _ :: _ => String.prefix mark reply
     | _ => false
     end).

(** X1: whatever the payload, the handler returns normally.  When
    [json.loads] raised [JSONDecodeError] it has sent one reply, without a
    keyboard, and printed nothing.  Otherwise it has sent one reply and
    then printed one line; or, when the output could not encode the log
    line of a confirmed order, it has sent the confirmation, then a second
    reply, and then printed one line. *)
Theorem handler_runs update context :
  (handle update context).2 = inr tt
  /\ exists reply,
       (json_loads py (web_app_data update) = raise JSONDecodeError
        /\ (handle update context).1 = [ReplyText reply None])
       \/ (json_loads py (web_app_data update) <> raise JSONDecodeError
           /\ exists line,
                (handle update context).1 = [ReplyText reply None; Print line]
                \/ exists report,
                     (handle update context).1
                     = [ReplyText reply None; ReplyText report None; Print line]).
Proof.
  split; [apply handler_returns|].
  destruct (handler_cases py update context)
    as [[Hj Hrun]|[(e & He & Hkind & _ & _ & Hrun)|[(v & Hv & _ & _ & _ & Hrun)
       |[(d & e & Hv & _ & _ & _ & _ & Hrun)|(d & q & Hv & _ & _ & Hrun)]]]];
    rewrite Hrun.
  - eexists. left. split; [exact Hj|reflexivity].
  - eexists. right. split.
    + rewrite He. destruct Hkind as [[c ->]|[n ->]]; discriminate.
    + eexists. left. reflexivity.
  - eexists. right. split; [rewrite Hv; discriminate|].
    eexists. left. reflexivity.
  - eexists. right. split; [rewrite Hv; discriminate|].
    eexists. left. reflexivity.
  - eexists. right. split; [rewrite Hv; discriminate|].
    unfold confirmation. destruct (printable py _).
    + eexists. left. reflexivity.
    + eexists. right. eexists. reflexivity.
Qed.

(** X2: the first reply opens with the check mark exactly when
    [json.loads] returned a JSON object whose price divides, and with the
    cross mark and [Error] otherwise; a client can tell an accepted order
    by the first character of the first reply. *)
Theorem reply_mark update context :
  let accepted :=
    exists d, json_loads py (web_app_data update) = mret (PyDict d)
              /\ price_divides (price_cents_of d) = true in
  exists reply more,
    (handle update context).1 = ReplyText reply None :: more
    /\ (String.prefix "✅ Order Received!" reply = true <-> accepted)
    /\ (String.prefix "❌ Error" reply = true <-> ~ accepted).
Proof.
  intros accepted.
  assert (Hyes : accepted -> forall reply,
            String.prefix "✅ Order Received!" reply = true ->
            String.prefix "❌ Error" reply = false ->
            (String.prefix "✅ Order Received!" reply = true <-> accepted)
            /\ (String.prefix "❌ Error" reply = true <-> ~ accepted)).
  { intros Hok reply -> ->. repeat split; try discriminate; intuition. }
  assert (Hnot : ~ accepted -> forall reply,
            String.prefix "✅ Order Received!" reply = false ->
            String.prefix "❌ Error" reply = true ->
            (String.prefix "✅ Order Received!" reply = true <-> accepted)
            /\ (String.prefix "❌ Error" reply = true <-> ~ accepted)).
  { intros Hno reply -> ->. repeat split; try discriminate; intuition. }
  destruct (handler_cases py update context)
    as [[Hj Hrun]|[(e & He & _ & _ & _ & Hrun)|[(v & Hv & Hnd & _ & _ & Hrun)
       |[(d & e & Hv & Hdiv & _ & _ & _ & Hrun)|(d & q & Hv & Hdiv & _ & Hrun)]]]].
  - rewrite Hrun. eexists _, _. split; [reflexivity|].
    apply Hnot; [|reflexivity..].
    intros (d & Hd & _). rewrite Hj in Hd. discriminate Hd.
  - rewrite Hrun. eexists _, _. split; [reflexivity|].
    apply Hnot; [|reflexivity..].
    intros (d & Hd & _). rewrite He in Hd. discriminate Hd.
  - rewrite Hrun. eexists _, _. split; [reflexivity|].
    apply Hnot; [|reflexivity..].
    intros (d & Hd & _). rewrite Hv in Hd. injection Hd as ->.
    destruct (Hnd d eq_refl).
  - rewrite Hrun. eexists _, _. split; [reflexivity|].
    apply Hnot; [|reflexivity..].
    intros (d' & Hd & Hdiv'). rewrite Hv in Hd. injection Hd as <-.
    rewrite Hdiv in Hdiv'. discriminate Hdiv'.
  - rewrite Hrun.
    destruct (confirmation_reply py (effective_user_id update)
                (str (item_name_of d)) (Float.format_2f q) (str (item_id_of d)))
      as [more ->].
    eexists _, _. split; [reflexivity|].
    apply Hyes; [|reflexivity..].
    exists d. split; assumption.
Qed.

(** X3: the parse-error message is sent exactly when [json.loads] raises
    [JSONDecodeError], which it does on no JSON text: a payload that
    parses, whatever its value, never gets it, and nor does one on which
    [json.loads] raises another exception. *)
Theorem parse_error_only_for_malformed update context :
  (In (ReplyText parse_error_message None) (handle update context).1
   <-> json_loads py (web_app_data update) = raise JSONDecodeError)
  /\ (json_loads py (web_app_data update) = raise JSONDecodeError ->
      is_json (web_app_data update) = false).
Proof.
  assert (Hreport : forall e,
            ~ In (ReplyText parse_error_message None) (failure_report e).1).
  { intros e [Hin|[Hin|[]]]; [|discriminate Hin].
    apply (f_equal (fun ev => starts_with "❌ Error processing" [ev])) in Hin.
    change (true = false) in Hin. discriminate Hin. }
  split.
  - destruct (handler_cases py update context)
      as [[Hj Hrun]|[(e & He & Hkind & _ & _ & Hrun)|[(v & Hv & _ & _ & _ & Hrun)
         |[(d & e & Hv & _ & _ & _ & _ & Hrun)|(d & q & Hv & _ & _ & Hrun)]]]];
      rewrite Hrun.
    + split; [intros _; exact Hj|]. intros _. left. reflexivity.
    + split; [intros Hin; destruct (Hreport _ Hin)|].
      rewrite He. destruct Hkind as [[c ->]|[n ->]]; discriminate.
    + split; [intros Hin; destruct (Hreport _ Hin)|].
      rewrite Hv. discriminate.
    + split; [intros Hin; destruct (Hreport _ Hin)|].
      rewrite Hv. discriminate.
    + split; [|rewrite Hv; discriminate].
      unfold confirmation. intros Hin. exfalso.
      destruct (printable py _); simpl in Hin;
        repeat (destruct Hin as [Hin|Hin]); try discriminate Hin;
        try contradiction;
        try (apply (f_equal (fun ev => starts_with "✅" [ev])) in Hin;
             change (true = false) in Hin; discriminate Hin);
        apply (f_equal (fun ev => starts_with "❌ Error processing" [ev])) in Hin;
        change (true = false) in Hin; discriminate Hin.
  - intros Hj. unfold is_json. rewrite (json_loads_not_json py _ Hj).
    reflexivity.
Qed.

(** X4: the handler reads three fields and nothing else: two object
    payloads that agree on [id], [name] and [price_cents] get the same
    reply, whatever their other fields, the order of the fields, the user
    and the context; with the same user the whole runs are equal. *)
Theorem handler_reads_three_fields update1 update2 context1 context2 d1 d2 :
  json_loads py (web_app_data update1) = mret (PyDict d1) ->
  json_loads py (web_app_data update2) = mret (PyDict d2) ->
  dict_lookup d1 "id" = dict_lookup d2 "id" ->
  dict_lookup d1 "name" = dict_lookup d2 "name" ->
  dict_lookup d1 "price_cents" = dict_lookup d2 "price_cents" ->
  (handle update1 context1).1 !! 0%nat = (handle update2 context2).1 !! 0%nat
  /\ (effective_user_id update1 = effective_user_id update2 ->
      handle update1 context1 = handle update2 context2).
Proof.
  intros Hd1 Hd2 Hid Hname Hprice.
  assert (Eid : item_id_of d1 = item_id_of d2)
    by (unfold item_id_of; rewrite Hid; reflexivity).
  assert (Ename : item_name_of d1 = item_name_of d2)
    by (unfold item_name_of; rewrite Hname; reflexivity).
  assert (Eprice : price_cents_of d1 = price_cents_of d2)
    by (unfold price_cents_of; rewrite Hprice; reflexivity).
  destruct (price_divides (price_cents_of d1)) eqn:Hdiv.
  - destruct (py_truediv_divides _ Hdiv) as [q Hq1].
    assert (Hq2 : py_truediv (price_cents_of d2) 100 = mret q)
      by (rewrite <- Eprice; exact Hq1).
    rewrite (order_confirmed py update1 context1 d1 q Hd1 Hq1),
            (order_confirmed py update2 context2 d2 q Hd2 Hq2).
    rewrite Eid, Ename. split; [|intros ->; reflexivity].
    destruct (confirmation_reply py (effective_user_id update1)
                (str (item_name_of d2)) (Float.format_2f q) (str (item_id_of d2)))
      as [more1 ->].
    destruct (confirmation_reply py (effective_user_id update2)
                (str (item_name_of d2)) (Float.format_2f q) (str (item_id_of d2)))
      as [more2 ->].
    reflexivity.
  - destruct (py_truediv_refuses _ Hdiv) as (e & He1 & Hr).
    assert (He2 : py_truediv (price_cents_of d2) 100 = raise e)
      by (rewrite <- Eprice; exact He1).
    rewrite (order_refused py update1 context1 d1 e Hd1 He1 Hr),
            (order_refused py update2 context2 d2 e Hd2 He2 Hr).
    split; [reflexivity|]. intros _. reflexivity.
Qed.

(** X5: the default of [name] stands for a missing key only.  A [name]
    that is present is shown as it is in the confirmation: a string
    without quotes or escapes, and [null] as [None], not as [Unknown]. *)
Theorem present_name_shown update context d name :
  json_loads py (web_app_data update) = mret (PyDict d) ->
  dict_lookup d "name" = Some name ->
  price_divides (price_cents_of d) = true ->
  let shown :=
    match name with
    | PyStr s => s
    | PyNone => "None"
    | _ => str name
    end in
  exists price,
    handle update context
    = confirmation py (effective_user_id update) shown price (str (item_id_of d))
    /\ (exists more,
          handle update context
          = (ReplyText (order_response shown price (str (item_id_of d))) None
               :: more, inr tt))
    /\ contains ("Item: " +:+ shown +:+ LF)
         (order_response shown price (str (item_id_of d))) = true.
Proof.
  intros Hd Hname Hdiv shown.
  destruct (py_truediv_divides _ Hdiv) as [q Hq].
  exists (Float.format_2f q).
  assert (Hrun : handle update context
                 = confirmation py (effective_user_id update) shown
                     (Float.format_2f q) (str (item_id_of d))).
  { rewrite (order_confirmed py update context d q Hd Hq).
    unfold item_name_of. rewrite Hname. unfold shown.
    destruct name; reflexivity. }
  split; [exact Hrun|]. split; [|apply response_item_line].
  rewrite Hrun. apply confirmation_reply.
Qed.

(** X6: a [price_cents] that is present and is not a number (a string,
    even one of digits, [null], an array or an object) is not replaced by
    the default 0: the division raises [TypeError] and the reply and the
    log line carry its text, which names the type. *)
Theorem non_number_price_reported update context d price_cents :
  json_loads py (web_app_data update) = mret (PyDict d) ->
  dict_lookup d "price_cents" = Some price_cents ->
  is_number price_cents = false ->
  handle update context
  = failure_report
      (TypeError ("unsupported operand type(s) for /: '"
                    +:+ type_name price_cents +:+ "' and 'int'")).
Proof.
  intros Hd Hprice Hnum.
  apply (order_refused py update context d _ Hd);
    [|apply reportable_not_number].
  unfold price_cents_of. rewrite Hprice.
  destruct price_cents; try discriminate Hnum; reflexivity.
Qed.

(** X7: a [price_cents] that is a float is always accepted, the special
    values of [json.loads] included: in the confirmation [NaN] is shown as
    [$nan], [Infinity] as [$inf], [-Infinity] as [$-inf] and a negative
    zero as [$-0.00]. *)
Theorem float_price_shown update context d x :
  json_loads py (web_app_data update) = mret (PyDict d) ->
  dict_lookup d "price_cents" = Some (PyFloat x) ->
  let price :=
    match x with
    | S754_nan => "nan"
    | S754_infinity s => if s then "-inf" else "inf"
    | S754_zero s => if s then "-0.00" else "0.00"
    | S754_finite _ _ _ => Float.format_2f (Float.div x (Float.of_int 100))
    end in
  handle update context
  = confirmation py (effective_user_id update) (str (item_name_of d)) price
      (str (item_id_of d))
  /\ exists more,
       handle update context
       = (ReplyText (order_response (str (item_name_of d)) price
                       (str (item_id_of d))) None :: more, inr tt).
Proof.
  intros Hd Hprice price.
  assert (Hq : py_truediv (price_cents_of d) 100
               = mret (Float.div x (Float.of_int 100))).
  { unfold price_cents_of. rewrite Hprice. reflexivity. }
  assert (Hrun : handle update context
                 = confirmation py (effective_user_id update)
                     (str (item_name_of d)) price (str (item_id_of d))).
  { rewrite (order_confirmed py update context d _ Hd Hq).
    unfold price. destruct x as [[]|[]| |]; reflexivity. }
  split; [exact Hrun|]. rewrite Hrun. apply confirmation_reply.
Qed.

(** X8: a [price_cents] that is a JSON boolean is divided as the integer
    1 or 0: in the confirmation [true] is shown as [$0.01] and [false] as
    [$0.00]. *)
Theorem bool_price_shown update context d b :
  json_loads py (web_app_data update) = mret (PyDict d) ->
  dict_lookup d "price_cents" = Some (PyBool b) ->
  let price := if b then "0.01" else "0.00" in
  handle update context
  = confirmation py (effective_user_id update) (str (item_name_of d)) price
      (str (item_id_of d))
  /\ exists more,
       handle update context
       = (ReplyText (order_response (str (item_name_of d)) price
                       (str (item_id_of d))) None :: more, inr tt).
Proof.
  intros Hd Hprice price.
  assert (Hq : exists q, py_truediv (price_cents_of d) 100 = mret q
                         /\ Float.format_2f q = price).
  { unfold price_cents_of, price. rewrite Hprice.
    destruct b; eexists; split; vm_compute; reflexivity. }
  destruct Hq as (q & Hq & Hfmt).
  assert (Hrun : handle update context
                 = confirmation py (effective_user_id update)
                     (str (item_name_of d)) price (str (item_id_of d))).
  { rewrite (order_confirmed py update context d q Hd Hq), Hfmt. reflexivity. }
  split; [exact Hrun|]. rewrite Hrun. apply confirmation_reply.
Qed.

(** X9: a negative integer price is accepted like its opposite, and shown
    in the confirmation with a minus sign between the dollar sign and the
    digits. *)
Theorem negative_price_shown update1 update2 context1 context2 d1 d2 n :
  json_loads py (web_app_data update1) = mret (PyDict d1) ->
  json_loads py (web_app_data update2) = mret (PyDict d2) ->
  dict_lookup d1 "price_cents" = Some (PyInt n) ->
  dict_lookup d2 "price_cents" = Some (PyInt (- n)) ->
  0 < n < Float.overflow_cents ->
  exists price,
    handle update1 context1
    = confirmation py (effective_user_id update1) (str (item_name_of d1)) price
        (str (item_id_of d1))
    /\ handle update2 context2
       = confirmation py (effective_user_id update2) (str (item_name_of d2))
           ("-" +:+ price) (str (item_id_of d2))
    /\ (exists more,
          handle update2 context2
          = (ReplyText (order_response (str (item_name_of d2)) ("-" +:+ price)
                          (str (item_id_of d2))) None :: more, inr tt))
    /\ contains ("Price: $-" +:+ price +:+ LF)
         (order_response (str (item_name_of d2)) ("-" +:+ price)
            (str (item_id_of d2))) = true.
Proof.
  intros Hd1 Hd2 Hp1 Hp2 Hn.
  exists (Float.format_2f (Float.round_binary64 false n 100)).
  rewrite <- round_binary64_sign.
  assert (Hrun2 : handle update2 context2
                  = confirmation py (effective_user_id update2)
                      (str (item_name_of d2))
                      (Float.format_2f (Float.round_binary64 true n 100))
                      (str (item_id_of d2))).
  { apply (order_confirmed py update2 context2 d2 _ Hd2).
    unfold price_cents_of. rewrite Hp2. cbn [default from_option id py_truediv].
    rewrite long_true_divide_in_range by lia.
    replace (- n <? 0) with true by lia. replace (Z.abs (- n)) with n by lia.
    reflexivity. }
  split; [|split; [exact Hrun2|split]].
  - apply (order_confirmed py update1 context1 d1 _ Hd1).
    unfold price_cents_of. rewrite Hp1. cbn [default from_option id py_truediv].
    rewrite long_true_divide_in_range by lia.
    replace (n <? 0) with false by lia. replace (Z.abs n) with n by lia.
    reflexivity.
  - rewrite Hrun2. apply confirmation_reply.
  - rewrite round_binary64_sign.
    pose proof (response_price_line (str (item_name_of d2))
                  ("-" +:+ Float.format_2f (Float.round_binary64 false n 100))
                  (str (item_id_of d2))) as Hline.
    exact Hline.
Qed.

(** X10: whatever integer price the division accepts, the amount shown in
    the confirmation is within half a cent, plus one part in [2^53] of the
    price, from the price sent: it is exact below [2^52] cents, and never
    off by more than the rounding of the float division. *)
Theorem integer_price_accuracy update context d n :
  json_loads py (web_app_data update) = mret (PyDict d) ->
  dict_lookup d "price_cents" = Some (PyInt n) ->
  Z.abs n < Float.overflow_cents ->
  exists k,
    handle update context
    = confirmation py (effective_user_id update) (str (item_name_of d))
        (Float.hundredths (n <? 0) k) (str (item_id_of d))
    /\ (exists more,
          handle update context
          = (ReplyText (order_response (str (item_name_of d))
                          (Float.hundredths (n <? 0) k) (str (item_id_of d)))
               None :: more, inr tt))
    /\ 2 ^ 53 * Z.abs (k - Z.abs n) <= 2 ^ 52 + Z.abs n
    /\ (Z.abs n < 2 ^ 52 -> k = Z.abs n).
Proof.
  intros Hd Hprice Hn.
  assert (Hq : exists k,
            (exists q, py_truediv (price_cents_of d) 100 = mret q
                       /\ Float.format_2f q = Float.hundredths (n <? 0) k)
            /\ 2 ^ 53 * Z.abs (k - Z.abs n) <= 2 ^ 52 + Z.abs n).
  { unfold price_cents_of. rewrite Hprice.
    cbn [default from_option id py_truediv]. unfold long_true_divide.
    destruct (Z.eq_dec n 0) as [->|Hnz].
    - exists 0. split; [eexists; split; reflexivity|]. vm_compute. discriminate.
    - destruct (PriceAccuracy.cents_accuracy (n <? 0) (Z.abs n) ltac:(lia))
        as (m & e & Hr & Hk).
      rewrite Hr. eexists. split; [eexists; split; reflexivity|]. exact Hk. }
  destruct Hq as (k & (q & Hq & Hfmt) & Hk).
  exists k.
  assert (Hrun : handle update context
                 = confirmation py (effective_user_id update)
                     (str (item_name_of d)) (Float.hundredths (n <? 0) k)
                     (str (item_id_of d))).
  { rewrite (order_confirmed py update context d q Hd Hq), Hfmt. reflexivity. }
  split; [exact Hrun|]. split; [rewrite Hrun; apply confirmation_reply|].
  split; [exact Hk|].
  intros Hsmall. change (2 ^ 53) with (2 ^ 52 * 2) in Hk.
  change (2 ^ 52) with 4503599627370496 in *. lia.
Qed.

(** X11: an empty payload, or one of nothing but spaces, tabs and line
    ends, is not JSON: [json.loads] raises [JSONDecodeError] and the
    handler sends the parse-error message. *)
Theorem blank_payload_rejected update context :
  blank (web_app_data update) = true ->
  is_json (web_app_data update) = false
  /\ json_loads py (web_app_data update) = raise JSONDecodeError
  /\ handle update context = ([ReplyText parse_error_message None], inr tt).
Proof.
  intros Hblank.
  assert (Hd : forall md depth,
            Json.decode md depth (web_app_data update) = Json.NotJson).
  { intros md depth. unfold Json.decode. rewrite (skip_ws_blank _ Hblank).
    reflexivity. }
  assert (Hj : json_loads py (web_app_data update) = raise JSONDecodeError)
    by (unfold json_loads; rewrite Hd; reflexivity).
  split; [unfold is_json, json_value; rewrite Hd; reflexivity|].
  split; [exact Hj|].
  rewrite (handle_raised py update context _ (try_on_loads_raise py _ _ Hj)).
  reflexivity.
Qed.

(** X12: spaces, tabs and line ends before the payload change nothing:
    the run of the handler is the one on the payload without them. *)
Theorem leading_whitespace_ignored pad payload user_id context :
  blank pad = true ->
  handle {| web_app_data := pad +:+ payload; effective_user_id := user_id |}
    context
  = handle {| web_app_data := payload; effective_user_id := user_id |} context.
Proof.
  intros Hpad.
  unfold handle_web_app_data, web_app_data_try, json_loads. cbn [web_app_data].
  rewrite (Limits.decode_after_blank _ _ pad payload Hpad). reflexivity.
Qed.

(** X13: every payload of the shape the docstring shows is confirmed, and
    the reply and the log line show its fields as they were sent: the name
    as it is, the identifier in decimal, and the price in dollars with its
    two decimals exact, up to [100 * 2^46] cents.  The separator after the
    colons and commas may be any whitespace, or none; the identifier is
    within the 4300 digits the interpreter converts.  The log line is
    printed when the output can encode the name, as it can any ASCII
    name. *)
Theorem demo_order_confirmed sep id name price_cents user_id context :
  blank sep = true ->
  plain name = true ->
  Z.abs id < 10 ^ 4300 ->
  Z.abs price_cents <= 100 * 2 ^ 46 ->
  let update := {| web_app_data := order_payload sep id name price_cents;
                   effective_user_id := user_id |} in
  let price := cents_text price_cents in
  handle update context = confirmation py user_id name price (Float.str_int id)
  /\ (printable py (order_log user_id name price) = true ->
      handle update context
      = ([ReplyText (order_response name price (Float.str_int id)) None;
          Print (order_log user_id name price)],
         inr tt))
  /\ (is_ascii name = true -> printable py (order_log user_id name price) = true).
Proof.
  intros Hsep Hname Hid Hprice update price.
  destruct (cents_divide price_cents Hprice) as (q & Hq & Htext).
  assert (Hd : json_loads py (web_app_data update)
               = mret (PyDict [("id", PyInt id); ("name", PyStr name);
                               ("price_cents", PyInt price_cents)])).
  { unfold json_loads, update. cbn [web_app_data].
    rewrite (OrderPayload.decode_order_payload int_max_str_digits
               (nesting_spare py) sep id name price_cents Hsep Hname).
    - reflexivity.
    - exact Hid.
    - eapply Z.le_lt_trans; [exact Hprice|].
      apply (Z.lt_le_trans _ (10 ^ 17)); [vm_compute; reflexivity|].
      apply Z.pow_le_mono_r; [lia|]. vm_compute. discriminate. }
  assert (Hrun : handle update context
                 = confirmation py user_id name price (Float.str_int id)).
  { unfold price. rewrite <- Htext.
    exact (order_confirmed py update context _ q Hd Hq). }
  split; [exact Hrun|]. split.
  - intros Hp. rewrite Hrun. apply confirmation_printed, Hp.
  - intros Hascii. unfold price. rewrite <- Htext.
    apply order_log_ascii, Hascii.
Qed.

(** X18: when the output cannot encode the log line of an order, as a
    UTF-8 output cannot a name with a lone surrogate, [print] raises after
    the confirmation was sent: the user gets a second reply, with the text
    of the [UnicodeEncodeError], and that text is logged. *)
Theorem unprintable_order_reported update context d q :
  json_loads py (web_app_data update) = mret (PyDict d) ->
  py_truediv (price_cents_of d) 100 = mret q ->
  let name := str (item_name_of d) in
  let price := Float.format_2f q in
  let line := order_log (effective_user_id update) name price in
  printable py line = false ->
  web_app_data_try py update
  = ([ReplyText (order_response name price (str (item_id_of d))) None],
     inl (UnicodeEncodeError (encode_error py line)))
  /\ handle update context
     = ([ReplyText (order_response name price (str (item_id_of d))) None;
         ReplyText ("❌ Error processing order: " +:+ encode_error py line) None;
         Print ("[Error] " +:+ encode_error py line)],
        inr tt).
Proof.
  intros Hd Hq name price line Hp. split.
  - rewrite (try_on_order py update d q Hd Hq). fold name price line.
    rewrite Hp. reflexivity.
  - rewrite (order_confirmed py update context d q Hd Hq).
    apply (confirmation_not_printed py _ _ _ _ Hp).
Qed.

(** X19: a payload that opens with more brackets than [json.loads] can
    enter arrays is not read to its end, be it JSON or not: [json.loads]
    raises [RecursionError], and the handler sends the generic error
    message with its text and prints the log line; the parse-error
    message is not sent. *)
Theorem deep_nesting_reported depth tail user_id context :
  (S (nesting_spare py) < depth)%nat ->
  let update := {| web_app_data := opening depth tail;
                   effective_user_id := user_id |} in
  let text :=
    "maximum recursion depth exceeded while decoding a JSON array from a unicode string" in
  json_loads py (web_app_data update) = raise (RecursionError text)
  /\ handle update context
     = ([ReplyText ("❌ Error processing order: " +:+ text) None;
         Print ("[Error] " +:+ text)],
        inr tt).
Proof.
  intros Hdepth update text.
  assert (Hj : json_loads py (web_app_data update) = raise (RecursionError text)).
  { unfold json_loads, update. cbn [web_app_data].
    rewrite (Limits.decode_opening _ _ depth tail Hdepth). reflexivity. }
  split; [exact Hj|].
  rewrite (handle_raised py update context _ (try_on_loads_raise py _ _ Hj)).
  apply (except_reportable py (RecursionError text)). reflexivity.
Qed.

End PayloadHandlerRuns.

(** ** [start] and [main] *)


(** X15: with a token that is not empty on the command line, and a URL
    the output can encode, [main] returns normally after three actions:
    the two lines printed, then one call of [run_polling], on an
    application whose token is the first argument, whose [bot_data] holds
    the WebApp URL and nothing else, and whose handlers are the command
    handler of [start] and then the handler of the WebApp data. *)
Theorem main_builds_application py argv bot_token :
  argv !! 1%nat = Some bot_token ->
  bot_token <> "" ->
  printable py ("Starting bot with WebApp URL: " +:+ webapp_url_of argv) = true ->
  main py argv =
    ([Print ("Starting bot with WebApp URL: " +:+ webapp_url_of argv);
      Print "Bot is running... Press Ctrl+C to stop.";
      RunPolling
        {| token := bot_token;
           bot_data := {[ "webapp_url" := webapp_url_of argv ]};
           handlers := [CommandHandler "start" cb_start;
                        MessageHandler_WEB_APP_DATA
                          cb_handle_web_app_data] |}],
     inr tt).
Proof.
  intros Htoken Hne Hp.
  destruct argv as [|program [|bot_token' rest]]; try discriminate Htoken.
  injection Htoken as ->. apply main_runs; assumption.
Qed.

(** X16: [main] reads its first two arguments only: the name of the
    program and the arguments after the WebApp URL change nothing. *)
Theorem main_ignores_other_arguments py program1 program2 bot_token webapp_url more :
  main py (program1 :: bot_token :: webapp_url :: more)
  = main py [program2; bot_token; webapp_url].
Proof. rewrite !main_from_token. reflexivity. Qed.

(** X17: [main] ends in one of four ways, and the status of the process
    is 0 in the last only: with fewer than two arguments it raises
    [SystemExit(1)]; with a URL the output cannot encode, the first
    [print] raises [UnicodeEncodeError]; with an empty token the builder
    raises [InvalidToken]; otherwise it returns normally.  No index is
    ever out of range. *)
Theorem main_exit_status py argv :
  let line := "Starting bot with WebApp URL: " +:+ webapp_url_of argv in
  ((length argv < 2)%nat
   /\ (main py argv).2 = inl (SystemExit 1) /\ exit_status (main py argv) = 1)
  \/ ((2 <= length argv)%nat /\ printable py line = false
      /\ (main py argv).2 = inl (UnicodeEncodeError (encode_error py line))
      /\ exit_status (main py argv) = 1)
  \/ ((2 <= length argv)%nat /\ printable py line = true
      /\ argv !! 1%nat = Some ""
      /\ (main py argv).2 = inl InvalidToken
      /\ exit_status (main py argv) = 1)
  \/ ((2 <= length argv)%nat /\ printable py line = true
      /\ (exists bot_token, argv !! 1%nat = Some bot_token /\ bot_token <> "")
      /\ (main py argv).2 = inr tt
      /\ exit_status (main py argv) = 0).
Proof.
  intros line.
  destruct (main_cases py argv)
    as [[Hlen Hrun]|[(Hlen & Hp & Hrun)|[(Hlen & Hp & Htoken & Hrun)
       |(bot_token & Hlen & Hp & Htoken & Hne & Hrun)]]];
    unfold exit_status; rewrite Hrun.
  - left. split; [exact Hlen|]. split; reflexivity.
  - right. left. split; [exact Hlen|]. split; [exact Hp|]. split; reflexivity.
  - right. right. left. split; [exact Hlen|]. split; [exact Hp|].
    split; [exact Htoken|]. split; reflexivity.
  - right. right. right. split; [exact Hlen|]. split; [exact Hp|].
    split; [exists bot_token; split; assumption|]. split; reflexivity.
Qed.

(** ** Runs of the further properties on sample inputs *)

(** The fields in another order, a field more, another user and a command
    argument: the same reply. *)
Lemma handler_reads_three_fields_witness :
  json_loads sample_interpreter whopper_payload
    = mret (PyDict [("id", PyInt 1); ("name", PyStr "Whopper");
                    ("price_cents", PyInt 599)])
  /\ json_loads sample_interpreter
       (json_text "{'price_cents': 599, 'note': 'no onions', 'name': 'Whopper', 'id': 1}")
     = mret (PyDict [("price_cents", PyInt 599); ("note", PyStr "no onions");
                     ("name", PyStr "Whopper"); ("id", PyInt 1)])
  /\ (handle_web_app_data sample_interpreter
        (sample_update whopper_payload) no_context).1 !! 0%nat
     = (handle_web_app_data sample_interpreter
          {| web_app_data :=
               json_text "{'price_cents': 599, 'note': 'no onions', 'name': 'Whopper', 'id': 1}";
             effective_user_id := 7 |}
          {| args := ["now"]; context_bot_data := ∅ |}).1 !! 0%nat.
Proof.
  split; [vm_compute; reflexivity|].
  split; [vm_compute; reflexivity|].
  apply (handler_reads_three_fields sample_interpreter
           (sample_update whopper_payload)
           {| web_app_data :=
                json_text "{'price_cents': 599, 'note': 'no onions', 'name': 'Whopper', 'id': 1}";
              effective_user_id := 7 |}
           no_context {| args := ["now"]; context_bot_data := ∅ |}
           [("id", PyInt 1); ("name", PyStr "Whopper"); ("price_cents", PyInt 599)]
           [("price_cents", PyInt 599); ("note", PyStr "no onions");
            ("name", PyStr "Whopper"); ("id", PyInt 1)]);
    vm_compute; reflexivity.
Defined.

(** A [null] name is shown as [None]. *)
Lemma present_name_shown_witness :
  json_loads sample_interpreter (json_text "{'name': null, 'price_cents': 599}")
    = mret (PyDict [("name", PyNone); ("price_cents", PyInt 599)])
  /\ exists price,
       handle_web_app_data sample_interpreter
         (sample_update (json_text "{'name': null, 'price_cents': 599}"))
         no_context
       = confirmation sample_interpreter 42 "None" price "None"
       /\ (exists more,
             handle_web_app_data sample_interpreter
               (sample_update (json_text "{'name': null, 'price_cents': 599}"))
               no_context
             = (ReplyText (order_response "None" price "None") None :: more,
                inr tt))
       /\ contains ("Item: None" +:+ LF) (order_response "None" price "None")
          = true.
Proof.
  split; [vm_compute; reflexivity|].
  apply (present_name_shown sample_interpreter
           (sample_update (json_text "{'name': null, 'price_cents': 599}"))
           no_context [("name", PyNone); ("price_cents", PyInt 599)] PyNone);
    vm_compute; reflexivity.
Defined.

(** A price sent as a string of digits is refused. *)
Lemma non_number_price_reported_witness :
  json_loads sample_interpreter
    (json_text "{'name': 'Whopper', 'price_cents': '599'}")
    = mret (PyDict [("name", PyStr "Whopper"); ("price_cents", PyStr "599")])
  /\ handle_web_app_data sample_interpreter
       (sample_update (json_text "{'name': 'Whopper', 'price_cents': '599'}"))
       no_context
     = failure_report
         (TypeError "unsupported operand type(s) for /: 'str' and 'int'").
Proof.
  split; [vm_compute; reflexivity|].
  apply (non_number_price_reported sample_interpreter
           (sample_update (json_text "{'name': 'Whopper', 'price_cents': '599'}"))
           no_context
           [("name", PyStr "Whopper"); ("price_cents", PyStr "599")]
           (PyStr "599"));
    vm_compute; reflexivity.
Defined.

(** An infinite price is confirmed. *)
Lemma float_price_shown_witness :
  json_loads sample_interpreter
    (json_text "{'name': 'Whopper', 'price_cents': Infinity}")
    = mret (PyDict [("name", PyStr "Whopper");
                    ("price_cents", PyFloat (S754_infinity false))])
  /\ handle_web_app_data sample_interpreter
       (sample_update (json_text "{'name': 'Whopper', 'price_cents': Infinity}"))
       no_context
     = ([ReplyText (order_response "Whopper" "inf" "None") None;
         Print (order_log 42 "Whopper" "inf")],
        inr tt).
Proof.
  split; [vm_compute; reflexivity|].
  destruct (float_price_shown sample_interpreter
              (sample_update
                 (json_text "{'name': 'Whopper', 'price_cents': Infinity}"))
              no_context
              [("name", PyStr "Whopper");
               ("price_cents", PyFloat (S754_infinity false))]
              (S754_infinity false)) as [Hrun _];
    [vm_compute; reflexivity..|].
  rewrite Hrun. vm_compute. reflexivity.
Defined.

(** The price [true] is one cent. *)
Lemma bool_price_shown_witness :
  json_loads sample_interpreter
    (json_text "{'name': 'Whopper', 'price_cents': true}")
    = mret (PyDict [("name", PyStr "Whopper"); ("price_cents", PyBool true)])
  /\ handle_web_app_data sample_interpreter
       (sample_update (json_text "{'name': 'Whopper', 'price_cents': true}"))
       no_context
     = ([ReplyText (order_response "Whopper" "0.01" "None") None;
         Print (order_log 42 "Whopper" "0.01")],
        inr tt).
Proof.
  split; [vm_compute; reflexivity|].
  destruct (bool_price_shown sample_interpreter
              (sample_update (json_text "{'name': 'Whopper', 'price_cents': true}"))
              no_context
              [("name", PyStr "Whopper"); ("price_cents", PyBool true)] true)
    as [Hrun _];
    [vm_compute; reflexivity..|].
  rewrite Hrun. vm_compute. reflexivity.
Defined.

(** A refund of the demo item. *)
Lemma negative_price_shown_witness :
  json_loads sample_interpreter (json_text "{'price_cents': 599}")
    = mret (PyDict [("price_cents", PyInt 599)])
  /\ json_loads sample_interpreter (json_text "{'price_cents': -599}")
     = mret (PyDict [("price_cents", PyInt (- 599))])
  /\ 0 < 599 < Float.overflow_cents
  /\ exists price,
       handle_web_app_data sample_interpreter
         (sample_update (json_text "{'price_cents': 599}")) no_context
       = confirmation sample_interpreter 42 "Unknown" price "None"
       /\ handle_web_app_data sample_interpreter
            (sample_update (json_text "{'price_cents': -599}")) no_context
          = confirmation sample_interpreter 42 "Unknown" ("-" +:+ price) "None"
       /\ (exists more,
             handle_web_app_data sample_interpreter
               (sample_update (json_text "{'price_cents': -599}")) no_context
             = (ReplyText (order_response "Unknown" ("-" +:+ price) "None") None
                  :: more, inr tt))
       /\ contains ("Price: $-" +:+ price +:+ LF)
            (order_response "Unknown" ("-" +:+ price) "None") = true.
Proof.
  split; [vm_compute; reflexivity|].
  split; [vm_compute; reflexivity|].
  split; [split; vm_compute; reflexivity|].
  apply (negative_price_shown sample_interpreter
           (sample_update (json_text "{'price_cents': 599}"))
           (sample_update (json_text "{'price_cents': -599}"))
           no_context no_context
           [("price_cents", PyInt 599)] [("price_cents", PyInt (- 599))] 599);
    try (vm_compute; reflexivity).
  split; vm_compute; reflexivity.
Defined.

(** One cent above [100 * 2^46] the amount shown is a cent off, within
    the bound. *)
Lemma integer_price_accuracy_witness :
  json_loads sample_interpreter (json_text "{'price_cents': 7036874417766401}")
    = mret (PyDict [("price_cents", PyInt 7036874417766401)])
  /\ Z.abs 7036874417766401 < Float.overflow_cents
  /\ exists k,
       handle_web_app_data sample_interpreter
         (sample_update (json_text "{'price_cents': 7036874417766401}"))
         no_context
       = confirmation sample_interpreter 42 "Unknown"
           (Float.hundredths false k) "None"
       /\ (exists more,
             handle_web_app_data sample_interpreter
               (sample_update (json_text "{'price_cents': 7036874417766401}"))
               no_context
             = (ReplyText (order_response "Unknown" (Float.hundredths false k)
                             "None") None :: more, inr tt))
       /\ 2 ^ 53 * Z.abs (k - 7036874417766401) <= 2 ^ 52 + 7036874417766401
       /\ (7036874417766401 < 2 ^ 52 -> k = 7036874417766401).
Proof.
  split; [vm_compute; reflexivity|].
  split; [vm_compute; reflexivity|].
  apply (integer_price_accuracy sample_interpreter
           (sample_update (json_text "{'price_cents': 7036874417766401}"))
           no_context [("price_cents", PyInt 7036874417766401)]
           7036874417766401);
    vm_compute; reflexivity.
Defined.

(** Two spaces and a line end. *)
Lemma blank_payload_rejected_witness :
  blank ("  " +:+ LF) = true
  /\ is_json ("  " +:+ LF) = false
  /\ json_loads sample_interpreter ("  " +:+ LF) = raise JSONDecodeError
  /\ handle_web_app_data sample_interpreter
       (sample_update ("  " +:+ LF)) no_context
     = ([ReplyText parse_error_message None], inr tt).
Proof.
  split; [vm_compute; reflexivity|].
  apply (blank_payload_rejected sample_interpreter
           (sample_update ("  " +:+ LF)) no_context).
  vm_compute; reflexivity.
Defined.

(** The demo payload after a line end and two spaces. *)
Lemma leading_whitespace_ignored_witness :
  blank (LF +:+ "  ") = true
  /\ handle_web_app_data sample_interpreter
       {| web_app_data := (LF +:+ "  ") +:+ whopper_payload;
          effective_user_id := 42 |} no_context
     = ([ReplyText (order_response "Whopper" "5.99" "1") None;
         Print (order_log 42 "Whopper" "5.99")],
        inr tt).
Proof.
  split; [vm_compute; reflexivity|].
  rewrite (leading_whitespace_ignored sample_interpreter
             (LF +:+ "  ") whopper_payload 42 no_context);
    vm_compute; reflexivity.
Defined.

(** The payload of the docstring is the one of item 1, the Whopper at 599
    cents, with a space for separator. *)
Lemma demo_order_confirmed_witness :
  order_payload " " 1 "Whopper" 599 = whopper_payload
  /\ handle_web_app_data sample_interpreter
       {| web_app_data := order_payload " " 1 "Whopper" 599;
          effective_user_id := 42 |} no_context
     = ([ReplyText (order_response "Whopper" "5.99" "1") None;
         Print (order_log 42 "Whopper" "5.99")],
        inr tt).
Proof.
  split; [vm_compute; reflexivity|].
  destruct (demo_order_confirmed sample_interpreter
              " " 1 "Whopper" 599 42 no_context)
    as (_ & Hrun & Hascii);
    [reflexivity|reflexivity| |vm_compute; discriminate|].
  - apply (Z.lt_le_trans _ (10 ^ 1)); [reflexivity|].
    apply Z.pow_le_mono_r; [lia|]. vm_compute. discriminate.
  - apply Hrun, Hascii. reflexivity.
Defined.

(** The name is a lone surrogate, written with its escape: the payload is
    24 ASCII characters.  The confirmation is sent, the log line is not
    printed, and the failure is reported and logged. *)
Lemma unprintable_order_reported_witness :
  is_ascii (json_text "{'name':'\ud800','id':7}") = true
  /\ json_loads sample_interpreter (json_text "{'name':'\ud800','id':7}")
     = mret (PyDict [("name", PyStr (Json.utf8 55296)); ("id", PyInt 7)])
  /\ printable sample_interpreter
       (order_log 42 (Json.utf8 55296) "0.00") = false
  /\ handle_web_app_data sample_interpreter
       (sample_update (json_text "{'name':'\ud800','id':7}")) no_context
     = ([ReplyText (order_response (Json.utf8 55296) "0.00" "7") None;
         ReplyText
           "❌ Error processing order: 'utf-8' codec can't encode character '\ud800' in position 25: surrogates not allowed"
           None;
         Print
           "[Error] 'utf-8' codec can't encode character '\ud800' in position 25: surrogates not allowed"],
        inr tt).
Proof.
  split; [vm_compute; reflexivity|].
  split; [vm_compute; reflexivity|].
  split; [vm_compute; reflexivity|].
  destruct (unprintable_order_reported sample_interpreter
              (sample_update (json_text "{'name':'\ud800','id':7}")) no_context
              [("name", PyStr (Json.utf8 55296)); ("id", PyInt 7)]
              (S754_zero false)) as [_ Hrun];
    [vm_compute; reflexivity..|].
  rewrite Hrun. vm_compute. reflexivity.
Defined.

(** A thousand opening brackets, closed or not. *)
Lemma deep_nesting_reported_witness :
  (S (nesting_spare sample_interpreter) < 1000)%nat
  /\ handle_web_app_data sample_interpreter
       (sample_update (brackets 1000 true)) no_context
     = handle_web_app_data sample_interpreter
         (sample_update (brackets 1000 false)) no_context
  /\ handle_web_app_data sample_interpreter
       (sample_update (brackets 1000 false)) no_context
     = ([ReplyText
           "❌ Error processing order: maximum recursion depth exceeded while decoding a JSON array from a unicode string"
           None;
         Print
           "[Error] maximum recursion depth exceeded while decoding a JSON array from a unicode string"],
        inr tt).
Proof.
  assert (Hdepth : (S (nesting_spare sample_interpreter) < 1000)%nat)
    by (apply Nat.ltb_lt; vm_compute; reflexivity).
  split; [exact Hdepth|].
  pose proof (deep_nesting_reported sample_interpreter 1000
                (string_of_list_ascii (repeat "]"%char 1000)) 42 no_context
                Hdepth) as [_ Hclosed].
  pose proof (deep_nesting_reported sample_interpreter 1000 "" 42 no_context
                Hdepth) as [_ Hopen].
  split; [exact (eq_trans Hclosed (eq_sym Hopen))|exact Hopen].
Defined.


Lemma main_builds_application_witness :
  main sample_interpreter ["python_bot.py"; "TOKEN"; "https://burger.example"] =
    ([Print "Starting bot with WebApp URL: https://burger.example";
      Print "Bot is running... Press Ctrl+C to stop.";
      RunPolling
        {| token := "TOKEN";
           bot_data := {[ "webapp_url" := "https://burger.example" ]};
           handlers := [CommandHandler "start" cb_start;
                        MessageHandler_WEB_APP_DATA
                          cb_handle_web_app_data] |}],
     inr tt).
Proof.
  apply (main_builds_application sample_interpreter
           ["python_bot.py"; "TOKEN"; "https://burger.example"] "TOKEN");
    [reflexivity|discriminate|reflexivity].
Defined.

(** An empty token: the URL is printed, then the builder refuses; a URL
    with a lone surrogate: nothing is printed. *)
Example main_refused :
  main sample_interpreter ["python_bot.py"; ""]
  = ([Print "Starting bot with WebApp URL: https://example.com"],
     inl InvalidToken)
  /\ exit_status (main sample_interpreter ["python_bot.py"; ""]) = 1
  /\ main sample_interpreter ["python_bot.py"; "TOKEN"; Json.utf8 55296]
     = ([],
        inl (UnicodeEncodeError
               "'utf-8' codec can't encode character '\ud800' in position 30: surrogates not allowed")).
Proof. repeat split; vm_compute; reflexivity. Qed.
